(** * SWIFT: Surface Water Identification and Forecasting Tool

    A shallow embedding of the Earth Engine scripts of the SWIFT repository
    (constructTimeSeries, SWIFT_classify, S1_classificationAccuracyAssessment)
    and the properties of the water classification and aggregation pipeline.

    Pixel values are exact rationals ([Q]); the cast [toFloat] of the scripts
    is the identity here, so equalities are stated up to [Qeq] and a tolerance
    only bounds what exact arithmetic already gives.  Wind speeds, which need
    a square root, are real numbers ([R]). *)

From Stdlib Require Import ZArith QArith Qabs Qround List String Bool Lia Lqa.
From Stdlib Require Import Reals Lra.
From Stdlib Require Import Sorted Permutation.
Import ListNotations.

Local Open Scope string_scope.
Local Open Scope Q_scope.
Local Open Scope list_scope.

(** ** The raster platform

    The scripts are written against the hosted raster service.  Its
    primitives are not part of the repository; the ones the properties depend
    on are given here, pixel by pixel. *)
Module EE.

Inductive Error : Type :=
| BandNotFound (pattern : string)
| BandCountMismatch
| TooManyPixels.

Inductive Res (A : Type) : Type :=
| Ok (a : A)
| Err (e : Error).
Arguments Ok {A} a.
Arguments Err {A} e.

Definition bind {A B : Type} (m : Res A) (k : A -> Res B) : Res B :=
  match m with
  | Ok a => k a
  | Err e => Err e
  end.

Notation "x <- m ;; k" := (bind m (fun x => k))
  (at level 61, m at next level, right associativity).

Fixpoint mapM {A B : Type} (f : A -> Res B) (l : list A) : Res (list B) :=
  match l with
  | [] => Ok []
  | a :: l' =>
      bind (f a) (fun b => bind (mapM f l') (fun bs => Ok (b :: bs)))
  end.

(** A pixel position of the common grid, and a one-band raster: [None] is a
    masked ("no data") pixel. *)
Definition Pixel : Type := nat.
Definition Raster (A : Type) : Type := Pixel -> option A.

(** One band of one pixel: the band's name and its value, [None] when the
    pixel is masked in that band.  A pixel of a multi-band image is the list
    of its bands, in the image's band order. *)
Definition Band : Type := (string * option Q)%type.
Definition Px : Type := list Band.

Definition Qltb (x y : Q) : bool := negb (Qle_bool y x).

Fixpoint find_band (name : string) (px : Px) : option Band :=
  match px with
  | [] => None
  | b :: px' => if String.eqb (fst b) name then Some b else find_band name px'
  end.

(** Modelled from the spec: the platform's band selection is missing from
    the sources.  Section 3 makes every band a stage refers to mandatory:
    a missing band is a hard error, not silently skipped. *)
Definition select1 (name : string) (px : Px) : Res Band :=
  match find_band name px with
  | Some b => Ok b
  | None => Err (BandNotFound name)
  end.

Definition select (names : list string) (px : Px) : Res Px :=
  mapM (fun n => select1 n px) names.

Definition rename (new : string) (b : Band) : Band := (new, snd b).

(** [select(names, newNames)]: select, then rename position by position. *)
Definition select_as (names news : list string) (px : Px) : Res Px :=
  bind (select names px) (fun bs =>
    if Nat.eqb (List.length bs) (List.length news)
    then Ok (map (fun '(b, n) => rename n b) (combine bs news))
    else Err BandCountMismatch).

(** The cast to 32-bit floats; values are exact rationals here. *)
Definition toFloat (b : Band) : Band := b.

Definition addBands (px : Px) (bs : list Band) : Px := px ++ bs.

(** Modelled from the spec: the platform's mask update is missing from the
    sources.  A mask is a boolean raster, masks compose by logical AND, and
    a pixel excluded by any mask stays excluded (section 3); the pixels kept
    are those where the mask holds, as in [L8QAMask], whose mask is true
    for clear conditions. *)
Definition updateMask {A : Type} (im : Raster A) (mask : Raster bool) : Raster A :=
  fun p =>
    match im p, mask p with
    | Some v, Some true => Some v
    | _, _ => None
    end.

Definition updateMask_px (px : Px) (mask : option bool) : Px :=
  map (fun b : Band =>
         match snd b, mask with
         | Some v, Some true => (fst b, Some v)
         | _, _ => (fst b, None)
         end) px.

Definition lt (im : Raster Q) (c : Q) : Raster bool :=
  fun p => option_map (fun v => Qltb v c) (im p).

Definition gt (im : Raster Q) (c : Q) : Raster bool :=
  fun p => option_map (fun v => Qltb c v) (im p).

Definition to_number (im : Raster bool) : Raster Q :=
  fun p => option_map (fun b : bool => if b then 1 else 0) (im p).

Definition multiply (a b : Raster Q) : Raster Q :=
  fun p =>
    match a p, b p with
    | Some x, Some y => Some (x * y)
    | _, _ => None
    end.

Definition divide_const (a : Raster Q) (c : Q) : Raster Q :=
  fun p => option_map (fun x => x / c) (a p).

(** Band-wise arithmetic of a multi-band pixel with a constant image of as
    many bands: the bands are matched by position and keep the names of
    the first operand. *)
Definition zip_const (op : Q -> Q -> Q) (px : Px) (c : list Q) : Res Px :=
  if Nat.eqb (List.length px) (List.length c)
  then Ok (map (fun '(b, k) => (fst b, option_map (fun v => op v k) (snd b)))
               (combine px c))
  else Err BandCountMismatch.

Definition map_px (f : Q -> Q) (px : Px) : Px :=
  map (fun b : Band => (fst b, option_map f (snd b))) px.

(** Modelled from the spec: the platform's normalized difference is missing
    from the sources.  Section 4.3 gives the ratio [(a - b) / (a + b)] and
    makes a zero denominator "no data" for that index only. *)
Definition normalizedDifference (a b : string) (px : Px) : Res Band :=
  bind (select1 a px) (fun x =>
  bind (select1 b px) (fun y =>
    Ok ("nd",
        match snd x, snd y with
        | Some u, Some v =>
            if Qeq_bool (u + v) 0 then None else Some ((u - v) / (u + v))
        | _, _ => None
        end))).

(** Arithmetic band expressions, as parsed from the expression strings. *)
Inductive expr : Type :=
| Var (x : string)
| Num (q : Q)
| Add (a b : expr)
| Sub (a b : expr)
| Mul (a b : expr).

Fixpoint lookup_var (x : string) (env : list (string * Band)) : option Band :=
  match env with
  | [] => None
  | (y, b) :: env' => if String.eqb y x then Some b else lookup_var x env'
  end.

Definition lift2 (op : Q -> Q -> Q) (x y : option Q) : option Q :=
  match x, y with
  | Some u, Some v => Some (op u v)
  | _, _ => None
  end.

(** The value of an expression at one pixel: masked as soon as one of its
    operands is. *)
Fixpoint eval (env : list (string * Band)) (e : expr) : Res (option Q) :=
  match e with
  | Var x =>
      match lookup_var x env with
      | Some b => Ok (snd b)
      | None => Err (BandNotFound x)
      end
  | Num q => Ok (Some q)
  | Add a b => bind (eval env a) (fun x => bind (eval env b) (fun y => Ok (lift2 Qplus x y)))
  | Sub a b => bind (eval env a) (fun x => bind (eval env b) (fun y => Ok (lift2 Qminus x y)))
  | Mul a b => bind (eval env a) (fun x => bind (eval env b) (fun y => Ok (lift2 Qmult x y)))
  end.

(** [im.expression(e, dict)]: the dictionary binds the expression's
    variables to one-band images; every entry must select an existing
    band. *)
Definition expression (e : expr) (dict : list (string * Res Band)) : Res Band :=
  bind (mapM (fun '(x, r) => bind r (fun b => Ok (x, b))) dict) (fun env =>
  bind (eval env e) (fun v => Ok ("constant", v))).

(** [select(pattern)] with a pattern that is not a plain name: the bands
    whose name the pattern accepts, in band order; no match is an error. *)
Definition select_matching (pattern : string) (accepts : string -> bool)
    (px : Px) : Res Px :=
  match filter (fun b : Band => accepts (fst b)) px with
  | [] => Err (BandNotFound pattern)
  | bs => Ok bs
  end.

(** *** Reducers *)

Fixpoint insert_sorted (x : Q) (l : list Q) : list Q :=
  match l with
  | [] => [x]
  | y :: l' => if Qle_bool x y then x :: l else y :: insert_sorted x l'
  end.

Definition sort (l : list Q) : list Q := fold_right insert_sorted [] l.

(** Modelled from the spec: the platform's median reducer is missing from
    the sources.  By sections 4.7 and 8 it is the median of the values
    present, a tie between the two middle values resolves to the lower one,
    and no value at all gives no data. *)
Definition median_list (l : list Q) : option Q :=
  nth_error (sort l) ((List.length l - 1) / 2).

(** The unmasked values of the rasters at one pixel, in collection order. *)
Definition values_at {A : Type} (rs : list (Raster A)) (p : Pixel) : list A :=
  flat_map (fun r : Raster A => match r p with Some v => [v] | None => [] end) rs.

Definition median (rs : list (Raster Q)) : Raster Q :=
  fun p => median_list (values_at rs p).

Definition inside (geometry : list Pixel) (p : Pixel) : bool :=
  existsb (Nat.eqb p) geometry.

Definition clip {A : Type} (im : Raster A) (geometry : list Pixel) : Raster A :=
  fun p => if inside geometry p then im p else None.

(** Modelled from the spec: the platform's region reduction is missing
    from the sources.  By section 4.8 the sum reducer adds the values of
    the unmasked pixels of the region, and a region of more pixels than
    the budget fails with a resource-limit error instead of truncating. *)
Definition reduceRegion_sum (im : Raster Q) (geometry : list Pixel)
    (maxPixels : Z) : Res Q :=
  if (maxPixels <? Z.of_nat (List.length geometry))%Z
  then Err TooManyPixels
  else Ok (fold_right (fun p acc => match im p with
                                    | Some v => v + acc
                                    | None => acc
                                    end) 0 geometry).

(** *** Calendar

    Timestamps are milliseconds since 1970-01-01T00:00 UTC.  The date
    filters and [advance] work on the proleptic Gregorian calendar. *)
Local Open Scope Z_scope.

Definition ms_per_day : Z := 86400000.

Definition days_from_civil (y m d : Z) : Z :=
  let y' := if m <=? 2 then y - 1 else y in
  let era := y' / 400 in
  let yoe := y' - era * 400 in
  let mp := if m <=? 2 then m + 9 else m - 3 in
  let doy := (153 * mp + 2) / 5 + d - 1 in
  let doe := yoe * 365 + yoe / 4 - yoe / 100 + doy in
  era * 146097 + doe - 719468.

Definition civil_from_days (z : Z) : Z * Z * Z :=
  let z' := z + 719468 in
  let era := z' / 146097 in
  let doe := z' - era * 146097 in
  let yoe := (doe - doe / 1460 + doe / 36524 - doe / 146096) / 365 in
  let doy := doe - (365 * yoe + yoe / 4 - yoe / 100) in
  let mp := (5 * doy + 2) / 153 in
  let d := doy - (153 * mp + 2) / 5 + 1 in
  let m := if mp <? 10 then mp + 3 else mp - 9 in
  let y := yoe + era * 400 + (if m <=? 2 then 1 else 0) in
  (y, m, d).

Arguments days_from_civil : simpl never.
Arguments civil_from_days : simpl never.

(** [ee.Date('YYYY-MM-dd')], as its [millis()]. *)
Definition Date (y m d : Z) : Z := days_from_civil y m d * ms_per_day.

(** [date.format('YYYY-MM-dd')], as the triple year, month, day. *)
Definition format_YMD (t : Z) : Z * Z * Z := civil_from_days (t / ms_per_day).

Definition month_of (t : Z) : Z := snd (fst (format_YMD t)).

Definition is_leap (y : Z) : bool :=
  ((y mod 4 =? 0) && negb (y mod 100 =? 0)) || (y mod 400 =? 0).

Definition days_in_month (y m : Z) : Z :=
  if m =? 2 then (if is_leap y then 29 else 28)
  else if (m =? 4) || (m =? 6) || (m =? 9) || (m =? 11) then 30
  else 31.

Definition advance_day (n : Z) (t : Z) : Z := t + n * ms_per_day.
Definition advance_week (n : Z) (t : Z) : Z := t + n * (7 * ms_per_day).

(** [date.advance(n, 'month')]: the same day and time of day [n] months
    later, the day clamped to the length of the target month. *)
Definition advance_month (n : Z) (t : Z) : Z :=
  let '(y, m, d) := format_YMD t in
  let total := y * 12 + (m - 1) + n in
  let y' := total / 12 in
  let m' := total mod 12 + 1 in
  let d' := Z.min d (days_in_month y' m') in
  days_from_civil y' m' d' * ms_per_day + t mod ms_per_day.

(** [ee.List.sequence(start, end, step)]: [start], [start + step], ... up
    to [end] inclusive. *)
Definition sequence (start stop step : Z) : list Z :=
  if (0 <? step) && (start <=? stop)
  then map (fun i => start + Z.of_nat i * step)
           (seq 0 (S (Z.to_nat ((stop - start) / step))))
  else [].

End EE.

(** ** Optical imagery: quality masks, harmonization, band indices *)
Module Optical.
Import EE.

(** An image of a collection: its acquisition time (the property
    'system:time_start', absent when an operation dropped it), its
    footprint on the grid, its other numeric properties and its pixels.
    Pixels are computed on demand: an operation that refers to a band the
    image lacks makes every pixel an error. *)
Record Image : Type := {
  time_start : option Z;
  footprint : list Pixel;
  properties : list (string * Q);
  pixels : Pixel -> Res Px
}.

Definition ImageCollection : Type := list Image.

(** [im.clip(geometry)]: the pixels outside the geometry are masked. *)
Definition clip_image (im : Image) (geometry : list Pixel) : Image :=
  {| time_start := time_start im;
     footprint := footprint im;
     properties := properties im;
     pixels := fun p =>
       px <- pixels im p ;;
       Ok (if inside geometry p then px else updateMask_px px None) |}.

Definition on_pixels (f : Px -> Res Px) (im : Image) : Image :=
  {| time_start := time_start im;
     footprint := footprint im;
     properties := properties im;
     pixels := fun p => px <- pixels im p ;; f px |}.

(** The result of image arithmetic carries no properties;
    [copyProperties(src, ['system:time_start'])] restores the time. *)
Definition arithmetic_copying_time (f : Px -> Res Px) (src : Image) : Image :=
  {| time_start := time_start src;
     footprint := footprint src;
     properties := [];
     pixels := fun p => px <- pixels src p ;; f px |}.

Fixpoint get_property (name : string) (props : list (string * Q)) : option Q :=
  match props with
  | [] => None
  | (k, v) :: props' => if String.eqb k name then Some v else get_property name props'
  end.

Definition filterBounds (geometry : list Pixel) (c : ImageCollection) : ImageCollection :=
  filter (fun im => existsb (fun p => existsb (Nat.eqb p) geometry) (footprint im)) c.

Definition filterDate (start stop : Z) (c : ImageCollection) : ImageCollection :=
  filter (fun im =>
            match time_start im with
            | Some t => (start <=? t)%Z && (t <? stop)%Z
            | None => false
            end) c.

(** [ee.Filter.calendarRange(lo, hi, 'month')], for [lo <= hi]. *)
Definition calendarRange_month (lo hi : Z) (im : Image) : bool :=
  match time_start im with
  | Some t => (lo <=? month_of t)%Z && (month_of t <=? hi)%Z
  | None => false
  end.

Definition filter_lt (name : string) (bound : Q) (im : Image) : bool :=
  match get_property name (properties im) with
  | Some v => Qltb v bound
  | None => false
  end.

Definition is_digit (c : Ascii.ascii) : bool :=
  let n := Ascii.nat_of_ascii c in (48 <=? n)%nat && (n <=? 57)%nat.

Fixpoint all_digits (s : string) : bool :=
  match s with
  | EmptyString => true
  | String c s' => is_digit c && all_digits s'
  end.

(** The pattern "SR_B[0-9]*". *)
Definition is_SR_B (name : string) : bool :=
  String.prefix "SR_B" name && all_digits (String.substring 4 (String.length name - 4) name).

(** Landsat 8 image quality masking. *)
Definition L8QAMask_px (px : Px) : Res Px :=
  let cloudShadowBitMask := Z.shiftl 1 3 in
  let cloudsBitMask := Z.shiftl 1 5 in
  qa <- select1 "QA_PIXEL" px ;;
  let mask :=
    option_map (fun v => let q := Qfloor v in
                         Z.eqb (Z.land q cloudShadowBitMask) 0
                         && Z.eqb (Z.land q cloudsBitMask) 0) (snd qa) in
  select_matching "SR_B[0-9]*" is_SR_B
    (map_px (fun v => v / 10000) (updateMask_px px mask)).

Definition L8QAMask (image : Image) : Image :=
  arithmetic_copying_time L8QAMask_px image.

(** Sentinel-2 image quality masking. *)
Definition S2QAMask_px (px : Px) : Res Px :=
  QA60 <- select1 "QA60" px ;;
  Ok (updateMask_px px (option_map (fun v => Qltb v 1) (snd QA60))).

Definition S2QAMask (image : Image) : Image := on_pixels S2QAMask_px image.

(** Sentinel-2 band pass adjustment coefficients. *)
Definition GAIN : list Q := [0.9778; 1.0053; 0.9765; 0.9983; 0.9987; 1.003].
Definition BIAS : list Q := [-0.00411; -0.00093; 0.00094; -0.0001; -0.0015; -0.0012].

(** harmonize imagery *)
Definition harmonize_px (px : Px) : Res Px :=
  scaled <- zip_const Qmult px GAIN ;;
  zip_const Qplus scaled BIAS.

Definition harmonize (S2im : Image) : Image :=
  arithmetic_copying_time harmonize_px S2im.

Definition L8_bands : list string :=
  ["SR_B2"; "SR_B3"; "SR_B4"; "SR_B5"; "SR_B6"; "SR_B7"].
Definition S2_bands : list string := ["B2"; "B3"; "B4"; "B8"; "B11"; "B12"].
Definition common_bands : list string :=
  ["blue"; "green"; "red"; "NIR"; "SWIR1"; "SWIR2"].

(** The query collections of Landsat 8 and Sentinel-2 images; the scripts
    differ in the bounds and in the cloud cover they accept. *)
Definition L8_query (bounds : list Pixel) (cloud : Q) (start_date end_date : Z)
    (catalog : ImageCollection) : ImageCollection :=
  map (on_pixels (select_as L8_bands common_bands))
    (map L8QAMask
      (filter (filter_lt "CLOUD_COVER" cloud)
        (filter (calendarRange_month 3 11)
          (filterDate start_date end_date
            (filterBounds bounds catalog))))).

Definition S2_query (bounds : list Pixel) (cloud : Q) (start_date end_date : Z)
    (catalog : ImageCollection) : ImageCollection :=
  map harmonize
    (map (on_pixels (select_as S2_bands common_bands))
      (map S2QAMask
        (filter (filter_lt "CLOUD_COVERAGE_ASSESSMENT" cloud)
          (filter (calendarRange_month 3 11)
            (filterDate start_date end_date
              (filterBounds bounds catalog)))))).

(** Modified Normalized Difference Water index *)
Definition MNDWI (im : Px) : Res Band :=
  nd <- normalizedDifference "green" "SWIR1" im ;;
  Ok (toFloat (rename "MNDWI" nd)).

(** Automated Water Extraction Index (shadow): "b+2.5*g-1.5*(n+s)-0.25*w" *)
Definition AWEIsh_expr : expr :=
  Sub (Sub (Add (Var "b") (Mul (Num 2.5) (Var "g")))
           (Mul (Num 1.5) (Add (Var "n") (Var "s"))))
      (Mul (Num 0.25) (Var "w")).

Definition AWEIsh (im : Px) : Res Band :=
  v <- expression AWEIsh_expr
         [("b", select1 "blue" im);
          ("g", select1 "green" im);
          ("n", select1 "NIR" im);
          ("s", select1 "SWIR1" im);
          ("w", select1 "SWIR2" im)] ;;
  Ok (toFloat (rename "AWEIsh" v)).

(** Tassled Cap Wetness index:
    '0.1511 * b + 0.1973 * g + 0.3283 * r + 0.3407 * n + -0.7117 * s1 + -0.4559 * s2' *)
Definition TCW_expr : expr :=
  Add (Add (Add (Add (Add (Mul (Num 0.1511) (Var "b"))
                          (Mul (Num 0.1973) (Var "g")))
                     (Mul (Num 0.3283) (Var "r")))
                (Mul (Num 0.3407) (Var "n")))
           (Mul (Num (-0.7117)) (Var "s1")))
      (Mul (Num (-0.4559)) (Var "s2")).

Definition select_float (name : string) (im : Px) : Res Band :=
  b <- select1 name im ;; Ok (toFloat b).

(** The wetness band under the name the script gives it. *)
Definition wetness (name : string) (im : Px) : Res Band :=
  v <- expression TCW_expr
         [("b", select_float "blue" im);
          ("g", select_float "green" im);
          ("r", select_float "red" im);
          ("n", select_float "NIR" im);
          ("s1", select_float "SWIR1" im);
          ("s2", select_float "SWIR2" im)] ;;
  Ok (toFloat (rename name v)).

(** Normalized Difference Vegetation Index *)
Definition NDVI (im : Px) : Res Band :=
  nd <- normalizedDifference "NIR" "red" im ;;
  Ok (toFloat (rename "NDVI" nd)).

(** Define bands to use for training, as SWIFT_classify names them. *)
Definition optical_bands : list string := ["MNDWI"; "AWEIsh"; "TCW"; "NDVI"].

End Optical.

(** ** Random forest classifiers *)
Module Classification.
Import EE.

(** A sampled point: the predictor bands at the point, the 'water' label
    and the 'random' column. *)
Record Sample : Type := {
  predictors : list (string * Q);
  water : Q;
  random : Q
}.

Record Classifier : Type := {
  numberOfTrees : Z;
  features : list Sample;
  classProperty : string;
  inputProperties : list string
}.

(** [ee.Classifier.smileRandomForest(n)], not trained yet. *)
Definition smileRandomForest (n : Z) : Classifier :=
  {| numberOfTrees := n; features := []; classProperty := ""; inputProperties := [] |}.

Definition train (c : Classifier) (samples : list Sample) (class : string)
    (inputs : list string) : Classifier :=
  {| numberOfTrees := numberOfTrees c;
     features := samples;
     classProperty := class;
     inputProperties := inputs |}.

(** A classified image: the acquisition time and the one band
    'classification'. *)
Record Classified : Type := {
  acquired : option Z;
  classification : Raster Q
}.

End Classification.

(** ** The wind mask of the radar classification *)
Module Wind.
Import EE Classification.
Local Open Scope R_scope.

(** One 6-hourly forecast of the wind components at 10 m above ground. *)
Record Forecast : Type := {
  valid_time : Z;
  u_component_of_wind_height_above_ground : Raster R;
  v_component_of_wind_height_above_ground : Raster R
}.

Definition filterDate (start stop : Z) (c : list Forecast) : list Forecast :=
  filter (fun f => (start <=? valid_time f)%Z && (valid_time f <? stop)%Z) c.

(** Modelled from the spec: the platform's maximum reducer is missing from
    the sources.  Section 4.6 takes the maximum over the period of each
    wind component, pixel by pixel. *)
Definition max_list (l : list R) : option R :=
  match l with
  | [] => None
  | x :: l' => Some (fold_left Rmax l' x)
  end.

Definition max (rs : list (Raster R)) : Raster R :=
  fun p => max_list (values_at rs p).

Definition pow (a : Raster R) (n : nat) : Raster R :=
  fun p => option_map (fun x => x ^ n) (a p).

Definition add (a b : Raster R) : Raster R :=
  fun p =>
    match a p, b p with
    | Some x, Some y => Some (x + y)
    | _, _ => None
    end.

Definition sqrt (a : Raster R) : Raster R :=
  fun p => option_map R_sqrt.sqrt (a p).

Definition multiply (a : Raster R) (c : R) : Raster R :=
  fun p => option_map (fun x => x * c) (a p).

Definition lt (a : Raster R) (c : R) : Raster bool :=
  fun p => option_map (fun x => if Rlt_dec x c then true else false) (a p).

(** The wind speed raster 'windy', in km/h. *)
Definition windy (start_date end_date : Z) (catalog : list Forecast) : Raster R :=
  let wx := filterDate start_date end_date catalog in
  let vWind := map v_component_of_wind_height_above_ground wx in
  let a := max vWind in
  let uWind := map u_component_of_wind_height_above_ground wx in
  let b := max uWind in
  let a := pow a 2 in
  let b := pow b 2 in
  let ab := add a b in
  let ws := sqrt ab in
  multiply ws 3.6.

Definition windMask (start_date end_date : Z) (catalog : list Forecast)
    (im : Classified) : Classified :=
  let ws := windy start_date end_date catalog in
  let mask := lt ws 12.0 in
  {| acquired := acquired im;
     classification := updateMask (classification im) mask |}.

End Wind.

(** ** Mosaics by date and water masks

    The text of these functions is the same in constructTimeSeries and in
    SWIFT_classify; the script variable [collection] they refer to is their
    first argument here. *)
Module Compositor.
Import EE Classification.

(** A mosaic: the composite band 'classification' and the properties
    'system:time_start', 'dateYMD' and 'numbImages'. *)
Record Mosaic : Type := {
  composite : Raster Q;
  system_time_start : Z;
  dateYMD : Z * Z * Z;
  numbImages : nat
}.

Definition with_composite (im : Mosaic) (r : Raster Q) : Mosaic :=
  {| composite := r;
     system_time_start := system_time_start im;
     dateYMD := dateYMD im;
     numbImages := numbImages im |}.

(** Create image mosaics for each week in the collection *)
Definition mosaicByDate (collection : list Classified) (date : Z) : Mosaic :=
  {| composite := median (map classification collection);
     system_time_start := date;
     dateYMD := format_YMD date;
     numbImages := List.length collection |}.

(** Function to mask pixels with classification < 1 *)
Definition maskNonWater (im : Mosaic) : Mosaic :=
  with_composite im (updateMask (composite im) (lt (composite im) 1)).

(** Mask pixels with HAND > 10 m *)
Definition HANDmask (HAND : Raster Q) : Raster bool := lt HAND 10.

(** A square kernel. *)
Record Kernel : Type := { radius : Z; normalize : bool }.

(** Define a boxcar or low-pass kernel *)
Definition boxcar : Kernel := {| radius := 5; normalize := true |}.

(** The image with the band 'waterArea' added and the properties 'area'
    (named 'area(m2)' in SWIFT_classify) and 'date' set. *)
Record AreaImage : Type := {
  image : Mosaic;
  waterArea : Raster Q;
  area : Q;
  date : Z * Z * Z
}.

Definition pixelArea_raster (pixelArea : Pixel -> Q) : Raster Q :=
  fun p => Some (pixelArea p).

End Compositor.

(** ** The script constructTimeSeries *)
Module ConstructTimeSeries.
Import EE Optical Classification Compositor.

(** Function to calculate water indices used as predictors in the RF
    classification; the wetness band is named 'TWC' in this script. *)
Definition waterMapping (im : Px) : Res Px :=
  MNDWI <- MNDWI im ;;
  AWEIsh <- AWEIsh im ;;
  TWC <- wetness "TWC" im ;;
  NDVI <- NDVI im ;;
  let im_Bands := addBands im [MNDWI; AWEIsh; TWC; NDVI] in
  select ["MNDWI"; "AWEIsh"; "TWC"; "NDVI"] im_Bands.

(** Define bands to use for training *)
Definition optical_bands : list string := ["MNDWI"; "AWEIsh"; "TWC"; "NDVI"].

(** The date range the script ships with. *)
Definition default_start_date : Z := Date 2013 4 1.
Definition default_end_date : Z := advance_week 2 default_start_date.

(** A grazing allotment: its name and its geometry. *)
Record Feature : Type := { ALLOTMENT_ : string; geometry : list Pixel }.

Record AllotmentSeries : Type := {
  feature : Feature;
  area_array : list Q;
  date_array : list (Z * Z * Z)
}.

Section Script.
(** Date range and area of interest, set by the user at the top of the
    script; the imported tables; the image catalogs. *)
Variables start_date end_date : Z.
Variable AOI : list Pixel.
Variable water : list Pixel.
Variable allotments : list Feature.
Variables LANDSAT_LC08_C02_T1_L2 COPERNICUS_S2 : ImageCollection.
Variable S1_preprocess : ImageCollection.
Variable NOAA_CFSV2_FOR6H : list Wind.Forecast.
Variable HAND : Raster Q.
Variable pixelArea : Pixel -> Q.
Variables optical_training S1_training : list Sample.

(** The platform's prediction and convolution. *)
Variable classify : Classifier -> Image -> Classified.
Variable convolve : Raster Q -> Kernel -> Raster Q.

(** Define the RF model using 500 trees *)
Definition optical_classifier : Classifier :=
  train (smileRandomForest 500) optical_training "water" optical_bands.

Definition S1_bands : list string := ["VV"; "VH"; "angle"].

(** Define the RF model using 500 trees *)
Definition S1_classifier : Classifier :=
  train (smileRandomForest 500) S1_training "water" S1_bands.

Definition L8 : ImageCollection :=
  L8_query water 10 start_date end_date LANDSAT_LC08_C02_T1_L2.
Definition S2 : ImageCollection :=
  S2_query water 10 start_date end_date COPERNICUS_S2.
Definition L8S2 : ImageCollection := L8 ++ S2.
Definition L8S2_ind : ImageCollection := map (on_pixels waterMapping) L8S2.
Definition L8S2_classified : list Classified :=
  map (fun im => classify optical_classifier im) L8S2_ind.

Definition S1_cf : list Classified :=
  map (fun im => classify S1_classifier im) S1_preprocess.

(** Smooth the image collection and apply a wind mask *)
Definition smooth (im : Classified) : Classified :=
  {| acquired := acquired im;
     classification := to_number (gt (convolve (classification im) boxcar) 0.97) |}.

Definition windMask (im : Classified) : Classified :=
  Wind.windMask start_date end_date NOAA_CFSV2_FOR6H im.

Definition S1_classified : list Classified := map windMask (map smooth S1_cf).

Definition collection : list Classified := L8S2_classified ++ S1_classified.

Definition monthDifference : Z := advance_month 1 start_date - start_date.

(** Iterate over the range to make a new list, and then cast the list to
    an imagecollection *)
Definition listMap : list Z := sequence start_date end_date monthDifference.

Definition mosaics : list Mosaic :=
  map (fun dateMillis => let date := dateMillis in mosaicByDate collection date)
      listMap.

(** The script also maps [im.clip(AOI)] over [mosaics] here and drops the
    result. *)
Definition water_collection : list Mosaic := map maskNonWater mosaics.

Definition mask_HAND (im : Mosaic) : Mosaic :=
  with_composite im (updateMask (composite im) (HANDmask HAND)).

Definition water_masked : list Mosaic := map mask_HAND water_collection.

(** Calculate water area in AOI *)
Definition calculateWaterArea_AOI (im : Mosaic) : Res AreaImage :=
  let waterArea :=
    multiply (composite im) (divide_const (pixelArea_raster pixelArea) 1e6) in
  area <- reduceRegion_sum waterArea AOI 10000000000000 ;;
  Ok {| image := im;
        waterArea := waterArea;
        area := area;
        date := format_YMD (system_time_start im) |}.

Definition waterArea_AOI : Res (list AreaImage) :=
  mapM calculateWaterArea_AOI water_masked.

(** Calculate water area in allotments: the function mapped over the
    masked mosaics, for one allotment. *)
Definition area_of_image (feature : Feature) (im : Mosaic)
    : Res (Q * (Z * Z * Z)) :=
  let waterArea :=
    multiply (composite im) (divide_const (pixelArea_raster pixelArea) 1e6) in
  area <- reduceRegion_sum waterArea (geometry feature) 10000000000 ;;
  Ok (area, format_YMD (system_time_start im)).

Definition calculateWaterArea_allotments (feature : Feature) : Res AllotmentSeries :=
  areaTimeSeries <- mapM (area_of_image feature) water_masked ;;
  Ok {| feature := feature;
        area_array := map fst areaTimeSeries;
        date_array := map snd areaTimeSeries |}.

Definition waterArea_allotments : Res (list AllotmentSeries) :=
  mapM calculateWaterArea_allotments allotments.

End Script.

End ConstructTimeSeries.

(** ** The module SWIFT_classify *)
Module SWIFT_classify.
Import EE Optical Classification Compositor.

(** Function to calculate water indices and detect water *)
Definition waterMapping (im : Px) : Res Px :=
  MNDWI <- MNDWI im ;;
  AWEIsh <- AWEIsh im ;;
  TCW <- wetness "TCW" im ;;
  NDVI <- NDVI im ;;
  let im_Bands := addBands im [MNDWI; AWEIsh; TCW; NDVI] in
  select ["MNDWI"; "AWEIsh"; "TCW"; "NDVI"] im_Bands.

Section classifyWater.
(** The arguments of [classifyWater]. *)
Variable AOI : list Pixel.
Variables start_date end_date : Z.

(** What the function takes from its environment. *)
Variables LANDSAT_LC08_C02_T1_L2 COPERNICUS_S2_SR_HARMONIZED : ImageCollection.
Variable S1_preprocess : ImageCollection.
Variable NOAA_CFSV2_FOR6H : list Wind.Forecast.
Variable HAND : Raster Q.
Variable pixelArea : Pixel -> Q.
Variables optical_training S1_training : list Sample.
Variable classify : Classifier -> Image -> Classified.
Variable convolve : Raster Q -> Kernel -> Raster Q.

(** Develop the optical RF model for optical imagery using 500 trees *)
Definition optical_classifier : Classifier :=
  train (smileRandomForest 500) optical_training "water" optical_bands.

Definition S1_bands : list string := ["VV"; "VH"; "angle"].

(** Develop the radar RF model using 500 trees *)
Definition S1_classifier : Classifier :=
  train (smileRandomForest 500) S1_training "water" S1_bands.

Definition L8 : ImageCollection :=
  L8_query AOI 50 start_date end_date LANDSAT_LC08_C02_T1_L2.
Definition S2 : ImageCollection :=
  S2_query AOI 50 start_date end_date COPERNICUS_S2_SR_HARMONIZED.
Definition L8S2 : ImageCollection := L8 ++ S2.
Definition L8S2_ind : ImageCollection := map (on_pixels waterMapping) L8S2.
Definition L8S2_classified : list Classified :=
  map (fun im => classify optical_classifier im) L8S2_ind.

Definition S1_cf : list Classified :=
  map (fun im => classify S1_classifier im) S1_preprocess.

Definition smooth (im : Classified) : Classified :=
  {| acquired := acquired im;
     classification := to_number (gt (convolve (classification im) boxcar) 0.97) |}.

Definition windMask (im : Classified) : Classified :=
  Wind.windMask start_date end_date NOAA_CFSV2_FOR6H im.

Definition S1_classified : list Classified := map windMask (map smooth S1_cf).

(** Merge collections and clip to AOI *)
Definition collection : list Classified :=
  map (fun im => {| acquired := acquired im;
                    classification := clip (classification im) AOI |})
      (L8S2_classified ++ S1_classified).

Definition weekDifference : Z := advance_week 1 start_date - start_date.

Definition listMap : list Z := sequence start_date end_date weekDifference.

Definition weeklyMosaics : list Mosaic :=
  map (fun dateMillis => let date := dateMillis in mosaicByDate collection date)
      listMap.

Definition water_collection : list Mosaic := map maskNonWater weeklyMosaics.

Definition water_masked : list Mosaic :=
  map (fun im => with_composite im (updateMask (composite im) (HANDmask HAND)))
      water_collection.

(** Calculate water area in AOI *)
Definition calculateWaterArea_AOI (im : Mosaic) : Res AreaImage :=
  let waterArea := multiply (composite im) (pixelArea_raster pixelArea) in
  area <- reduceRegion_sum waterArea AOI 10000000000000 ;;
  Ok {| image := im;
        waterArea := waterArea;
        area := area;
        date := format_YMD (system_time_start im) |}.

Definition waterArea_AOI : Res (list AreaImage) :=
  mapM calculateWaterArea_AOI water_collection.

(** The image [classifyWater] returns, without the true color bands. *)
Definition im_return : Res (option AreaImage) :=
  l <- waterArea_AOI ;; Ok (hd_error l).

End classifyWater.

End SWIFT_classify.

(** ** The script S1_classificationAccuracyAssessment

    The script is a sequence of statements over its variables.  A statement
    is a state transformer on the record of the variables; an expression
    statement computes a value and drops it. *)
Module S1_classificationAccuracyAssessment.
Import EE Optical Classification Compositor.

Definition start_date : Z := Date 2018 1 20.
Definition end_date : Z := Date 2018 2 4.

(** Update mask to exlude areas where where the wind speed is >= 12 *)
Definition windMask_px (px : Px) : Res Px :=
  windy <- select1 "windy" px ;;
  let mask := Some (match snd windy with
                    | Some v => Qltb v 12.0
                    | None => false
                    end) in
  Ok (updateMask_px px mask).

Definition windMask (image : Image) : Image := on_pixels windMask_px image.

Section Script.
(** The labelled points, the preprocessed radar collection, the wind
    forecasts, the drainage heights and the export polygon. *)
Variable LabeledPoint : Type.
Variable points : list LabeledPoint.
Variable NOAA_CFSV2_FOR6H : list Wind.Forecast.
Variable HAND : Raster Q.
Variable geometry : list Pixel.

(** The platform's operations the script calls. *)
Variable ee_mosaic : ImageCollection -> Image.
Variable sampleRegions : Image -> list LabeledPoint -> Z -> list Sample.
Variable randomColumn : list Sample -> list Sample.
Variable classify : Classifier -> Image -> Raster Q.
Variable classify_samples : Classifier -> list Sample -> list (Sample * Q).
Variable convolve : Raster Q -> Kernel -> Raster Q.
Variable ConfusionMatrix : Type.
Variable errorMatrix : list (Sample * Q) -> ConfusionMatrix.
Variable accuracy kappa : ConfusionMatrix -> Q.

(** The variables of the script and what it has printed and exported. *)
Record Vars : Type := {
  S1_preprocess : ImageCollection;
  ws : list (Raster R * Z);
  S1_mosaic : option Image;
  observedPoints : list Sample;
  training : list Sample;
  testing : list Sample;
  classifier : option Classifier;
  water_masked : option (Raster Q);
  console : list (string * Q);
  matrices : list ConfusionMatrix;
  exports : list (string * Raster Q);
  exported_images : list (string * Image)
}.

Definition Stmt : Type := Vars -> Vars.

Definition run (prog : list Stmt) (st : Vars) : Vars :=
  fold_left (fun s stmt => stmt s) prog st.

Definition initial (preprocessed : ImageCollection) : Vars :=
  {| S1_preprocess := preprocessed; ws := []; S1_mosaic := None;
     observedPoints := []; training := []; testing := [];
     classifier := None; water_masked := None; console := [];
     matrices := []; exports := []; exported_images := [] |}.

(** var ws = ee.List(datesList).map(...) *)
Definition assign_ws : Stmt := fun st =>
  let datesList :=
    flat_map (fun im => match time_start im with Some t => [t] | None => [] end)
             (S1_preprocess st) in
  {| S1_preprocess := S1_preprocess st;
     ws := map (fun date => (Wind.windy start_date end_date NOAA_CFSV2_FOR6H, date))
               datesList;
     S1_mosaic := S1_mosaic st; observedPoints := observedPoints st;
     training := training st; testing := testing st;
     classifier := classifier st; water_masked := water_masked st;
     console := console st; matrices := matrices st; exports := exports st;
     exported_images := exported_images st |}.

(** S1_preprocess.map(f);  -- the value of the expression is dropped. *)
Definition map_and_drop (f : Image -> Image) : Stmt := fun st =>
  let mapped : ImageCollection := map f (S1_preprocess st) in
  st.

(** var S1_mosaic = S1_preprocess.mosaic(); *)
Definition assign_S1_mosaic : Stmt := fun st =>
  {| S1_preprocess := S1_preprocess st; ws := ws st;
     S1_mosaic := Some (ee_mosaic (S1_preprocess st));
     observedPoints := observedPoints st;
     training := training st; testing := testing st;
     classifier := classifier st; water_masked := water_masked st;
     console := console st; matrices := matrices st; exports := exports st;
     exported_images := exported_images st |}.

Definition bands : list string := ["VV"; "VH"; "angle"].
Definition split : Q := 0.8.

(** var observedPoints = S1_mosaic.sampleRegions(...).randomColumn();
    and the split into training and testing samples. *)
Definition assign_samples : Stmt := fun st =>
  match S1_mosaic st with
  | None => st
  | Some m =>
      let observed := randomColumn (sampleRegions m points 10) in
      {| S1_preprocess := S1_preprocess st; ws := ws st;
         S1_mosaic := S1_mosaic st;
         observedPoints := observed;
         training := filter (fun s => Qltb (random s) split) observed;
         testing := filter (fun s => Qle_bool split (random s)) observed;
         classifier := classifier st; water_masked := water_masked st;
         console := console st; matrices := matrices st; exports := exports st;
         exported_images := exported_images st |}
  end.

(** var classifier = ee.Classifier.smileRandomForest(500).train(...);
    the classified mosaic, smoothed, thresholded and HAND-masked. *)
Definition assign_classified : Stmt := fun st =>
  match S1_mosaic st with
  | None => st
  | Some m =>
      let c := train (smileRandomForest 500) (training st) "water" bands in
      let classified := classify c (on_pixels (select bands) m) in
      let smooth := convolve classified boxcar in
      let waterIm := to_number (gt smooth 0.97) in
      {| S1_preprocess := S1_preprocess st; ws := ws st;
         S1_mosaic := S1_mosaic st; observedPoints := observedPoints st;
         training := training st; testing := testing st;
         classifier := Some c;
         water_masked := Some (updateMask waterIm (HANDmask HAND));
         console := console st; matrices := matrices st; exports := exports st;
         exported_images := exported_images st |}
  end.

(** The accuracy assessment printed to the console. *)
Definition print_accuracy : Stmt := fun st =>
  match classifier st with
  | None => st
  | Some c =>
      let validation := classify_samples c (testing st) in
      let testAccuracy := errorMatrix validation in
      {| S1_preprocess := S1_preprocess st; ws := ws st;
         S1_mosaic := S1_mosaic st; observedPoints := observedPoints st;
         training := training st; testing := testing st;
         classifier := classifier st; water_masked := water_masked st;
         console := console st
                    ++ [("Validation Overall Accuracy RF: ", accuracy testAccuracy);
                        ("Validation Kappa", kappa testAccuracy)];
         matrices := matrices st ++ [testAccuracy];
         exports := exports st;
         exported_images := exported_images st |}
  end.

(** The two exports, clipped to the polygon. *)
Definition export_images : Stmt := fun st =>
  match S1_mosaic st, water_masked st with
  | Some m, Some w =>
      {| S1_preprocess := S1_preprocess st; ws := ws st;
         S1_mosaic := S1_mosaic st; observedPoints := observedPoints st;
         training := training st; testing := testing st;
         classifier := classifier st; water_masked := water_masked st;
         console := console st; matrices := matrices st;
         exports := exports st ++ [("S1_classified", clip w geometry)];
         exported_images :=
           exported_images st
           ++ [("S1_preprocessed",
                clip_image (on_pixels (select ["VV"; "VH"]) m) geometry)] |}
  | _, _ => st
  end.

(** The script from the wind mask on, with the function that is mapped
    over the preprocessed collection as a parameter. *)
Definition script_with (f : Image -> Image) : list Stmt :=
  [assign_ws; map_and_drop f; assign_S1_mosaic; assign_samples;
   assign_classified; print_accuracy; export_images].

Definition script : list Stmt := script_with windMask.

End Script.

End S1_classificationAccuracyAssessment.

(** ** The value [classifyWater] returns and the script SWIFT

    [classifyWater] ends by taking the first image of [waterArea_AOI] and
    adding the true color bands of the first image of [L8S2]; the script
    SWIFT calls it for the five days before the selected date and fills its
    drop-down lists and its chart from the allotment tables. *)
Module SWIFT.
Import EE Optical Classification Compositor.

Inductive Failure : Type :=
| NullObject (expression : string)
| Platform (e : Error)
| IndexOutOfBounds (index : nat).

Inductive Outcome (A : Type) : Type :=
| Done (a : A)
| Failed (f : Failure).
Arguments Done {A} a.
Arguments Failed {A} f.

(** The image [classifyWater] returns: the first water area image with the
    bands 'blue', 'green' and 'red' of the first optical image. *)
Record Result : Type := {
  classified : AreaImage;
  true_color : Image
}.

Section classifyWater.
Variable AOI : list Pixel.
Variables start_date end_date : Z.
Variables LANDSAT_LC08_C02_T1_L2 COPERNICUS_S2_SR_HARMONIZED : ImageCollection.
Variable S1_preprocess : ImageCollection.
Variable NOAA_CFSV2_FOR6H : list Wind.Forecast.
Variable pixelArea : Pixel -> Q.
Variables optical_training S1_training : list Sample.
Variable classify : Classifier -> Image -> Classified.
Variable convolve : Raster Q -> Kernel -> Raster Q.

(** var im_return = waterArea_AOI.first().addBands(
      L8S2.first().select(['blue','green','red'])); return im_return; *)
Definition classifyWater : Outcome Result :=
  match SWIFT_classify.waterArea_AOI AOI start_date end_date
          LANDSAT_LC08_C02_T1_L2 COPERNICUS_S2_SR_HARMONIZED S1_preprocess
          NOAA_CFSV2_FOR6H pixelArea optical_training S1_training classify convolve with
  | Err e => Failed (Platform e)
  | Ok waterArea_AOI =>
      match hd_error waterArea_AOI with
      | None => Failed (NullObject "waterArea_AOI.first()")
      | Some first_area =>
          match hd_error (SWIFT_classify.L8S2 AOI start_date end_date
                            LANDSAT_LC08_C02_T1_L2 COPERNICUS_S2_SR_HARMONIZED) with
          | None => Failed (NullObject "L8S2.first()")
          | Some first_optical =>
              Done {| classified := first_area;
                      true_color :=
                        on_pixels (select ["blue"; "green"; "red"]) first_optical |}
          end
      end
  end.

End classifyWater.

(** *** Lists of strings: [sort], [sort(keys)] and [distinct] *)

Fixpoint insert_by_key {A : Type} (k : string) (v : A)
    (l : list (string * A)) : list (string * A) :=
  match l with
  | [] => [(k, v)]
  | (k', v') :: l' =>
      if String.leb k k' then (k, v) :: l else (k', v') :: insert_by_key k v l'
  end.

Definition sort_pairs {A : Type} (l : list (string * A)) : list (string * A) :=
  fold_right (fun kv acc => insert_by_key (fst kv) (snd kv) acc) [] l.

(** [list.sort(keys)]: the list in the ascending order of its keys. *)
Definition sort_by_keys {A : Type} (l : list A) (keys : list string) : list A :=
  map snd (sort_pairs (combine keys l)).

(** [list.sort()] *)
Definition sort (l : list string) : list string := sort_by_keys l l.

(** [list.distinct()]: the first occurrence of every element. *)
Fixpoint distinct (l : list string) : list string :=
  match l with
  | [] => []
  | x :: l' => x :: filter (fun y => negb (String.eqb y x)) (distinct l')
  end.

(** *** The allotment table and the drop-down lists *)

(** A feature of a table: its properties and its geometry. *)
Record Feature : Type := {
  props : list (string * string);
  geometry : list Pixel
}.

Fixpoint get (name : string) (ps : list (string * string)) : option string :=
  match ps with
  | [] => None
  | (k, v) :: ps' => if String.eqb k name then Some v else get name ps'
  end.

(** [collection.filterMetadata(name, 'equals', value)] *)
Definition filterMetadata_equals (name value : string) (c : list Feature) : list Feature :=
  filter (fun f => match get name (props f) with
                   | Some v => String.eqb v value
                   | None => false
                   end) c.

(** [collection.aggregate_array(name)]: the values of the property, for the
    features that have it. *)
Definition aggregate_array (name : string) (c : list Feature) : list string :=
  flat_map (fun f => match get name (props f) with
                     | Some v => [v]
                     | None => []
                     end) c.

Section Selection.
Variable states : list Feature.
Variable allotments : list Feature.

Definition stateNames : list string :=
  distinct (sort (aggregate_array "State_Name" states)).

Definition unique_forests : list string :=
  distinct (sort (aggregate_array "National_F" allotments)).

(** Function to get National Forests once state is selected *)
Definition getForest (state : string) : list string :=
  let forestNames := filterMetadata_equals "State_Name" state allotments in
  distinct (sort (aggregate_array "National_F" forestNames)).

(** Function to get ranger district once National Forest is selected *)
Definition getDistrict (forest : string) : list string :=
  let districtNames := filterMetadata_equals "National_F" forest allotments in
  distinct (sort (aggregate_array "ADMIN_ORG_" districtNames)).

(** Function to get allotment once district is selected *)
Definition getAllotment (district : string) : list string :=
  let allotmentNames := filterMetadata_equals "ADMIN_ORG_" district allotments in
  distinct (sort (aggregate_array "ALLOTMENT_" allotmentNames)).

(** The allotment the last drop-down list selects, and the area of interest
    made of it. *)
Definition allotmentSelected (selection : string) : list Feature :=
  filterMetadata_equals "ALLOTMENT_" selection allotments.

Definition AOI_of (selected : list Feature) : list Pixel :=
  flat_map geometry selected.

End Selection.

(** *** The chart of the historical water extents *)

(** A row of the compiled table of water areas. *)
Record AreaRow : Type := {
  allotmentName : string;
  date : string;
  area : Q
}.

Record Chart : Type := {
  array : list Q;
  xLabels : list string;
  title : string
}.

(** Function to plot chart of water areal extent *)
Definition timeSeriesPlot (waterArea_allotments : list AreaRow)
    (allotmentSelected : string) : Outcome Chart :=
  let allotment :=
    filter (fun r => String.eqb (allotmentName r) allotmentSelected)
           waterArea_allotments in
  let allotmentNames := map allotmentName allotment in
  match nth_error allotmentNames 0 with
  | None => Failed (IndexOutOfBounds 0)
  | Some name =>
      let dates := map date allotment in
      let areas := map area allotment in
      let areas_sorted := sort_by_keys areas dates in
      let dates_sorted := sort dates in
      Done {| array := areas_sorted;
              xLabels := dates_sorted;
              title := String.append "Surface Water Extent in " name |}
  end.

(** *** Classify imagery when button is clicked *)

Section Click.
Variables LANDSAT_LC08_C02_T1_L2 COPERNICUS_S2_SR_HARMONIZED : ImageCollection.
Variable S1_preprocess : ImageCollection.
Variable NOAA_CFSV2_FOR6H : list Wind.Forecast.
Variable pixelArea : Pixel -> Q.
Variables optical_training S1_training : list Sample.
Variable classify : Classifier -> Image -> Classified.
Variable convolve : Raster Q -> Kernel -> Raster Q.

(** var results = classify.classifyWater(AOI,
      ee.Date(dateSelected).advance(-5,'day'), ee.Date(dateSelected)); *)
Definition results (AOI : list Pixel) (dateSelected : Z) : Outcome Result :=
  classifyWater AOI (advance_day (-5) dateSelected) dateSelected
    LANDSAT_LC08_C02_T1_L2 COPERNICUS_S2_SR_HARMONIZED S1_preprocess
    NOAA_CFSV2_FOR6H pixelArea optical_training S1_training classify convolve.

(** The values put on the two labels of the results panel: 'dateYMD' and
    'area(m2)' of the returned image. *)
Definition labels (AOI : list Pixel) (dateSelected : Z) : Outcome ((Z * Z * Z) * Q) :=
  match results AOI dateSelected with
  | Done r => Done (dateYMD (image (classified r)), Compositor.area (classified r))
  | Failed f => Failed f
  end.

End Click.

End SWIFT.

(** ** What the specification asks of the compositor and the aggregator

    These definitions follow the words of the specification; the theorems
    below compare them with the scripts. *)
Module Spec.
Import EE Classification.

(** The images of a collection acquired within the period that starts at
    [date] and lasts [difference] milliseconds. *)
Definition acquired_within (date difference : Z) (im : Classified) : bool :=
  match acquired im with
  | Some t => (date <=? t)%Z && (t <? date + difference)%Z
  | None => false
  end.

Definition period_images (collection : list Classified)
    (date difference : Z) : list Classified :=
  filter (acquired_within date difference) collection.

(** The per-pixel median over the images of the period only. *)
Definition period_composite (collection : list Classified)
    (date difference : Z) : Raster Q :=
  median (map classification (period_images collection date difference)).

Definition source_image_count (collection : list Classified)
    (date difference : Z) : nat :=
  List.length (period_images collection date difference).

(** A water pixel of a composite: label 1. *)
Definition is_water (composite : Raster Q) (p : Pixel) : bool :=
  match composite p with
  | Some v => Qeq_bool v 1
  | None => false
  end.

(** The sum of the pixel areas over the water pixels of the region. *)
Definition water_area_m2 (composite : Raster Q) (region : list Pixel)
    (pixel_area_m2 : Pixel -> Q) : Q :=
  fold_right (fun p acc => if is_water composite p then pixel_area_m2 p + acc else acc)
             0 region.

(** The four band indices in closed form, for the six band values of an
    unmasked pixel; a ratio with a zero denominator is no data. *)
Definition ratio (a b : Q) : option Q :=
  if Qeq_bool (a + b) 0 then None else Some ((a - b) / (a + b)).

Definition MNDWI (blue green red NIR SWIR1 SWIR2 : Q) : option Q :=
  ratio green SWIR1.
Definition AWEIsh (blue green red NIR SWIR1 SWIR2 : Q) : option Q :=
  Some (blue + 2.5 * green - 1.5 * (NIR + SWIR1) - 0.25 * SWIR2).
Definition TCW (blue green red NIR SWIR1 SWIR2 : Q) : option Q :=
  Some (0.1511 * blue + 0.1973 * green + 0.3283 * red + 0.3407 * NIR
        - 0.7117 * SWIR1 - 0.4559 * SWIR2).
Definition NDVI (blue green red NIR SWIR1 SWIR2 : Q) : option Q :=
  ratio NIR red.

(** Agreement of a computed band value with the expected one, within a
    tolerance; no data only agrees with no data. *)
Definition agrees (tol : Q) (computed expected : option Q) : Prop :=
  match computed, expected with
  | Some c, Some e => Qabs (c - e) <= tol
  | None, None => True
  | _, _ => False
  end.

(** Agreement of two pixels band by band: the same names, and values that
    agree within the tolerance. *)
Definition px_agree (tol : Q) (computed expected : Px) : Prop :=
  Forall2 (fun c e : Band => fst c = fst e /\ agrees tol (snd c) (snd e))
          computed expected.

(** The affine transform [y = gain * x + bias] with the six coefficient
    pairs, band by band. *)
Definition affine_px (px : Px) : Px :=
  map (fun '(b, (gain, bias)) =>
         (fst b, option_map (fun x => gain * x + bias) (snd b)))
      (combine px (combine Optical.GAIN Optical.BIAS)).

(** The inverse of the harmonization: [(y - bias) / gain], band by band. *)
Definition unharmonize_px (px : Px) : Res Px :=
  centred <- zip_const Qminus px Optical.BIAS ;;
  zip_const Qdiv centred Optical.GAIN.

(** The labels of a raster are 0 or 1. *)
Definition binary_labels (r : Raster Q) : Prop :=
  forall p v, r p = Some v -> v == 0 \/ v == 1.

(** The prediction of the platform gives labels 0 or 1. *)
Definition classifier_labels
    (classify : Classifier -> Optical.Image -> Classified) : Prop :=
  forall c im, binary_labels (classification (classify c im)).

(** An image acquired within the date range, in a month from March to
    November. *)
Definition acquired_in_season (start_date end_date : Z) (im : Optical.Image) : Prop :=
  exists t, Optical.time_start im = Some t
            /\ (start_date <= t < end_date)%Z
            /\ (3 <= month_of t <= 11)%Z
            /\ ~ In (month_of t) [12; 1; 2]%Z.

(** The ensemble size of a training operation can be configured when two
    calls of the operation can give ensembles of different sizes. *)
Definition ensemble_size_configurable {A : Type} (trainer : A -> Classifier) : Prop :=
  exists x y, numberOfTrees (trainer x) <> numberOfTrees (trainer y).

End Spec.

(** ** Concrete inputs used by the examples below *)
Module Inputs.
Import EE Optical Classification Compositor.

Definition constant (t : Z) (label : Q) : Classified :=
  {| acquired := Some t; classification := fun _ => Some label |}.

(** Three classified images of June 2021: one of the first week with
    label 1 everywhere, two of the second week with label 0. *)
Definition june_start : Z := Date 2021 6 1.
Definition june_end : Z := advance_week 2 june_start.
Definition june_collection : list Classified :=
  [constant (Date 2021 6 2) 1; constant (Date 2021 6 9) 0; constant (Date 2021 6 10) 0].

(** One classified image, water everywhere; a region of one 30 m pixel. *)
Definition all_water : list Classified := [constant (Date 2021 6 2) 1].
Definition one_pixel : list Pixel := [0%nat].
Definition area_900 : Pixel -> Q := fun _ => 900.
Definition low_HAND : Raster Q := fun _ => Some 0.

(** A six band pixel. *)
Definition six_bands (blue green red NIR SWIR1 SWIR2 : option Q) : Px :=
  [("blue", blue); ("green", green); ("red", red);
   ("NIR", NIR); ("SWIR1", SWIR1); ("SWIR2", SWIR2)].

Definition sample_px : Px :=
  six_bands (Some 0.1) (Some 0.2) (Some 0.3) (Some 0.4) (Some 0.5) (Some 0.6).

(** One preprocessed radar image of 2 June 2021, a classifier that labels
    every pixel water, and a convolution that changes nothing. *)
Definition radar_image : Image :=
  {| time_start := Some (Date 2021 6 2);
     footprint := [0%nat];
     properties := [];
     pixels := fun _ => Ok [("VV", Some (-20)); ("VH", Some (-27)); ("angle", Some 38)] |}.

(** One Landsat 8 image of 3 June 2021 with 5 percent cloud cover, and
    one of 15 January 2021. *)
Definition landsat_px : Px :=
  [("SR_B1", Some 800); ("SR_B2", Some 1000); ("SR_B3", Some 2000);
   ("SR_B4", Some 3000); ("SR_B5", Some 4000); ("SR_B6", Some 5000);
   ("SR_B7", Some 6000); ("QA_PIXEL", Some 21824)].

Definition landsat_image : Image :=
  {| time_start := Some (Date 2021 6 3);
     footprint := [0%nat];
     properties := [("CLOUD_COVER", 5)];
     pixels := fun _ => Ok landsat_px |}.

Definition landsat_january : Image :=
  {| time_start := Some (Date 2021 1 15);
     footprint := [0%nat];
     properties := [("CLOUD_COVER", 5)];
     pixels := fun _ => Ok landsat_px |}.

(** A forecast of 2 June 2021 with wind components 3 m/s and 4 m/s. *)
Definition breezy : Wind.Forecast :=
  {| Wind.valid_time := Date 2021 6 2;
     Wind.u_component_of_wind_height_above_ground := fun _ => Some 3%R;
     Wind.v_component_of_wind_height_above_ground := fun _ => Some 4%R |}.

Definition classify_water (c : Classifier) (im : Image) : Classified :=
  {| acquired := time_start im; classification := fun _ => Some 1 |}.

Definition no_smoothing (r : Raster Q) (k : Kernel) : Raster Q := r.

End Inputs.

(** ** What the scripts are expected to compute, in closed form *)
Module Expected.
Import EE.

(** The value of a band of a pixel, when the pixel has the band. *)
Definition band_value (name : string) (px : Px) : option (option Q) :=
  option_map snd (find_band name px).

(** Neither the cloud shadow bit 3 nor the cloud bit 5 of a QA_PIXEL value
    is set; a masked QA value is not clear. *)
Definition L8_clear (qa : option Q) : bool :=
  match qa with
  | Some v => negb (Z.testbit (Qfloor v) 3) && negb (Z.testbit (Qfloor v) 5)
  | None => false
  end.

(** A value scaled to reflectance when the pixel is clear, no data
    otherwise. *)
Definition reflectance_value (clear : bool) (v : option Q) : option Q :=
  if clear then option_map (fun x => x / 10000) v else None.

Definition reflectance (clear : bool) (b : Band) : Band :=
  (fst b, reflectance_value clear (snd b)).

(** The QA60 value of a Sentinel-2 pixel is below 1. *)
Definition S2_clear (qa60 : option Q) : bool :=
  match qa60 with
  | Some v => Qltb v 1
  | None => false
  end.

(** A value adjusted with one gain and bias when the pixel is clear. *)
Definition adjusted (clear : bool) (gain bias : Q) (v : option Q) : option Q :=
  if clear then option_map (fun x => x * gain + bias) v else None.

(** The normalized difference of two band values: no data when one of them
    is no data or when their sum is zero. *)
Definition normalized_difference (a b : option Q) : option Q :=
  match a, b with
  | Some u, Some v => if Qeq_bool (u + v) 0 then None else Some ((u - v) / (u + v))
  | _, _ => None
  end.

(** The shadow water index: no data when one of the five bands it reads is
    no data. *)
Definition AWEIsh_value (blue green NIR SWIR1 SWIR2 : option Q) : option Q :=
  match blue, green, NIR, SWIR1, SWIR2 with
  | Some b, Some g, Some n, Some s, Some w =>
      Some (b + 2.5 * g - 1.5 * (n + s) - 0.25 * w)
  | _, _, _, _, _ => None
  end.

(** The wetness index: no data when one of the six bands is no data. *)
Definition TCW_value (blue green red NIR SWIR1 SWIR2 : option Q) : option Q :=
  match blue, green, red, NIR, SWIR1, SWIR2 with
  | Some b, Some g, Some r, Some n, Some s1, Some s2 =>
      Some (0.1511 * b + 0.1973 * g + 0.3283 * r + 0.3407 * n
            + -0.7117 * s1 + -0.4559 * s2)
  | _, _, _, _, _, _ => None
  end.

End Expected.

(** ** More concrete inputs *)
Module MoreInputs.
Import EE Optical Classification Compositor.

(** A Sentinel-2 pixel free of clouds. *)
Definition sentinel_px : Px :=
  [("B1", Some 900); ("B2", Some 1000); ("B3", Some 2000); ("B4", Some 3000);
   ("B8", Some 4000); ("B11", Some 5000); ("B12", Some 6000); ("QA60", Some 0)].

(** One Sentinel-2 image of 4 June 2021 with 5 percent cloud cover. *)
Definition sentinel_image : Image :=
  {| time_start := Some (Date 2021 6 4);
     footprint := [0%nat];
     properties := [("CLOUD_COVERAGE_ASSESSMENT", 5)];
     pixels := fun _ => Ok sentinel_px |}.

(** A classifier that labels pixel 0 dry and every other pixel water. *)
Definition classify_shore (c : Classifier) (im : Image) : Classified :=
  {| acquired := time_start im;
     classification := fun p => Some (if Nat.eqb p 0 then 0 else 1) |}.

End MoreInputs.

(** * Properties *)

Import EE Optical Classification Compositor.
Import Spec(binary_labels, classifier_labels, acquired_in_season).

(** ** The median reducer *)

Lemma insert_sorted_In (x y : Q) (l : list Q) :
  In y (insert_sorted x l) <-> y = x \/ In y l.
Proof.
  induction l as [|z l IH]; simpl.
  - intuition.
  - destruct (Qle_bool x z); simpl.
    + intuition.
    + rewrite IH. intuition.
Qed.

Lemma sort_In (y : Q) (l : list Q) : In y (sort l) <-> In y l.
Proof.
  induction l as [|x l IH]; simpl.
  - reflexivity.
  - rewrite insert_sorted_In, IH. intuition.
Qed.

Lemma median_list_In (l : list Q) (m : Q) : median_list l = Some m -> In m l.
Proof.
  unfold median_list. intros H.
  apply nth_error_In in H. now apply sort_In.
Qed.

Lemma values_at_In {A : Type} (rs : list (Raster A)) (p : Pixel) (v : A) :
  In v (values_at rs p) <-> exists r, In r rs /\ r p = Some v.
Proof.
  unfold values_at. rewrite in_flat_map. split.
  - intros (r & Hr & Hv). exists r. split; [assumption|].
    destruct (r p) as [w|]; simpl in Hv; [|contradiction].
    destruct Hv as [->|[]]. reflexivity.
  - intros (r & Hr & Hv). exists r. split; [assumption|].
    rewrite Hv. now left.
Qed.

(** The composite value of a pixel is the value some image of the
    collection has there. *)
Lemma median_from_collection (collection : list Classified) (p : Pixel) (v : Q) :
  median (map classification collection) p = Some v ->
  exists im, In im collection /\ classification im p = Some v.
Proof.
  unfold median. intros H. apply median_list_In in H.
  apply values_at_In in H. destruct H as (r & Hr & Hv).
  apply in_map_iff in Hr. destruct Hr as (im & <- & Him).
  now exists im.
Qed.

(** C3: at one pixel, the composite of three images with the water labels
    1, 1, 0 (in any order) is 1, the composite of two images with the labels
    1, 0 is 0, the lower of the two, and the composite of an empty
    collection is a mosaic without data anywhere, made from 0 images. *)
Theorem C3_median_of_labels :
  (forall collection date p,
      In (values_at (map classification collection) p)
         [[1; 1; 0]; [1; 0; 1]; [0; 1; 1]] ->
      composite (mosaicByDate collection date) p = Some 1)
  /\ (forall collection date p,
      In (values_at (map classification collection) p) [[1; 0]; [0; 1]] ->
      composite (mosaicByDate collection date) p = Some 0)
  /\ (forall date p,
      composite (mosaicByDate [] date) p = None
      /\ numbImages (mosaicByDate [] date) = 0%nat).
Proof.
  repeat split.
  - intros collection date p H. simpl. unfold median.
    destruct H as [<-|[<-|[<-|[]]]]; reflexivity.
  - intros collection date p H. simpl. unfold median.
    destruct H as [<-|[<-|[]]]; reflexivity.
Qed.

Lemma C3_median_of_labels_witness :
  composite (mosaicByDate [Inputs.constant 0 1; Inputs.constant 1 1; Inputs.constant 2 0] 0) 7%nat
  = Some 1
  /\ composite (mosaicByDate [Inputs.constant 0 1; Inputs.constant 1 0] 0) 7%nat = Some 0.
Proof.
  split.
  - apply (proj1 C3_median_of_labels). simpl. left. reflexivity.
  - apply (proj1 (proj2 C3_median_of_labels)). simpl. left. reflexivity.
Defined.

(** ** Mosaics by date *)

(** Whatever the date, [mosaicByDate] takes the median of the whole
    collection and counts all its images. *)
Lemma mosaicByDate_whole_collection (collection : list Classified) (date : Z) :
  composite (mosaicByDate collection date) = median (map classification collection)
  /\ numbImages (mosaicByDate collection date) = List.length collection.
Proof. split; reflexivity. Qed.

Lemma mosaicByDate_same_for_all_dates (collection : list Classified) (d1 d2 : Z) :
  composite (mosaicByDate collection d1) = composite (mosaicByDate collection d2)
  /\ numbImages (mosaicByDate collection d1) = numbImages (mosaicByDate collection d2).
Proof. split; reflexivity. Qed.

(** C2: the mosaic of the first week of a two-week range, for a collection
    with one image (label 1) in that week and two images (label 0) in the
    second week.  [mosaicByDate] gives label 0 and counts 3 images; the
    median over the images of the week is 1, from 1 image. *)
Theorem C2_mosaicByDate_ignores_the_period :
  let difference := SWIFT_classify.weekDifference Inputs.june_start in
  In Inputs.june_start (SWIFT_classify.listMap Inputs.june_start Inputs.june_end)
  /\ composite (mosaicByDate Inputs.june_collection Inputs.june_start) 0%nat = Some 0
  /\ numbImages (mosaicByDate Inputs.june_collection Inputs.june_start) = 3%nat
  /\ Spec.period_composite Inputs.june_collection Inputs.june_start difference 0%nat = Some 1
  /\ Spec.source_image_count Inputs.june_collection Inputs.june_start difference = 1%nat.
Proof.
  repeat split; try reflexivity.
  vm_compute. left. reflexivity.
Qed.

(** ** Water area *)

(** C1: a composite whose single region pixel is water (label 1), with a
    pixel area of 900 m2.  The water area of the specification is 900;
    [maskNonWater] masks the pixel, so both scripts compute the area 0. *)
Theorem C1_water_pixels_are_masked_out :
  let m := mosaicByDate Inputs.all_water Inputs.june_start in
  composite m 0%nat = Some 1
  /\ Spec.water_area_m2 (composite m) Inputs.one_pixel Inputs.area_900 == 900
  /\ composite (maskNonWater m) 0%nat = None
  /\ (exists r,
        SWIFT_classify.calculateWaterArea_AOI Inputs.one_pixel Inputs.area_900
          (maskNonWater m) = Ok r
        /\ area r == 0)
  /\ (exists r,
        ConstructTimeSeries.calculateWaterArea_AOI Inputs.one_pixel Inputs.area_900
          (ConstructTimeSeries.mask_HAND Inputs.low_HAND (maskNonWater m)) = Ok r
        /\ area r == 0).
Proof.
  repeat split; try reflexivity.
  - eexists. split; [reflexivity|]. vm_compute. reflexivity.
  - eexists. split; [reflexivity|]. vm_compute. reflexivity.
Qed.

Lemma Qltb_lt (x y : Q) : Qltb x y = true <-> x < y.
Proof.
  unfold Qltb. rewrite negb_true_iff. split.
  - intros H. apply Qnot_le_lt. intros Hle.
    apply Qle_bool_iff in Hle. congruence.
  - intros H. destruct (Qle_bool y x) eqn:E; [|reflexivity].
    apply Qle_bool_iff in E. exfalso. apply (Qlt_not_le _ _ H E).
Qed.

Lemma updateMask_Some {A : Type} (im : Raster A) (mask : Raster bool) (p : Pixel) (v : A) :
  updateMask im mask p = Some v <-> im p = Some v /\ mask p = Some true.
Proof.
  unfold updateMask. destruct (im p) as [w|]; [|intuition congruence].
  destruct (mask p) as [[|]|]; intuition congruence.
Qed.

Lemma binary_updateMask (r : Raster Q) (mask : Raster bool) :
  binary_labels r -> binary_labels (updateMask r mask).
Proof.
  intros H p v Hv. apply updateMask_Some in Hv. apply (H p v), Hv.
Qed.

Lemma binary_to_number (b : Raster bool) : binary_labels (to_number b).
Proof.
  intros p v. unfold to_number. destruct (b p) as [[|]|]; simpl; intros H;
    inversion H; subst; [right|left]; reflexivity.
Qed.

Lemma binary_median (collection : list Classified) :
  (forall im, In im collection -> binary_labels (classification im)) ->
  binary_labels (median (map classification collection)).
Proof.
  intros H p v Hv. apply median_from_collection in Hv.
  destruct Hv as (im & Him & Hv). apply (H im Him p v Hv).
Qed.

(** What [maskNonWater] keeps: the pixels whose label is below 1. *)
Lemma maskNonWater_keeps (im : Mosaic) (p : Pixel) (v : Q) :
  composite (maskNonWater im) p = Some v <-> composite im p = Some v /\ v < 1.
Proof.
  unfold maskNonWater. simpl. rewrite updateMask_Some. unfold lt.
  split; intros [H1 H2]; split; try assumption.
  - rewrite H1 in H2. simpl in H2. inversion H2. now apply Qltb_lt.
  - rewrite H1. simpl. f_equal. now apply Qltb_lt.
Qed.

Lemma sum_region_nonneg (im : Raster Q) (region : list Pixel) :
  (forall p v, In p region -> im p = Some v -> 0 <= v) ->
  0 <= fold_right (fun p acc => match im p with Some v => v + acc | None => acc end)
         0 region.
Proof.
  induction region as [|q region IH]; intros H; simpl.
  - apply Qle_refl.
  - assert (IH' := IH (fun p v Hp => H p v (or_intror Hp))).
    destruct (im q) as [v|] eqn:E; [|assumption].
    assert (0 <= v) by (apply (H q v); [now left|assumption]).
    Lqa.lra.
Qed.

Lemma sum_region_zero (im : Raster Q) (region : list Pixel) :
  (forall p v, In p region -> im p = Some v -> v == 0) ->
  fold_right (fun p acc => match im p with Some v => v + acc | None => acc end)
    0 region == 0.
Proof.
  induction region as [|q region IH]; intros H; simpl.
  - reflexivity.
  - assert (IH' := IH (fun p v Hp => H p v (or_intror Hp))).
    destruct (im q) as [v|] eqn:E; [|assumption].
    assert (v == 0) by (apply (H q v); [now left|assumption]).
    Lqa.lra.
Qed.

Lemma reduceRegion_sum_cases (im : Raster Q) (region : list Pixel) (maxPixels : Z) :
  (reduceRegion_sum im region maxPixels = Err TooManyPixels
   /\ (maxPixels < Z.of_nat (List.length region))%Z)
  \/ (reduceRegion_sum im region maxPixels
      = Ok (fold_right (fun p acc => match im p with Some v => v + acc | None => acc end)
              0 region)
      /\ (Z.of_nat (List.length region) <= maxPixels)%Z).
Proof.
  unfold reduceRegion_sum.
  destruct (Z.ltb_spec maxPixels (Z.of_nat (List.length region))); [left|right]; split;
    (reflexivity || assumption).
Qed.

Lemma multiply_Some (a b : Raster Q) (p : Pixel) (v : Q) :
  multiply a b p = Some v <-> exists x y, a p = Some x /\ b p = Some y /\ v = x * y.
Proof.
  unfold multiply. destruct (a p) as [x|], (b p) as [y|]; split;
    try (intros (x' & y' & H1 & H2 & H3); congruence);
    try discriminate.
  intros H. inversion H. now exists x, y.
Qed.

(** After [maskNonWater] no pixel with label 1 is left: when the labels of
    a composite are 0 and 1, the sum over any region of the masked composite
    times any pixel area raster is 0. *)
Lemma masked_water_area_is_zero (m : Mosaic) (pixel_area : Raster Q)
    (region : list Pixel) :
  binary_labels (composite m) ->
  fold_right (fun p acc =>
                match multiply (composite (maskNonWater m)) pixel_area p with
                | Some v => v + acc
                | None => acc
                end) 0 region == 0.
Proof.
  intros Hbin. apply sum_region_zero. intros p v _ Hv.
  apply multiply_Some in Hv. destruct Hv as (x & y & Hx & _ & ->).
  apply maskNonWater_keeps in Hx. destruct Hx as [Hx Hlt].
  destruct (Hbin p x Hx) as [H0|H1].
  - rewrite H0. ring.
  - rewrite H1 in Hlt. discriminate Hlt.
Qed.

(** Taken alone, the aggregator of SWIFT_classify is the sum of the
    specification: on an image whose labels are 0 and 1 it adds the pixel
    areas of the region pixels with label 1. *)
Lemma aggregator_sums_water_pixels (im : Mosaic) (AOI : list Pixel)
    (pixelArea : Pixel -> Q) :
  binary_labels (composite im) ->
  match SWIFT_classify.calculateWaterArea_AOI AOI pixelArea im with
  | Ok r => area r == Spec.water_area_m2 (composite im) AOI pixelArea
  | Err e => e = TooManyPixels
  end.
Proof.
  intros Hbin. unfold SWIFT_classify.calculateWaterArea_AOI.
  destruct (reduceRegion_sum_cases
              (multiply (composite im) (pixelArea_raster pixelArea))
              AOI 10000000000000) as [[H _]|[H _]];
    cbv zeta; rewrite H; cbn [bind area]; [reflexivity|].
  clear H. induction AOI as [|p region IH]; [reflexivity|].
  cbn [fold_right Spec.water_area_m2]. unfold Spec.water_area_m2 in IH.
  unfold multiply at 1, pixelArea_raster at 1, Spec.is_water at 1.
  destruct (composite im p) as [v|] eqn:E; [|exact IH].
  destruct (Hbin p v E) as [Hv|Hv].
  - assert (Hb : Qeq_bool v 1 = false).
    { destruct (Qeq_bool v 1) eqn:B; [|reflexivity].
      apply Qeq_bool_eq in B. rewrite Hv in B. discriminate B. }
    rewrite Hb, IH, Hv. ring.
  - rewrite (Qeq_eq_bool _ _ Hv), IH, Hv. ring.
Qed.

Lemma mapM_Ok {A B : Type} (f : A -> Res B) (l : list A) (bs : list B) :
  mapM f l = Ok bs -> Forall2 (fun a b => f a = Ok b) l bs.
Proof.
  revert bs. induction l as [|a l IH]; simpl; intros bs H.
  - inversion H. constructor.
  - destruct (f a) as [b|e] eqn:Ea; simpl in H; [|discriminate].
    destruct (mapM f l) as [bs'|e] eqn:El; simpl in H; [|discriminate].
    inversion H; subst. constructor; [assumption|]. now apply IH.
Qed.

Lemma mapM_Err {A B : Type} (f : A -> Res B) (l : list A) (e : Error) :
  mapM f l = Err e -> exists a, In a l /\ f a = Err e.
Proof.
  induction l as [|a l IH]; simpl; intros H.
  - discriminate.
  - destruct (f a) as [b|e'] eqn:Ea; simpl in H.
    + destruct (mapM f l) as [bs'|e''] eqn:El; simpl in H; [discriminate|].
      inversion H; subst. destruct (IH eq_refl) as (a' & Ha' & Hf).
      exists a'. split; [now right|assumption].
    + inversion H; subst. exists a. split; [now left|assumption].
Qed.

Lemma mapM_pointwise {A B : Type} (f : A -> Res B) (g : A -> B) (l : list A) :
  (forall a, In a l -> f a = Ok (g a)) -> mapM f l = Ok (map g l).
Proof.
  induction l as [|a l IH]; intros H; cbn [mapM map]; [reflexivity|].
  rewrite (H a (or_introl eq_refl)). cbn [bind].
  rewrite IH by (intros a' Ha'; apply H; right; exact Ha'). reflexivity.
Qed.

Lemma mapM_fails {A B : Type} (f : A -> Res B) (e : Error) (l : list A) :
  l <> [] -> (forall a, In a l -> f a = Err e) -> mapM f l = Err e.
Proof.
  destruct l as [|a l]; [congruence|]. intros _ H. cbn [mapM].
  rewrite (H a (or_introl eq_refl)). reflexivity.
Qed.

Section WaterArea.
Variables start_date end_date : Z.
Variable AOI : list Pixel.
Variable water : list Pixel.
Variables LANDSAT_LC08_C02_T1_L2 COPERNICUS_S2 : ImageCollection.
Variable S1_preprocess : ImageCollection.
Variable NOAA_CFSV2_FOR6H : list Wind.Forecast.
Variable HAND : Raster Q.
Variable pixelArea : Pixel -> Q.
Variables optical_training S1_training : list Sample.
Variable classify : Classifier -> Image -> Classified.
Variable convolve : Raster Q -> Kernel -> Raster Q.

Hypothesis labels : classifier_labels classify.
Hypothesis positive_area : forall p, 0 <= pixelArea p.

Local Abbreviation collection :=
  (ConstructTimeSeries.collection start_date end_date water
     LANDSAT_LC08_C02_T1_L2 COPERNICUS_S2 S1_preprocess NOAA_CFSV2_FOR6H
     optical_training S1_training classify convolve).
Local Abbreviation script_mosaics :=
  (ConstructTimeSeries.mosaics start_date end_date water
     LANDSAT_LC08_C02_T1_L2 COPERNICUS_S2 S1_preprocess NOAA_CFSV2_FOR6H
     optical_training S1_training classify convolve).
Local Abbreviation water_masked :=
  (ConstructTimeSeries.water_masked start_date end_date water
     LANDSAT_LC08_C02_T1_L2 COPERNICUS_S2 S1_preprocess NOAA_CFSV2_FOR6H HAND
     optical_training S1_training classify convolve).
Local Abbreviation calculateWaterArea_allotments :=
  (ConstructTimeSeries.calculateWaterArea_allotments start_date end_date water
     LANDSAT_LC08_C02_T1_L2 COPERNICUS_S2 S1_preprocess NOAA_CFSV2_FOR6H HAND
     pixelArea optical_training S1_training classify convolve).
Local Abbreviation mask_HAND := (ConstructTimeSeries.mask_HAND HAND).
Local Abbreviation waterArea_band im :=
  (multiply (composite im) (divide_const (pixelArea_raster pixelArea) 1e6)).
Local Abbreviation region_sum im region :=
  (fold_right (fun p acc => match waterArea_band im p with
                            | Some v => v + acc
                            | None => acc
                            end) 0 region).

(** Every image that enters the mosaics carries labels 0 and 1 only: the
    optical ones by the classifier, the radar ones by the threshold. *)
Lemma collection_binary (im : Classified) :
  In im collection -> binary_labels (classification im).
Proof.
  unfold ConstructTimeSeries.collection. rewrite in_app_iff. intros [H|H].
  - unfold ConstructTimeSeries.L8S2_classified in H.
    apply in_map_iff in H. destruct H as (x & <- & _). apply labels.
  - unfold ConstructTimeSeries.S1_classified in H.
    apply in_map_iff in H. destruct H as (x & <- & H).
    apply in_map_iff in H. destruct H as (y & <- & _).
    simpl. apply binary_updateMask, binary_to_number.
Qed.

Lemma script_mosaics_binary (m : Mosaic) :
  In m script_mosaics -> binary_labels (composite m).
Proof.
  unfold ConstructTimeSeries.mosaics. intros H.
  apply in_map_iff in H. destruct H as (d & <- & _). simpl.
  apply binary_median. intros im. apply collection_binary.
Qed.

Lemma water_masked_is_masked_mosaics :
  water_masked = map (fun m => mask_HAND (maskNonWater m)) script_mosaics.
Proof.
  unfold ConstructTimeSeries.water_masked, ConstructTimeSeries.water_collection.
  apply map_map.
Qed.

(** The masks keep the labels among 0 and 1, and make no pixel water. *)
Lemma masked_binary (m : Mosaic) :
  binary_labels (composite m) ->
  binary_labels (composite (mask_HAND (maskNonWater m))).
Proof.
  intros H. unfold ConstructTimeSeries.mask_HAND, maskNonWater.
  cbn [composite with_composite]. apply binary_updateMask, binary_updateMask, H.
Qed.

Lemma masked_dry (m : Mosaic) (p : Pixel) :
  Spec.is_water (composite m) p = false ->
  Spec.is_water (composite (mask_HAND (maskNonWater m))) p = false.
Proof.
  unfold Spec.is_water. intros H.
  destruct (composite (mask_HAND (maskNonWater m)) p) as [v|] eqn:E; [|reflexivity].
  unfold ConstructTimeSeries.mask_HAND in E. cbn [composite with_composite] in E.
  apply updateMask_Some in E. destruct E as [E _].
  apply (maskNonWater_keeps m p v) in E. destruct E as [E _].
  rewrite E in H. exact H.
Qed.

(** The band 'waterArea' of an image whose labels are 0 and 1: the label
    times the pixel area divided by 1e6. *)
Lemma waterArea_pixel (im : Mosaic) (p : Pixel) (v : Q) :
  binary_labels (composite im) ->
  waterArea_band im p = Some v ->
  exists x, composite im p = Some x /\ (x == 0 \/ x == 1)
            /\ v == x * (pixelArea p / 1e6).
Proof.
  intros Hbin Hv. apply multiply_Some in Hv.
  destruct Hv as (x & y & Hx & Hy & ->).
  exists x. split; [exact Hx|]. split; [exact (Hbin p x Hx)|].
  unfold divide_const, pixelArea_raster in Hy. cbn [option_map] in Hy.
  injection Hy as <-. reflexivity.
Qed.

(** The sum of the band 'waterArea' over a region is not negative, and it
    is 0 when no pixel of the region has label 1. *)
Lemma region_sum_nonneg (im : Mosaic) (region : list Pixel) :
  binary_labels (composite im) ->
  0 <= region_sum im region
  /\ ((forall p, In p region -> Spec.is_water (composite im) p = false) ->
      region_sum im region == 0).
Proof.
  intros Hbin. split.
  - apply sum_region_nonneg. intros p v _ Hv.
    destruct (waterArea_pixel im p v Hbin Hv) as (x & _ & Hx & ->).
    apply Qmult_le_0_compat.
    + destruct Hx as [->| ->]; Lqa.lra.
    + apply Qle_shift_div_l; [reflexivity|]. specialize (positive_area p). Lqa.lra.
  - intros Hdry. apply sum_region_zero. intros p v Hp Hv.
    destruct (waterArea_pixel im p v Hbin Hv) as (x & Hc & Hx & ->).
    specialize (Hdry p Hp). unfold Spec.is_water in Hdry. rewrite Hc in Hdry.
    destruct Hx as [Hx|Hx].
    + rewrite Hx. ring.
    + apply Qeq_eq_bool in Hx. congruence.
Qed.

(** The aggregator of the study area on any image with labels 0 and 1. *)
Lemma calculateWaterArea_AOI_cases (im : Mosaic) (region : list Pixel) :
  binary_labels (composite im) ->
  match ConstructTimeSeries.calculateWaterArea_AOI region pixelArea im with
  | Ok r =>
      (Z.of_nat (List.length region) <= 10000000000000)%Z
      /\ 0 <= area r
      /\ ((forall p, In p region -> Spec.is_water (composite im) p = false) ->
          area r == 0)
  | Err e =>
      e = TooManyPixels
      /\ (10000000000000 < Z.of_nat (List.length region))%Z
  end.
Proof.
  intros Hbin. unfold ConstructTimeSeries.calculateWaterArea_AOI.
  destruct (reduceRegion_sum_cases (waterArea_band im) region 10000000000000)
    as [[H Hb]|[H Hb]]; cbv zeta; rewrite H; cbn [bind area].
  - split; [reflexivity|exact Hb].
  - split; [exact Hb|]. exact (region_sum_nonneg im region Hbin).
Qed.

(** The aggregator of an allotment on one image. *)
Lemma area_of_image_cases (feature : ConstructTimeSeries.Feature) (im : Mosaic) :
  ((Z.of_nat (List.length (ConstructTimeSeries.geometry feature)) <= 10000000000)%Z
   /\ ConstructTimeSeries.area_of_image pixelArea feature im
      = Ok (region_sum im (ConstructTimeSeries.geometry feature),
            format_YMD (system_time_start im)))
  \/ ((10000000000 < Z.of_nat (List.length (ConstructTimeSeries.geometry feature)))%Z
      /\ ConstructTimeSeries.area_of_image pixelArea feature im = Err TooManyPixels).
Proof.
  unfold ConstructTimeSeries.area_of_image.
  destruct (reduceRegion_sum_cases (waterArea_band im)
              (ConstructTimeSeries.geometry feature) 10000000000)
    as [[H Hb]|[H Hb]]; cbv zeta; rewrite H; cbv beta iota delta [bind].
  - right. split; [exact Hb|reflexivity].
  - left. split; [exact Hb|reflexivity].
Qed.

(** C8: the area the aggregator of the study area emits for an image with
    labels 0 and 1 is a number that is not negative, and it is exactly 0
    when no pixel of the region is water; it emits this number whenever the
    region is within the budget of 1e13 pixels, and nothing otherwise.  So
    it is for the masked mosaic of every period of the script, and the
    series of every grazing allotment has one such area for every period,
    emitted whenever the allotment is within its budget of 1e10 pixels. *)
Theorem C8_water_area_nonnegative :
  (forall (im : Mosaic) (region : list Pixel),
     binary_labels (composite im) ->
     match ConstructTimeSeries.calculateWaterArea_AOI region pixelArea im with
     | Ok r =>
         (Z.of_nat (List.length region) <= 10000000000000)%Z
         /\ 0 <= area r
         /\ ((forall p, In p region -> Spec.is_water (composite im) p = false) ->
             area r == 0)
     | Err e =>
         e = TooManyPixels
         /\ (10000000000000 < Z.of_nat (List.length region))%Z
     end)
  /\ (forall m, In m script_mosaics ->
     match ConstructTimeSeries.calculateWaterArea_AOI AOI pixelArea
             (mask_HAND (maskNonWater m)) with
     | Ok r =>
         (Z.of_nat (List.length AOI) <= 10000000000000)%Z
         /\ 0 <= area r
         /\ ((forall p, In p AOI -> Spec.is_water (composite m) p = false) ->
             area r == 0)
     | Err e =>
         e = TooManyPixels /\ (10000000000000 < Z.of_nat (List.length AOI))%Z
     end)
  /\ (forall feature,
     match calculateWaterArea_allotments feature with
     | Ok s =>
         ((Z.of_nat (List.length (ConstructTimeSeries.geometry feature))
           <= 10000000000)%Z \/ script_mosaics = [])
         /\ List.length (ConstructTimeSeries.area_array s)
            = List.length script_mosaics
         /\ Forall (fun a => 0 <= a) (ConstructTimeSeries.area_array s)
         /\ ((forall m p, In m script_mosaics ->
                          In p (ConstructTimeSeries.geometry feature) ->
                          Spec.is_water (composite m) p = false) ->
             Forall (fun a => a == 0) (ConstructTimeSeries.area_array s))
     | Err e =>
         e = TooManyPixels
         /\ (10000000000
             < Z.of_nat (List.length (ConstructTimeSeries.geometry feature)))%Z
         /\ script_mosaics <> []
     end).
Proof.
  split; [exact calculateWaterArea_AOI_cases|]. split.
  - intros m Hm.
    assert (H := calculateWaterArea_AOI_cases (mask_HAND (maskNonWater m)) AOI
                   (masked_binary m (script_mosaics_binary m Hm))).
    destruct (ConstructTimeSeries.calculateWaterArea_AOI AOI pixelArea
                (mask_HAND (maskNonWater m))) as [r|e]; [|exact H].
    destruct H as (Hb & Hpos & Hzero). split; [exact Hb|]. split; [exact Hpos|].
    intros Hdry. apply Hzero. intros p Hp. apply masked_dry, Hdry, Hp.
  - intros feature. unfold ConstructTimeSeries.calculateWaterArea_allotments.
    rewrite water_masked_is_masked_mosaics.
    destruct (Z.ltb_spec 10000000000
                (Z.of_nat (List.length (ConstructTimeSeries.geometry feature))))
      as [Hbig|Hfit].
    + destruct script_mosaics as [|m ms] eqn:Em.
      * cbn [map mapM bind ConstructTimeSeries.area_array List.length].
        split; [right; reflexivity|]. split; [reflexivity|].
        split; [constructor|]. intros _. constructor.
      * rewrite (mapM_fails (ConstructTimeSeries.area_of_image pixelArea feature)
                   TooManyPixels).
        -- cbn [bind]. split; [reflexivity|]. split; [exact Hbig|discriminate].
        -- discriminate.
        -- intros im _.
           destruct (area_of_image_cases feature im) as [[Hb _]|[_ H]];
             [lia|exact H].
    + rewrite (mapM_pointwise (ConstructTimeSeries.area_of_image pixelArea feature)
                 (fun im => (region_sum im (ConstructTimeSeries.geometry feature),
                             format_YMD (system_time_start im)))).
      * cbn [bind ConstructTimeSeries.area_array].
        rewrite !map_map. cbn [fst].
        split; [left; exact Hfit|]. split; [apply length_map|].
        split.
        -- apply Forall_map, Forall_forall. intros m Hm.
           exact (proj1 (region_sum_nonneg (mask_HAND (maskNonWater m))
                           (ConstructTimeSeries.geometry feature)
                           (masked_binary m (script_mosaics_binary m Hm)))).
        -- intros Hdry. apply Forall_map, Forall_forall. intros m Hm.
           apply (proj2 (region_sum_nonneg (mask_HAND (maskNonWater m))
                           (ConstructTimeSeries.geometry feature)
                           (masked_binary m (script_mosaics_binary m Hm)))).
           intros p Hp. apply masked_dry. exact (Hdry m p Hm Hp).
      * intros im _.
        destruct (area_of_image_cases feature im) as [[_ H]|[Hb _]];
          [exact H|lia].
Qed.

End WaterArea.

Lemma C8_water_area_nonnegative_witness :
  let water_image := mosaicByDate Inputs.all_water Inputs.june_start in
  let shore := {| ConstructTimeSeries.ALLOTMENT_ := "Shore";
                  ConstructTimeSeries.geometry := [0%nat; 1%nat] |} in
  classifier_labels MoreInputs.classify_shore
  /\ (forall p, 0 <= Inputs.area_900 p)
  /\ binary_labels (composite water_image)
  /\ (exists r,
        ConstructTimeSeries.calculateWaterArea_AOI Inputs.one_pixel Inputs.area_900
          water_image = Ok r
        /\ area r == 900 / 1000000
        /\ 0 <= area r)
  /\ (exists s,
        ConstructTimeSeries.calculateWaterArea_allotments Inputs.june_start
          Inputs.june_end Inputs.one_pixel [Inputs.landsat_image] [] [] []
          Inputs.low_HAND Inputs.area_900 [] [] MoreInputs.classify_shore
          Inputs.no_smoothing shore = Ok s
        /\ List.length (ConstructTimeSeries.area_array s) = 1%nat
        /\ Forall (fun a => 0 <= a) (ConstructTimeSeries.area_array s)).
Proof.
  cbv zeta.
  assert (H1 : classifier_labels MoreInputs.classify_shore).
  { intros c im p v H. unfold MoreInputs.classify_shore in H.
    cbn [classification] in H. injection H as <-.
    destruct (Nat.eqb p 0); [left|right]; reflexivity. }
  assert (H2 : forall p, 0 <= Inputs.area_900 p).
  { intros p. unfold Inputs.area_900. discriminate. }
  assert (H3 : binary_labels
                 (composite (mosaicByDate Inputs.all_water Inputs.june_start))).
  { apply binary_median. intros im [<-|[]] p v H. injection H as <-.
    right. reflexivity. }
  destruct (C8_water_area_nonnegative Inputs.june_start Inputs.june_end
              Inputs.one_pixel Inputs.one_pixel [Inputs.landsat_image] [] [] []
              Inputs.low_HAND Inputs.area_900 [] [] MoreInputs.classify_shore
              Inputs.no_smoothing H1 H2) as (T1 & _ & T3).
  split; [exact H1|]. split; [exact H2|]. split; [exact H3|]. split.
  - specialize (T1 (mosaicByDate Inputs.all_water Inputs.june_start)
                   Inputs.one_pixel H3).
    destruct (ConstructTimeSeries.calculateWaterArea_AOI Inputs.one_pixel
                Inputs.area_900 (mosaicByDate Inputs.all_water Inputs.june_start))
      as [r|e] eqn:E.
    + exists r. split; [reflexivity|]. split; [|exact (proj1 (proj2 T1))].
      vm_compute in E. injection E as <-. reflexivity.
    + vm_compute in E. discriminate E.
  - specialize (T3 {| ConstructTimeSeries.ALLOTMENT_ := "Shore";
                      ConstructTimeSeries.geometry := [0%nat; 1%nat] |}).
    destruct (ConstructTimeSeries.calculateWaterArea_allotments Inputs.june_start
                Inputs.june_end Inputs.one_pixel [Inputs.landsat_image] [] [] []
                Inputs.low_HAND Inputs.area_900 [] [] MoreInputs.classify_shore
                Inputs.no_smoothing
                {| ConstructTimeSeries.ALLOTMENT_ := "Shore";
                   ConstructTimeSeries.geometry := [0%nat; 1%nat] |})
      as [s|e] eqn:E.
    + exists s. split; [reflexivity|].
      destruct T3 as (_ & Hlen & Hpos & _). split; [|exact Hpos].
      rewrite Hlen. vm_compute. reflexivity.
    + destruct T3 as (_ & Hb & _). vm_compute in Hb. discriminate Hb.
Defined.

(** ** Band indices *)

Lemma agrees_Qeq (tol a b : Q) : 0 <= tol -> a == b -> Spec.agrees tol (Some a) (Some b).
Proof.
  intros Htol H. unfold Spec.agrees.
  assert (E : a - b == 0) by (rewrite H; ring).
  rewrite E. exact Htol.
Qed.


Lemma tolerance_nonneg : 0 <= 1e-6.
Proof. discriminate. Qed.


(** The two cases of a zero denominator, on concrete pixels: the ratio
    index alone is no data. *)
Example waterMapping_zero_denominators :
  ConstructTimeSeries.waterMapping
    (Inputs.six_bands (Some 0.1) (Some 0) (Some 0.3) (Some 0.4) (Some 0) (Some 0.6))
  = Ok [("MNDWI", None);
        ("AWEIsh", Some (0.1 + 2.5 * 0 - 1.5 * (0.4 + 0) - 0.25 * 0.6));
        ("TWC", Some (0.1511 * 0.1 + 0.1973 * 0 + 0.3283 * 0.3 + 0.3407 * 0.4
                      + -0.7117 * 0 + -0.4559 * 0.6));
        ("NDVI", Some ((0.4 - 0.3) / (0.4 + 0.3)))]
  /\ SWIFT_classify.waterMapping
       (Inputs.six_bands (Some 0.1) (Some 0.2) (Some 0) (Some 0) (Some 0.5) (Some 0.6))
     = Ok [("MNDWI", Some ((0.2 - 0.5) / (0.2 + 0.5)));
           ("AWEIsh", Some (0.1 + 2.5 * 0.2 - 1.5 * (0 + 0.5) - 0.25 * 0.6));
           ("TCW", Some (0.1511 * 0.1 + 0.1973 * 0.2 + 0.3283 * 0 + 0.3407 * 0
                         + -0.7117 * 0.5 + -0.4559 * 0.6));
           ("NDVI", None)].
Proof. split; reflexivity. Qed.

(** ** Harmonization *)

Lemma zip_const_length (op : Q -> Q -> Q) (px : Px) (c : list Q) :
  List.length px = List.length c ->
  zip_const op px c
  = Ok (map (fun '(b, k) => (fst b, option_map (fun v => op v k) (snd b)))
            (combine px c)).
Proof.
  intros H. unfold zip_const. rewrite H, Nat.eqb_refl. reflexivity.
Qed.

Lemma six_bands_inv (px : Px) :
  List.length px = 6%nat ->
  exists b1 b2 b3 b4 b5 b6 : Band, px = [b1; b2; b3; b4; b5; b6].
Proof.
  intros H.
  destruct px as [|b1 [|b2 [|b3 [|b4 [|b5 [|b6 [|b7 px]]]]]]]; try discriminate H.
  now exists b1, b2, b3, b4, b5, b6.
Qed.

Ltac band_goal :=
  match goal with
  | v : option Q |- Spec.agrees _ _ _ =>
      match goal with
      | |- context [v] =>
          destruct v as [x|]; cbn [option_map];
          [apply agrees_Qeq;
           [apply tolerance_nonneg|try ring; try (field; discriminate)]
          |exact I]
      end
  end.

Ltac unfold_bands :=
  cbv beta iota zeta
      delta [harmonize_px Spec.unharmonize_px Spec.affine_px zip_const bind
             List.length Nat.eqb GAIN BIAS combine map fst snd].

Lemma bind_Ok {A B : Type} (m : Res A) (k : A -> Res B) (b : B) :
  bind m k = Ok b -> exists a, m = Ok a /\ k a = Ok b.
Proof.
  destruct m as [a|e]; simpl; [|discriminate]. intros H. now exists a.
Qed.

Lemma renamed_names (bs : Px) (news : list string) :
  List.length bs = List.length news ->
  map fst (map (fun '(b, n) => rename n b) (combine bs news)) = news.
Proof.
  revert news. induction bs as [|b bs IH]; intros [|n news] H;
    try discriminate H; [reflexivity|].
  simpl. f_equal. apply IH. now inversion H.
Qed.

Lemma select_as_names (names news : list string) (px out : Px) :
  select_as names news px = Ok out -> map fst out = news.
Proof.
  unfold select_as. intros H. apply bind_Ok in H. destruct H as (bs & _ & H).
  destruct (Nat.eqb_spec (List.length bs) (List.length news)) as [E|_];
    [|discriminate].
  inversion H. now apply renamed_names.
Qed.

(** An error of at most 1e-7 on a harmonized value is an error of at most
    1e-6 on the value the inverse gives back: every gain is above 1/2. *)
Lemma inverse_is_stable (gain bias x y' : Q) :
  1 # 2 <= gain ->
  Qabs (y' - (x * gain + bias)) <= 1e-7 ->
  Qabs ((y' - bias) / gain - x) <= 1e-6.
Proof.
  intros Hg H.
  change (1e-7) with (1 # 10000000) in H. change (1e-6) with (1 # 1000000).
  apply Qabs_Qle_condition in H. destruct H as [Hlo Hhi].
  assert (Hpos : 0 < gain) by Lqa.lra.
  assert (E : (y' - bias) / gain - x == (y' - (x * gain + bias)) / gain).
  { field. intros Z. rewrite Z in Hpos. discriminate Hpos. }
  rewrite E. clear E. revert Hlo Hhi.
  generalize (y' - (x * gain + bias)). intros d Hlo Hhi.
  apply Qabs_Qle_condition. split.
  - apply Qle_shift_div_l; [exact Hpos|]. Lqa.lra.
  - apply Qle_shift_div_r; [exact Hpos|]. Lqa.lra.
Qed.

Lemma agrees_stable (gain bias : Q) (x y' : option Q) :
  1 # 2 <= gain ->
  Spec.agrees 1e-7 y'
    (option_map (fun v => v + bias) (option_map (fun v => v * gain) x)) ->
  Spec.agrees 1e-6
    (option_map (fun v => v / gain) (option_map (fun v => v - bias) y')) x.
Proof.
  intros Hg. destruct x as [x|], y' as [y'|]; cbn [option_map Spec.agrees];
    try tauto.
  apply inverse_is_stable. exact Hg.
Qed.

(** [harmonize_px] on a six band pixel: the affine transform of every band,
    which its inverse undoes, also from harmonized values that are off by
    at most 1e-7. *)
Lemma harmonize_px_affine (px : Px) :
  List.length px = 6%nat ->
  exists y x,
    harmonize_px px = Ok y
    /\ Spec.px_agree 1e-6 y (Spec.affine_px px)
    /\ Spec.unharmonize_px y = Ok x
    /\ Spec.px_agree 1e-6 x px
    /\ (forall y', Spec.px_agree 1e-7 y' y ->
                   exists x', Spec.unharmonize_px y' = Ok x'
                              /\ Spec.px_agree 1e-6 x' px).
Proof.
  intros Hlen.
  destruct (six_bands_inv px Hlen)
    as ([n1 v1] & [n2 v2] & [n3 v3] & [n4 v4] & [n5 v5] & [n6 v6] & ->).
  eexists. eexists.
  split; [unfold_bands; reflexivity|].
  split; [|split; [unfold_bands; reflexivity|split]].
  - unfold Spec.px_agree. unfold_bands.
    repeat (constructor; [split; [reflexivity|band_goal]|]). constructor.
  - unfold Spec.px_agree. unfold_bands.
    repeat (constructor; [split; [reflexivity|band_goal]|]). constructor.
  - intros y' H. unfold Spec.px_agree in H.
    inversion H as [|[m1 w1] b1 y1 l1 [N1 A1] H1]; subst. clear H.
    inversion H1 as [|[m2 w2] b2 y2 l2 [N2 A2] H2]; subst. clear H1.
    inversion H2 as [|[m3 w3] b3 y3 l3 [N3 A3] H3]; subst. clear H2.
    inversion H3 as [|[m4 w4] b4 y4 l4 [N4 A4] H4]; subst. clear H3.
    inversion H4 as [|[m5 w5] b5 y5 l5 [N5 A5] H5]; subst. clear H4.
    inversion H5 as [|[m6 w6] b6 y6 l6 [N6 A6] H6]; subst. clear H5.
    inversion H6; subst. clear H6.
    cbn [fst snd] in N1, N2, N3, N4, N5, N6, A1, A2, A3, A4, A5, A6.
    subst m1 m2 m3 m4 m5 m6.
    eexists. split; [unfold_bands; reflexivity|].
    unfold Spec.px_agree.
    repeat (constructor;
            [split; [reflexivity|cbn [snd]; apply agrees_stable;
                                 [discriminate|assumption]]|]).
    constructor.
Qed.

(** C5: [harmonize] gives every pixel of a six band image the affine
    transform [gain * x + bias] with the six coefficient pairs, band by
    band, and [(y - bias) / gain] gives back every band of the pixel within
    the tolerance, also from harmonized values that are off by 1e-7.  In the
    query collections of both scripts every Sentinel-2 image is the
    harmonized, masked and renamed image of its source, and no Landsat 8
    image is harmonized: its pixels are the masked, scaled and renamed
    pixels of its source. *)
Theorem C5_harmonize_affine_and_invertible :
  (forall (S2im : Image) (p : Pixel) (px : Px),
      pixels S2im p = Ok px ->
      List.length px = 6%nat ->
      time_start (harmonize S2im) = time_start S2im
      /\ exists y x,
           pixels (harmonize S2im) p = Ok y
           /\ Spec.px_agree 1e-6 y (Spec.affine_px px)
           /\ Spec.unharmonize_px y = Ok x
           /\ Spec.px_agree 1e-6 x px
           /\ (forall y', Spec.px_agree 1e-7 y' y ->
                          exists x', Spec.unharmonize_px y' = Ok x'
                                     /\ Spec.px_agree 1e-6 x' px))
  /\ (forall bounds cloud start_date end_date catalog im,
      In im (S2_query bounds cloud start_date end_date catalog) ->
      exists source,
        In source catalog
        /\ time_start im = time_start source
        /\ forall p selected,
            (masked <- (raw <- pixels source p ;; S2QAMask_px raw) ;;
             select_as S2_bands common_bands masked) = Ok selected ->
            exists y,
              pixels im p = Ok y
              /\ Spec.px_agree 1e-6 y (Spec.affine_px selected))
  /\ (forall bounds cloud start_date end_date catalog im,
      In im (L8_query bounds cloud start_date end_date catalog) ->
      exists source,
        In source catalog
        /\ forall p,
            pixels im p
            = (px <- (raw <- pixels source p ;; L8QAMask_px raw) ;;
               select_as L8_bands common_bands px)).
Proof.
  split; [|split].
  - intros S2im p px Hpx Hlen. split; [reflexivity|].
    destruct (harmonize_px_affine px Hlen) as (y & x & Hy & H).
    exists y, x. split; [|exact H].
    cbn [pixels harmonize arithmetic_copying_time]. rewrite Hpx. exact Hy.
  - intros bounds cloud start_date end_date catalog im H.
    unfold S2_query in H.
    apply in_map_iff in H. destruct H as (x & <- & H).
    apply in_map_iff in H. destruct H as (y & <- & H).
    apply in_map_iff in H. destruct H as (source & <- & H).
    exists source. split; [|split; [reflexivity|]].
    + unfold filterBounds, filterDate in H.
      repeat (apply filter_In in H; destruct H as [H _]). exact H.
    + intros p selected Hsel.
      assert (Hlen : List.length selected = 6%nat).
      { apply bind_Ok in Hsel. destruct Hsel as (masked & _ & Hsel).
        apply select_as_names in Hsel.
        transitivity (List.length (map fst selected));
          [symmetry; apply length_map|rewrite Hsel; reflexivity]. }
      destruct (harmonize_px_affine selected Hlen) as (z & _ & Hz & Ha & _).
      exists z. split; [|exact Ha].
      cbn [pixels harmonize arithmetic_copying_time on_pixels S2QAMask].
      cbn [pixels on_pixels S2QAMask] in Hsel.
      rewrite Hsel. exact Hz.
  - intros bounds cloud start_date end_date catalog im H.
    unfold L8_query in H.
    apply in_map_iff in H. destruct H as (x & <- & H).
    apply in_map_iff in H. destruct H as (source & <- & H).
    exists source. split; [|intros p; reflexivity].
    unfold filterBounds, filterDate in H.
    repeat (apply filter_In in H; destruct H as [H _]). exact H.
Qed.

Lemma C5_harmonize_affine_and_invertible_witness :
  let selected :=
    on_pixels (select_as S2_bands common_bands) (S2QAMask MoreInputs.sentinel_image) in
  let px := Inputs.six_bands (Some 1000) (Some 2000) (Some 3000)
                             (Some 4000) (Some 5000) (Some 6000) in
  (pixels selected 0%nat = Ok px
   /\ List.length px = 6%nat
   /\ exists y x,
        pixels (harmonize selected) 0%nat = Ok y
        /\ Spec.px_agree 1e-6 y (Spec.affine_px px)
        /\ Spec.unharmonize_px y = Ok x
        /\ Spec.px_agree 1e-6 x px)
  /\ (In (harmonize selected)
         (S2_query Inputs.one_pixel 10 Inputs.june_start Inputs.june_end
            [MoreInputs.sentinel_image])
      /\ exists source,
           In source [MoreInputs.sentinel_image]
           /\ time_start (harmonize selected) = time_start source)
  /\ (In (on_pixels (select_as L8_bands common_bands) (L8QAMask Inputs.landsat_image))
         (L8_query Inputs.one_pixel 10 Inputs.june_start Inputs.june_end
            [Inputs.landsat_image])
      /\ exists source,
           In source [Inputs.landsat_image]
           /\ forall p,
               pixels (on_pixels (select_as L8_bands common_bands)
                                 (L8QAMask Inputs.landsat_image)) p
               = (px <- (raw <- pixels source p ;; L8QAMask_px raw) ;;
                  select_as L8_bands common_bands px)).
Proof.
  cbv zeta.
  assert (P : pixels (on_pixels (select_as S2_bands common_bands)
                                (S2QAMask MoreInputs.sentinel_image)) 0%nat
              = Ok (Inputs.six_bands (Some 1000) (Some 2000) (Some 3000)
                                     (Some 4000) (Some 5000) (Some 6000)))
    by reflexivity.
  assert (I2 : In (harmonize (on_pixels (select_as S2_bands common_bands)
                                        (S2QAMask MoreInputs.sentinel_image)))
                  (S2_query Inputs.one_pixel 10 Inputs.june_start Inputs.june_end
                     [MoreInputs.sentinel_image]))
    by (left; reflexivity).
  assert (I8 : In (on_pixels (select_as L8_bands common_bands)
                             (L8QAMask Inputs.landsat_image))
                  (L8_query Inputs.one_pixel 10 Inputs.june_start Inputs.june_end
                     [Inputs.landsat_image]))
    by (left; reflexivity).
  split; [|split].
  - split; [exact P|]. split; [reflexivity|].
    destruct (proj2 (proj1 C5_harmonize_affine_and_invertible _ 0%nat _ P eq_refl))
      as (y & x & H1 & H2 & H3 & H4 & _).
    exists y, x. repeat split; assumption.
  - split; [exact I2|].
    destruct (proj1 (proj2 C5_harmonize_affine_and_invertible) _ _ _ _ _ _ I2)
      as (source & Hs & Ht & _).
    exists source. split; assumption.
  - split; [exact I8|].
    exact (proj2 (proj2 C5_harmonize_affine_and_invertible) _ _ _ _ _ _ I8).
Defined.

(** ** The months of the optical query collections *)

Lemma calendarRange_month_spec (lo hi : Z) (im : Image) :
  calendarRange_month lo hi im = true ->
  exists t, time_start im = Some t /\ (lo <= month_of t <= hi)%Z.
Proof.
  unfold calendarRange_month. destruct (time_start im) as [t|]; [|discriminate].
  intros H. apply andb_true_iff in H. destruct H as [H1 H2].
  exists t. split; [reflexivity|]. split; [now apply Z.leb_le|now apply Z.leb_le].
Qed.

Lemma filterDate_spec (start stop : Z) (c : ImageCollection) (im : Image) :
  In im (filterDate start stop c) ->
  In im c /\ exists t, time_start im = Some t /\ (start <= t < stop)%Z.
Proof.
  unfold filterDate. intros H. apply filter_In in H. destruct H as [Hin H].
  split; [exact Hin|]. destruct (time_start im) as [t|]; [|discriminate].
  apply andb_true_iff in H. destruct H as [H1 H2].
  exists t. split; [reflexivity|]. split; [now apply Z.leb_le|now apply Z.ltb_lt].
Qed.

Lemma filtered_in_season (name : string) (cloud : Q) (start_date end_date : Z)
    (c : ImageCollection) (im : Image) :
  In im (filter (filter_lt name cloud)
           (filter (calendarRange_month 3 11) (filterDate start_date end_date c))) ->
  acquired_in_season start_date end_date im.
Proof.
  intros H. apply filter_In in H. destruct H as [H _].
  apply filter_In in H. destruct H as [H Hm].
  apply filterDate_spec in H. destruct H as (_ & t & Ht & Hrange).
  apply calendarRange_month_spec in Hm. destruct Hm as (t' & Ht' & Hmonth).
  rewrite Ht in Ht'. inversion Ht'; subst t'.
  exists t. repeat split; try tauto; try lia.
  simpl. lia.
Qed.

Lemma L8_query_in_season bounds cloud start_date end_date catalog im :
  In im (L8_query bounds cloud start_date end_date catalog) ->
  acquired_in_season start_date end_date im.
Proof.
  unfold L8_query. intros H.
  apply in_map_iff in H. destruct H as (x & <- & H).
  apply in_map_iff in H. destruct H as (y & <- & H).
  apply filtered_in_season in H. exact H.
Qed.

Lemma S2_query_in_season bounds cloud start_date end_date catalog im :
  In im (S2_query bounds cloud start_date end_date catalog) ->
  acquired_in_season start_date end_date im.
Proof.
  unfold S2_query. intros H.
  apply in_map_iff in H. destruct H as (x & <- & H).
  apply in_map_iff in H. destruct H as (y & <- & H).
  apply in_map_iff in H. destruct H as (z & <- & H).
  apply filtered_in_season in H. exact H.
Qed.

(** C9: in both scripts, every optical image that enters the
    classification of the query period was acquired within the date range
    and in a month from March to November; none was acquired in December,
    January or February. *)
Theorem C9_optical_query_excludes_winter :
  forall start_date end_date region landsat sentinel2 im,
    In im (ConstructTimeSeries.L8S2_ind start_date end_date region landsat sentinel2)
    \/ In im (SWIFT_classify.L8S2_ind region start_date end_date landsat sentinel2) ->
    acquired_in_season start_date end_date im.
Proof.
  intros start_date end_date region landsat sentinel2 im [H|H].
  - unfold ConstructTimeSeries.L8S2_ind, ConstructTimeSeries.L8S2 in H.
    apply in_map_iff in H. destruct H as (x & <- & H).
    apply in_app_iff in H. destruct H as [H|H].
    + apply L8_query_in_season in H. exact H.
    + apply S2_query_in_season in H. exact H.
  - unfold SWIFT_classify.L8S2_ind, SWIFT_classify.L8S2 in H.
    apply in_map_iff in H. destruct H as (x & <- & H).
    apply in_app_iff in H. destruct H as [H|H].
    + apply L8_query_in_season in H. exact H.
    + apply S2_query_in_season in H. exact H.
Qed.

(** A January image inside the requested range does not reach the
    classification. *)
Lemma january_image_is_dropped :
  let start_date := Date 2021 1 1 in
  let end_date := Date 2021 2 1 in
  filterDate start_date end_date
    (filterBounds Inputs.one_pixel [Inputs.landsat_january])
  = [Inputs.landsat_january]
  /\ SWIFT_classify.L8S2_ind Inputs.one_pixel start_date end_date
       [Inputs.landsat_january] [] = []
  /\ ConstructTimeSeries.L8S2_ind start_date end_date Inputs.one_pixel
       [Inputs.landsat_january] [] = [].
Proof. repeat split. Qed.

Lemma C9_optical_query_excludes_winter_witness :
  acquired_in_season Inputs.june_start Inputs.june_end
    (on_pixels SWIFT_classify.waterMapping
       (on_pixels (select_as L8_bands common_bands) (L8QAMask Inputs.landsat_image))).
Proof.
  apply (C9_optical_query_excludes_winter Inputs.june_start Inputs.june_end
           Inputs.one_pixel [Inputs.landsat_image] []).
  right. left. reflexivity.
Defined.

(** ** The wind mask *)

Lemma windMask_pixel (start_date end_date : Z) (catalog : list Wind.Forecast)
    (im : Classified) (p : Pixel) :
  classification (Wind.windMask start_date end_date catalog im) p
  = match classification im p, Wind.windy start_date end_date catalog p with
    | Some v, Some w => if Rlt_dec w 12.0 then Some v else None
    | _, _ => None
    end.
Proof.
  unfold Wind.windMask. cbn [classification]. unfold updateMask, Wind.lt.
  destruct (classification im p) as [v|]; [|reflexivity].
  destruct (Wind.windy start_date end_date catalog p) as [w|]; [|reflexivity].
  cbn [option_map]. destruct (Rlt_dec w 12.0); reflexivity.
Qed.

Lemma windy_formula (start_date end_date : Z) (catalog : list Wind.Forecast)
    (p : Pixel) (a b : R) :
  Wind.max (map Wind.v_component_of_wind_height_above_ground
              (Wind.filterDate start_date end_date catalog)) p = Some a ->
  Wind.max (map Wind.u_component_of_wind_height_above_ground
              (Wind.filterDate start_date end_date catalog)) p = Some b ->
  Wind.windy start_date end_date catalog p
  = Some (R_sqrt.sqrt (a ^ 2 + b ^ 2) * 3.6)%R.
Proof.
  intros Ha Hb. unfold Wind.windy, Wind.multiply, Wind.sqrt, Wind.add, Wind.pow.
  rewrite Ha, Hb. reflexivity.
Qed.



(** With wind components of 3 and 4 m/s the speed is 18 km/h: the pixel is
    masked. *)
Lemma breezy_pixel_is_masked :
  classification
    (Wind.windMask Inputs.june_start Inputs.june_end [Inputs.breezy]
       (Inputs.constant Inputs.june_start 1)) 0%nat = None.
Proof.
  rewrite windMask_pixel.
  rewrite (windy_formula Inputs.june_start Inputs.june_end [Inputs.breezy] 0%nat
             4%R 3%R eq_refl eq_refl).
  cbn [Inputs.constant classification].
  replace (4 ^ 2 + 3 ^ 2)%R with (5 * 5)%R by ring.
  rewrite sqrt_square by lra.
  destruct (Rlt_dec (5 * 3.6) 12.0) as [H|H]; [exfalso; lra|reflexivity].
Qed.

(** ** The ensemble size *)

(** C7, as stated, fails: no input of the training operation of either
    modality changes the ensemble size. *)
Lemma C7_ensemble_size_is_not_configurable :
  ~ Spec.ensemble_size_configurable SWIFT_classify.optical_classifier
  /\ ~ Spec.ensemble_size_configurable SWIFT_classify.S1_classifier
  /\ ~ Spec.ensemble_size_configurable ConstructTimeSeries.optical_classifier
  /\ ~ Spec.ensemble_size_configurable ConstructTimeSeries.S1_classifier.
Proof.
  repeat split; intros (x & y & H); apply H; reflexivity.
Qed.

(** C7, amended: for both modalities and in both scripts the trainer builds
    a random forest of 500 trees, whatever the training samples; the size is
    the literal 500 of the call and the classifier is bound to the label
    'water' and to the predictor bands of its modality. *)
Theorem C7_ensemble_size_is_500 :
  forall optical_training S1_training : list Sample,
    numberOfTrees (SWIFT_classify.optical_classifier optical_training) = 500%Z
    /\ numberOfTrees (SWIFT_classify.S1_classifier S1_training) = 500%Z
    /\ numberOfTrees (ConstructTimeSeries.optical_classifier optical_training) = 500%Z
    /\ numberOfTrees (ConstructTimeSeries.S1_classifier S1_training) = 500%Z
    /\ features (SWIFT_classify.optical_classifier optical_training) = optical_training
    /\ features (SWIFT_classify.S1_classifier S1_training) = S1_training
    /\ inputProperties (SWIFT_classify.optical_classifier optical_training)
       = ["MNDWI"; "AWEIsh"; "TCW"; "NDVI"]
    /\ inputProperties (SWIFT_classify.S1_classifier S1_training)
       = ["VV"; "VH"; "angle"].
Proof. intros. repeat split. Qed.

(** ** The wind mask of the radar accuracy assessment *)

Section AccuracyScript.
Import S1_classificationAccuracyAssessment.

Variable LabeledPoint : Type.
Variable points : list LabeledPoint.
Variable NOAA_CFSV2_FOR6H : list Wind.Forecast.
Variable HAND : Raster Q.
Variable geometry : list Pixel.
Variable ee_mosaic : ImageCollection -> Image.
Variable sampleRegions : Image -> list LabeledPoint -> Z -> list Sample.
Variable randomColumn : list Sample -> list Sample.
Variable classify : Classifier -> Image -> Raster Q.
Variable classify_samples : Classifier -> list Sample -> list (Sample * Q).
Variable convolve : Raster Q -> Kernel -> Raster Q.
Variable ConfusionMatrix : Type.
Variable errorMatrix : list (Sample * Q) -> ConfusionMatrix.
Variables accuracy kappa : ConfusionMatrix -> Q.

Local Abbreviation script_with :=
  (script_with LabeledPoint points NOAA_CFSV2_FOR6H HAND geometry ee_mosaic
     sampleRegions randomColumn classify classify_samples convolve
     ConfusionMatrix errorMatrix accuracy kappa).
Local Abbreviation script :=
  (script LabeledPoint points NOAA_CFSV2_FOR6H HAND geometry ee_mosaic
     sampleRegions randomColumn classify classify_samples convolve
     ConfusionMatrix errorMatrix accuracy kappa).

(** C10: the statement that maps the wind mask over the preprocessed
    collection leaves every variable of the script as it was, the
    collection included; the mosaic that is then sampled is the mosaic of
    that unmasked collection; and the final state of the script, with all
    it printed and exported, is the same whatever function is mapped, the
    identity included. *)
Theorem C10_wind_mask_has_no_effect :
  (forall (st : Vars ConfusionMatrix) (f : Image -> Image),
      map_and_drop ConfusionMatrix f st = st
      /\ S1_preprocess _ (map_and_drop ConfusionMatrix f st) = S1_preprocess _ st)
  /\ (forall preprocessed : ImageCollection,
      let final := run _ script (initial _ preprocessed) in
      S1_preprocess _ final = preprocessed
      /\ S1_mosaic _ final = Some (ee_mosaic preprocessed)
      /\ observedPoints _ final
         = randomColumn (sampleRegions (ee_mosaic preprocessed) points 10))
  /\ (forall (st : Vars ConfusionMatrix) (f : Image -> Image),
      run _ (script_with f) st = run _ (script_with (fun im => im)) st
      /\ run _ script st = run _ (script_with f) st).
Proof.
  repeat split.
Qed.

End AccuracyScript.

(** ** Bands of a pixel *)

Lemma find_band_name (n : string) (px : Px) (b : Band) :
  find_band n px = Some b -> fst b = n.
Proof.
  induction px as [|c px IH]; simpl; [discriminate|].
  destruct (String.eqb (fst c) n) eqn:E.
  - intros H. inversion H; subst. now apply String.eqb_eq.
  - exact IH.
Qed.

Lemma find_band_In (n : string) (px : Px) (b : Band) :
  find_band n px = Some b -> In b px.
Proof.
  induction px as [|c px IH]; simpl; [discriminate|].
  destruct (String.eqb (fst c) n).
  - intros H. inversion H. now left.
  - intros H. right. now apply IH.
Qed.

Lemma find_band_map (g : Band -> Band) (n : string) (px : Px) :
  (forall b, fst (g b) = fst b) ->
  find_band n (map g px) = option_map g (find_band n px).
Proof.
  intros Hg. induction px as [|c px IH]; simpl; [reflexivity|].
  rewrite Hg. destruct (String.eqb (fst c) n); [reflexivity|exact IH].
Qed.

Lemma find_band_filter (accepts : string -> bool) (n : string) (px : Px) :
  accepts n = true ->
  find_band n (filter (fun b : Band => accepts (fst b)) px) = find_band n px.
Proof.
  intros Hn. induction px as [|c px IH]; simpl; [reflexivity|].
  destruct (String.eqb (fst c) n) eqn:E.
  - apply String.eqb_eq in E. rewrite E, Hn. simpl.
    rewrite E, String.eqb_refl. reflexivity.
  - destruct (accepts (fst c)); simpl; [rewrite E|]; exact IH.
Qed.

Lemma find_band_app (n : string) (px qx : Px) :
  find_band n (px ++ qx)
  = match find_band n px with
    | Some b => Some b
    | None => find_band n qx
    end.
Proof.
  induction px as [|c px IH]; simpl; [reflexivity|].
  destruct (String.eqb (fst c) n); [reflexivity|exact IH].
Qed.

Lemma filter_map_names (accepts : string -> bool) (g : Band -> Band) (px : Px) :
  (forall b, fst (g b) = fst b) ->
  filter (fun b : Band => accepts (fst b)) (map g px)
  = map g (filter (fun b : Band => accepts (fst b)) px).
Proof.
  intros Hg. induction px as [|c px IH]; simpl; [reflexivity|].
  rewrite Hg. destruct (accepts (fst c)); simpl; rewrite IH; reflexivity.
Qed.

(** The test of one flag of the QA band is the test of one bit. *)
Lemma land_bit (q n : Z) :
  (0 <= n)%Z ->
  Z.eqb (Z.land q (Z.shiftl 1 n)) 0 = negb (Z.testbit q n).
Proof.
  intros Hn. rewrite Z.shiftl_1_l.
  destruct (Z.testbit q n) eqn:B; simpl.
  - apply Z.eqb_neq. intros H.
    assert (T : Z.testbit (Z.land q (2 ^ n)) n = true).
    { rewrite Z.land_spec, B, Z.pow2_bits_true by exact Hn. reflexivity. }
    rewrite H, Z.bits_0 in T. discriminate.
  - apply Z.eqb_eq. apply Z.bits_inj'. intros m Hm.
    rewrite Z.land_spec, Z.bits_0, Z.pow2_bits_eqb by exact Hn.
    destruct (Z.eqb_spec n m) as [->|_].
    + rewrite B. reflexivity.
    + apply andb_false_r.
Qed.

(** ** Landsat 8 quality mask *)

Lemma L8_mask_then_scale (qa : option Q) (b : Band) :
  (fun c : Band => (fst c, option_map (fun v => v / 10000) (snd c)))
    match snd b,
          option_map (fun v => let q := Qfloor v in
                               Z.eqb (Z.land q (Z.shiftl 1 3)) 0
                               && Z.eqb (Z.land q (Z.shiftl 1 5)) 0) qa with
    | Some v, Some true => (fst b, Some v)
    | _, _ => (fst b, None)
    end
  = Expected.reflectance (Expected.L8_clear qa) b.
Proof.
  destruct b as [n v].
  unfold Expected.reflectance, Expected.reflectance_value, Expected.L8_clear.
  cbn [fst snd]. destruct qa as [q|]; cbn [option_map].
  - cbv zeta. rewrite !land_bit by lia.
    destruct (negb (Z.testbit (Qfloor q) 3) && negb (Z.testbit (Qfloor q) 5));
      destruct v; reflexivity.
  - destruct v; reflexivity.
Qed.

Lemma L8QAMask_px_closed (px : Px) (qa : Band) :
  find_band "QA_PIXEL" px = Some qa ->
  L8QAMask_px px
  = match filter (fun b : Band => is_SR_B (fst b)) px with
    | [] => Err (BandNotFound "SR_B[0-9]*")
    | bs => Ok (map (Expected.reflectance (Expected.L8_clear (snd qa))) bs)
    end.
Proof.
  intros Hqa. unfold L8QAMask_px, select1. rewrite Hqa. cbn [bind].
  unfold select_matching, map_px, updateMask_px. cbv zeta. rewrite map_map.
  rewrite (map_ext _ _ (L8_mask_then_scale (snd qa))).
  rewrite (filter_map_names is_SR_B) by reflexivity.
  destruct (filter (fun b : Band => is_SR_B (fst b)) px) as [|b bs]; reflexivity.
Qed.

(** X1: when the image has the band QA_PIXEL, [L8QAMask] returns the bands
    SR_B... only, in their order; each is the source value divided by 10000
    when neither bit 3 (cloud shadow) nor bit 5 (cloud) of QA_PIXEL is set,
    and no data otherwise, also when QA_PIXEL itself is masked.  Without any
    SR_B band the selection fails, and without QA_PIXEL the mask does. *)
Theorem L8QAMask_px_cloud_bits :
  forall px : Px,
    match find_band "QA_PIXEL" px with
    | None => L8QAMask_px px = Err (BandNotFound "QA_PIXEL")
    | Some qa =>
        L8QAMask_px px
        = match filter (fun b : Band => is_SR_B (fst b)) px with
          | [] => Err (BandNotFound "SR_B[0-9]*")
          | bs => Ok (map (Expected.reflectance (Expected.L8_clear (snd qa))) bs)
          end
    end.
Proof.
  intros px. destruct (find_band "QA_PIXEL" px) as [qa|] eqn:Hqa.
  - exact (L8QAMask_px_closed px qa Hqa).
  - unfold L8QAMask_px, select1. rewrite Hqa. reflexivity.
Qed.

(** A clear Landsat pixel, a cloudy one (bit 5 set) and one without the QA
    band. *)
Example L8QAMask_px_examples :
  L8QAMask_px Inputs.landsat_px
  = Ok [("SR_B1", Some (800 / 10000)); ("SR_B2", Some (1000 / 10000));
        ("SR_B3", Some (2000 / 10000)); ("SR_B4", Some (3000 / 10000));
        ("SR_B5", Some (4000 / 10000)); ("SR_B6", Some (5000 / 10000));
        ("SR_B7", Some (6000 / 10000))]
  /\ L8QAMask_px [("SR_B2", Some 1000); ("QA_PIXEL", Some 32)]
     = Ok [("SR_B2", None)]
  /\ L8QAMask_px [("SR_B2", Some 1000)] = Err (BandNotFound "QA_PIXEL").
Proof. repeat split. Qed.


Lemma band_value_find (n : string) (px : Px) (v : option Q) :
  Expected.band_value n px = Some v -> find_band n px = Some (n, v).
Proof.
  unfold Expected.band_value. destruct (find_band n px) as [[m w]|] eqn:E;
    [|discriminate].
  intros H. inversion H; subst. apply find_band_name in E. simpl in E.
  now subst.
Qed.

Lemma select1_after_L8QAMask (clear : bool) (n : string) (px : Px) (v : option Q) :
  is_SR_B n = true ->
  Expected.band_value n px = Some v ->
  select1 n (map (Expected.reflectance clear)
                 (filter (fun b : Band => is_SR_B (fst b)) px))
  = Ok (n, Expected.reflectance_value clear v).
Proof.
  intros Hn Hv. apply band_value_find in Hv. unfold select1.
  rewrite find_band_map by reflexivity.
  rewrite (find_band_filter is_SR_B n px Hn), Hv. reflexivity.
Qed.

(** X2: for a Landsat 8 pixel with the band QA_PIXEL and the bands SR_B2 to
    SR_B7, the quality mask followed by the selection gives the six bands
    blue, green, red, NIR, SWIR1, SWIR2 in this order, each the reflectance
    of SR_B2, SR_B3, SR_B4, SR_B5, SR_B6, SR_B7: the source value divided by
    10000 when the pixel is free of cloud and cloud shadow, no data
    otherwise. *)
Theorem L8_pixel_to_common_bands :
  forall (px : Px) (qa : Band) (v2 v3 v4 v5 v6 v7 : option Q),
    find_band "QA_PIXEL" px = Some qa ->
    Expected.band_value "SR_B2" px = Some v2 ->
    Expected.band_value "SR_B3" px = Some v3 ->
    Expected.band_value "SR_B4" px = Some v4 ->
    Expected.band_value "SR_B5" px = Some v5 ->
    Expected.band_value "SR_B6" px = Some v6 ->
    Expected.band_value "SR_B7" px = Some v7 ->
    (raw <- L8QAMask_px px ;; select_as L8_bands common_bands raw)
    = let clear := Expected.L8_clear (snd qa) in
      Ok (Inputs.six_bands
            (Expected.reflectance_value clear v2)
            (Expected.reflectance_value clear v3)
            (Expected.reflectance_value clear v4)
            (Expected.reflectance_value clear v5)
            (Expected.reflectance_value clear v6)
            (Expected.reflectance_value clear v7)).
Proof.
  intros px qa v2 v3 v4 v5 v6 v7 Hqa H2 H3 H4 H5 H6 H7.
  rewrite (L8QAMask_px_closed px qa Hqa).
  destruct (filter (fun b : Band => is_SR_B (fst b)) px) as [|b bs] eqn:F.
  - exfalso. apply band_value_find in H2.
    rewrite <- (find_band_filter is_SR_B "SR_B2" px eq_refl), F in H2.
    discriminate.
  - rewrite <- F. cbn [bind]. unfold select_as, select, L8_bands. cbn [mapM].
    rewrite (select1_after_L8QAMask _ "SR_B2" px v2 eq_refl H2),
            (select1_after_L8QAMask _ "SR_B3" px v3 eq_refl H3),
            (select1_after_L8QAMask _ "SR_B4" px v4 eq_refl H4),
            (select1_after_L8QAMask _ "SR_B5" px v5 eq_refl H5),
            (select1_after_L8QAMask _ "SR_B6" px v6 eq_refl H6),
            (select1_after_L8QAMask _ "SR_B7" px v7 eq_refl H7).
    reflexivity.
Qed.

Lemma L8_pixel_to_common_bands_witness :
  (raw <- L8QAMask_px Inputs.landsat_px ;; select_as L8_bands common_bands raw)
  = Ok (Inputs.six_bands (Some (1000 / 10000)) (Some (2000 / 10000))
          (Some (3000 / 10000)) (Some (4000 / 10000))
          (Some (5000 / 10000)) (Some (6000 / 10000))).
Proof.
  rewrite (L8_pixel_to_common_bands Inputs.landsat_px ("QA_PIXEL", Some 21824)
             (Some 1000) (Some 2000) (Some 3000) (Some 4000) (Some 5000) (Some 6000)
             eq_refl eq_refl eq_refl eq_refl eq_refl eq_refl eq_refl).
  reflexivity.
Defined.

(** ** Sentinel-2 quality mask and harmonization *)

Lemma S2QAMask_px_closed (px : Px) (qa60 : Band) :
  find_band "QA60" px = Some qa60 ->
  S2QAMask_px px
  = Ok (map (fun b : Band =>
               (fst b, if Expected.S2_clear (snd qa60) then snd b else None)) px).
Proof.
  intros H. unfold S2QAMask_px, select1. rewrite H. cbn [bind].
  unfold updateMask_px. f_equal. apply map_ext. intros [n v].
  unfold Expected.S2_clear. cbn [fst snd].
  destruct (snd qa60) as [q|]; cbn [option_map];
    [destruct (Qltb q 1)|]; destruct v; reflexivity.
Qed.

Lemma select1_after_S2QAMask (clear : bool) (n : string) (px : Px) (v : option Q) :
  Expected.band_value n px = Some v ->
  select1 n (map (fun b : Band => (fst b, if clear then snd b else None)) px)
  = Ok (n, if clear then v else None).
Proof.
  intros Hv. apply band_value_find in Hv. unfold select1.
  rewrite find_band_map by reflexivity. rewrite Hv. reflexivity.
Qed.

(** X3: for a Sentinel-2 pixel with the band QA60 and the bands B2, B3, B4,
    B8, B11, B12, the quality mask, the selection and the harmonization give
    the six bands blue, green, red, NIR, SWIR1, SWIR2 in this order; each is
    [x * gain + bias] of its source value [x], which is not divided by 10000
    as the Landsat values are, when QA60 is below 1, and no data otherwise. *)
Theorem S2_pixel_to_common_bands :
  forall (px : Px) (qa60 : Band) (v2 v3 v4 v8 v11 v12 : option Q),
    find_band "QA60" px = Some qa60 ->
    Expected.band_value "B2" px = Some v2 ->
    Expected.band_value "B3" px = Some v3 ->
    Expected.band_value "B4" px = Some v4 ->
    Expected.band_value "B8" px = Some v8 ->
    Expected.band_value "B11" px = Some v11 ->
    Expected.band_value "B12" px = Some v12 ->
    (selected <- (masked <- S2QAMask_px px ;;
                  select_as S2_bands common_bands masked) ;;
     harmonize_px selected)
    = let clear := Expected.S2_clear (snd qa60) in
      Ok (Inputs.six_bands
            (Expected.adjusted clear 0.9778 (-0.00411) v2)
            (Expected.adjusted clear 1.0053 (-0.00093) v3)
            (Expected.adjusted clear 0.9765 0.00094 v4)
            (Expected.adjusted clear 0.9983 (-0.0001) v8)
            (Expected.adjusted clear 0.9987 (-0.0015) v11)
            (Expected.adjusted clear 1.003 (-0.0012) v12)).
Proof.
  intros px qa60 v2 v3 v4 v8 v11 v12 Hqa H2 H3 H4 H8 H11 H12.
  rewrite (S2QAMask_px_closed px qa60 Hqa). cbn [bind].
  unfold select_as, select, S2_bands. cbn [mapM].
  rewrite (select1_after_S2QAMask _ "B2" px v2 H2),
          (select1_after_S2QAMask _ "B3" px v3 H3),
          (select1_after_S2QAMask _ "B4" px v4 H4),
          (select1_after_S2QAMask _ "B8" px v8 H8),
          (select1_after_S2QAMask _ "B11" px v11 H11),
          (select1_after_S2QAMask _ "B12" px v12 H12).
  cbv zeta. unfold Expected.adjusted.
  destruct (Expected.S2_clear (snd qa60));
    destruct v2, v3, v4, v8, v11, v12; reflexivity.
Qed.

Lemma S2_pixel_to_common_bands_witness :
  (selected <- (masked <- S2QAMask_px MoreInputs.sentinel_px ;;
                select_as S2_bands common_bands masked) ;;
   harmonize_px selected)
  = Ok (Inputs.six_bands
          (Some (1000 * 0.9778 + -0.00411)) (Some (2000 * 1.0053 + -0.00093))
          (Some (3000 * 0.9765 + 0.00094)) (Some (4000 * 0.9983 + -0.0001))
          (Some (5000 * 0.9987 + -0.0015)) (Some (6000 * 1.003 + -0.0012))).
Proof.
  rewrite (S2_pixel_to_common_bands MoreInputs.sentinel_px ("QA60", Some 0)
             (Some 1000) (Some 2000) (Some 3000) (Some 4000) (Some 5000) (Some 6000)
             eq_refl eq_refl eq_refl eq_refl eq_refl eq_refl eq_refl).
  reflexivity.
Defined.


(** ** Band indices on masked and incomplete pixels *)

(** X4: on a pixel with the six optical bands, some of them possibly
    masked, the [waterMapping] of SWIFT_classify gives the four bands MNDWI,
    AWEIsh, TCW, NDVI in this order, and each index is no data exactly when
    a band it reads is: MNDWI reads green and SWIR1, NDVI reads NIR and red,
    AWEIsh reads all bands but red, TCW reads all six. *)
Theorem waterMapping_masked_bands :
  forall blue green red NIR SWIR1 SWIR2 : option Q,
    SWIFT_classify.waterMapping (Inputs.six_bands blue green red NIR SWIR1 SWIR2)
    = Ok [("MNDWI", Expected.normalized_difference green SWIR1);
          ("AWEIsh", Expected.AWEIsh_value blue green NIR SWIR1 SWIR2);
          ("TCW", Expected.TCW_value blue green red NIR SWIR1 SWIR2);
          ("NDVI", Expected.normalized_difference NIR red)].
Proof.
  intros [b|] [g|] [r|] [n|] [s1|] [s2|]; reflexivity.
Qed.

Lemma select1_Ok (n : string) (px : Px) (b : Band) :
  select1 n px = Ok b <-> find_band n px = Some b.
Proof.
  unfold select1. destruct (find_band n px); split; intros H;
    inversion H; reflexivity.
Qed.

Lemma select1_Err (n : string) (px : Px) (e : Error) :
  select1 n px = Err e -> find_band n px = None.
Proof.
  unfold select1. destruct (find_band n px); [discriminate|reflexivity].
Qed.

Lemma select_names (names : list string) (px out : Px) :
  select names px = Ok out -> map fst out = names.
Proof.
  unfold select. revert out.
  induction names as [|n names IH]; intros out H; simpl in H.
  - inversion H. reflexivity.
  - destruct (select1 n px) as [b|e] eqn:E; simpl in H; [|discriminate].
    destruct (mapM (fun n0 => select1 n0 px) names) as [bs|e] eqn:M; simpl in H;
      [|discriminate].
    inversion H; subst. simpl. apply select1_Ok, find_band_name in E.
    rewrite E, (IH bs eq_refl). reflexivity.
Qed.

Lemma select_Ok_found (names : list string) (px out : Px) :
  select names px = Ok out ->
  forall n, In n names -> exists b, find_band n px = Some b.
Proof.
  unfold select. revert out.
  induction names as [|m names IH]; intros out H n Hn; [contradiction|].
  simpl in H.
  destruct (select1 m px) as [b|e] eqn:E; simpl in H; [|discriminate].
  destruct (mapM (fun n0 => select1 n0 px) names) as [bs|e] eqn:M; simpl in H;
    [|discriminate].
  destruct Hn as [<-|Hn].
  - exists b. now apply select1_Ok.
  - exact (IH bs eq_refl n Hn).
Qed.

Lemma select_found_Ok (names : list string) (px : Px) :
  (forall n, In n names -> exists b, find_band n px = Some b) ->
  exists out, select names px = Ok out.
Proof.
  unfold select. induction names as [|m names IH]; intros H; simpl.
  - now exists [].
  - destruct (H m (or_introl eq_refl)) as (b & Hb).
    destruct (IH (fun n Hn => H n (or_intror Hn))) as (bs & Hbs).
    exists (b :: bs). apply select1_Ok in Hb. rewrite Hb, Hbs. reflexivity.
Qed.

Lemma normalizedDifference_Ok (a b : string) (px : Px) :
  (exists nd, normalizedDifference a b px = Ok nd)
  <-> (exists x, find_band a px = Some x) /\ (exists y, find_band b px = Some y).
Proof.
  unfold normalizedDifference, select1. split.
  - intros (nd & H).
    destruct (find_band a px) as [x|]; [|discriminate].
    destruct (find_band b px) as [y|]; [|discriminate].
    split; eexists; reflexivity.
  - intros ((x & ->) & (y & ->)). eexists. reflexivity.
Qed.

Lemma AWEIsh_Ok (px : Px) :
  (exists v, AWEIsh px = Ok v)
  <-> (forall n, In n ["blue"; "green"; "NIR"; "SWIR1"; "SWIR2"] ->
                 exists b, find_band n px = Some b).
Proof.
  unfold AWEIsh, expression, select1. split.
  - intros (v & H) n Hn.
    destruct (find_band "blue" px) as [b1|] eqn:E1; [|discriminate].
    destruct (find_band "green" px) as [b2|] eqn:E2; [|discriminate].
    destruct (find_band "NIR" px) as [b3|] eqn:E3; [|discriminate].
    destruct (find_band "SWIR1" px) as [b4|] eqn:E4; [|discriminate].
    destruct (find_band "SWIR2" px) as [b5|] eqn:E5; [|discriminate].
    simpl in Hn.
    destruct Hn as [<-|[<-|[<-|[<-|[<-|[]]]]]]; eexists; eassumption.
  - intros H.
    destruct (H "blue") as (b1 & ->); [simpl; tauto|].
    destruct (H "green") as (b2 & ->); [simpl; tauto|].
    destruct (H "NIR") as (b3 & ->); [simpl; tauto|].
    destruct (H "SWIR1") as (b4 & ->); [simpl; tauto|].
    destruct (H "SWIR2") as (b5 & ->); [simpl; tauto|].
    eexists. reflexivity.
Qed.

Lemma wetness_Ok (name : string) (px : Px) :
  (exists v, wetness name px = Ok v)
  <-> (forall n, In n common_bands -> exists b, find_band n px = Some b).
Proof.
  unfold wetness, expression, select_float, select1, common_bands. split.
  - intros (v & H) n Hn.
    destruct (find_band "blue" px) as [b1|] eqn:E1; [|discriminate].
    destruct (find_band "green" px) as [b2|] eqn:E2; [|discriminate].
    destruct (find_band "red" px) as [b3|] eqn:E3; [|discriminate].
    destruct (find_band "NIR" px) as [b4|] eqn:E4; [|discriminate].
    destruct (find_band "SWIR1" px) as [b5|] eqn:E5; [|discriminate].
    destruct (find_band "SWIR2" px) as [b6|] eqn:E6; [|discriminate].
    simpl in Hn.
    destruct Hn as [<-|[<-|[<-|[<-|[<-|[<-|[]]]]]]]; eexists; eassumption.
  - intros H.
    destruct (H "blue") as (b1 & ->); [simpl; tauto|].
    destruct (H "green") as (b2 & ->); [simpl; tauto|].
    destruct (H "red") as (b3 & ->); [simpl; tauto|].
    destruct (H "NIR") as (b4 & ->); [simpl; tauto|].
    destruct (H "SWIR1") as (b5 & ->); [simpl; tauto|].
    destruct (H "SWIR2") as (b6 & ->); [simpl; tauto|].
    eexists. reflexivity.
Qed.

(** On any pixel, the four index bands have the names they are given. *)
Lemma MNDWI_name (px : Px) (b : Band) : MNDWI px = Ok b -> fst b = "MNDWI".
Proof.
  unfold MNDWI. destruct (normalizedDifference "green" "SWIR1" px); simpl;
    [|discriminate]. intros H. inversion H. reflexivity.
Qed.

Lemma NDVI_name (px : Px) (b : Band) : NDVI px = Ok b -> fst b = "NDVI".
Proof.
  unfold NDVI. destruct (normalizedDifference "NIR" "red" px); simpl;
    [|discriminate]. intros H. inversion H. reflexivity.
Qed.

Lemma AWEIsh_name (px : Px) (b : Band) : AWEIsh px = Ok b -> fst b = "AWEIsh".
Proof.
  unfold AWEIsh. destruct (expression AWEIsh_expr _); simpl; [|discriminate].
  intros H. inversion H. reflexivity.
Qed.

Lemma wetness_name (name : string) (px : Px) (b : Band) :
  wetness name px = Ok b -> fst b = name.
Proof.
  unfold wetness. destruct (expression TCW_expr _); simpl; [|discriminate].
  intros H. inversion H. reflexivity.
Qed.

Lemma waterMapping_names (px out : Px) :
  SWIFT_classify.waterMapping px = Ok out -> map fst out = optical_bands.
Proof.
  unfold SWIFT_classify.waterMapping. intros H.
  destruct (MNDWI px) as [m|]; cbn [bind] in H; [|discriminate].
  destruct (AWEIsh px) as [a|]; cbn [bind] in H; [|discriminate].
  destruct (wetness "TCW" px) as [t|]; cbn [bind] in H; [|discriminate].
  destruct (NDVI px) as [v|]; cbn [bind] in H; [|discriminate].
  cbv zeta in H. exact (select_names _ _ _ H).
Qed.

(** X5: the [waterMapping] of SWIFT_classify succeeds exactly on the pixels
    that have the six bands blue, green, red, NIR, SWIR1, SWIR2 (a pixel
    that lacks one of them is an error, whatever else it has), and its
    result then has exactly the four bands MNDWI, AWEIsh, TCW, NDVI, in this
    order. *)
Theorem waterMapping_needs_six_bands :
  forall px : Px,
    ((exists out, SWIFT_classify.waterMapping px = Ok out)
     <-> (forall n, In n common_bands -> exists b, find_band n px = Some b))
    /\ (forall out, SWIFT_classify.waterMapping px = Ok out ->
                    map fst out = optical_bands).
Proof.
  intros px. unfold SWIFT_classify.waterMapping. split; [split|].
  - intros (out & H) n Hn.
    destruct (MNDWI px) as [m|] eqn:Em; cbn [bind] in H; [|discriminate].
    destruct (AWEIsh px) as [a|] eqn:Ea; cbn [bind] in H; [|discriminate].
    destruct (wetness "TCW" px) as [t|] eqn:Et; cbn [bind] in H; [|discriminate].
    apply (proj1 (wetness_Ok "TCW" px)); [now exists t|exact Hn].
  - intros H.
    destruct (proj2 (wetness_Ok "TCW" px) H) as (t & Et).
    destruct (proj2 (AWEIsh_Ok px)) as (a & Ea).
    { intros n Hn. apply H. unfold common_bands. simpl in *. tauto. }
    destruct (proj2 (normalizedDifference_Ok "green" "SWIR1" px)) as (m & Em).
    { split; apply H; unfold common_bands; simpl; tauto. }
    destruct (proj2 (normalizedDifference_Ok "NIR" "red" px)) as (v & Ev).
    { split; apply H; unfold common_bands; simpl; tauto. }
    assert (Na := AWEIsh_name px a Ea). assert (Nt := wetness_name "TCW" px t Et).
    destruct a as [na va], t as [nt vt]. cbn [fst] in Na, Nt. subst na nt.
    unfold MNDWI, NDVI. rewrite Em. cbn [bind]. rewrite Ea. cbn [bind].
    rewrite Et. cbn [bind]. rewrite Ev. cbn [bind].
    apply select_found_Ok. intros n Hn. unfold addBands.
    rewrite find_band_app. destruct (find_band n px) as [b|]; [now exists b|].
    simpl in Hn.
    destruct Hn as [<-|[<-|[<-|[<-|[]]]]]; eexists; reflexivity.
  - intros out H. exact (waterMapping_names px out H).
Qed.

Lemma waterMapping_needs_six_bands_witness :
  exists out, SWIFT_classify.waterMapping Inputs.sample_px = Ok out.
Proof.
  apply (proj2 (proj1 (waterMapping_needs_six_bands Inputs.sample_px))).
  intros n Hn. simpl in Hn.
  destruct Hn as [<-|[<-|[<-|[<-|[<-|[<-|[]]]]]]]; eexists; reflexivity.
Defined.


(** ** The optical images that enter the classification *)

Lemma zip_const_names (op : Q -> Q -> Q) (px : Px) (c : list Q) (out : Px) :
  zip_const op px c = Ok out -> map fst out = map fst px.
Proof.
  unfold zip_const.
  destruct (Nat.eqb_spec (List.length px) (List.length c)) as [E|_]; [|discriminate].
  intros H. inversion H. clear H H1. revert c E.
  induction px as [|b px IH]; intros [|k c] E; try discriminate E; [reflexivity|].
  simpl. f_equal. apply IH. now inversion E.
Qed.

Lemma harmonize_px_names (px out : Px) :
  harmonize_px px = Ok out -> map fst out = map fst px.
Proof.
  unfold harmonize_px. intros H. apply bind_Ok in H.
  destruct H as (scaled & H1 & H2).
  apply zip_const_names in H1. apply zip_const_names in H2. congruence.
Qed.

(** A pixel of an image of a query collection, when it evaluates, has the
    six bands blue, green, red, NIR, SWIR1, SWIR2, in this order. *)
Lemma query_pixel_names bounds cloud start_date end_date landsat sentinel2
    (im : Image) (p : Pixel) (px : Px) :
  In im (L8_query bounds cloud start_date end_date landsat
         ++ S2_query bounds cloud start_date end_date sentinel2) ->
  pixels im p = Ok px ->
  map fst px = common_bands.
Proof.
  intros H Hpx. apply in_app_iff in H. destruct H as [H|H].
  - unfold L8_query in H. apply in_map_iff in H. destruct H as (x & <- & _).
    cbn [pixels on_pixels] in Hpx. apply bind_Ok in Hpx.
    destruct Hpx as (raw & _ & Hpx). exact (select_as_names _ _ _ _ Hpx).
  - unfold S2_query in H. apply in_map_iff in H. destruct H as (x & <- & H).
    apply in_map_iff in H. destruct H as (y & <- & _).
    cbn [pixels harmonize arithmetic_copying_time on_pixels] in Hpx.
    apply bind_Ok in Hpx. destruct Hpx as (sel & Hsel & Hpx).
    apply bind_Ok in Hsel. destruct Hsel as (raw & _ & Hsel).
    apply harmonize_px_names in Hpx. apply select_as_names in Hsel. congruence.
Qed.

Lemma six_names (px : Px) :
  map fst px = common_bands ->
  exists b g r n s1 s2, px = Inputs.six_bands b g r n s1 s2.
Proof.
  unfold common_bands. intros H.
  destruct px as [|[n1 v1] [|[n2 v2] [|[n3 v3] [|[n4 v4] [|[n5 v5] [|[n6 v6] [|]]]]]]];
    try discriminate H.
  simpl in H. inversion H; subst. now exists v1, v2, v3, v4, v5, v6.
Qed.

(** X6: in SWIFT_classify, a pixel of an optical image that comes out of the
    masks, the selection and the harmonization always gets its four indices:
    the pixel of the image that enters the classification is the
    [waterMapping] of it, with no error, and has exactly the predictor bands
    MNDWI, AWEIsh, TCW, NDVI the classifier was trained on, in this order. *)
Theorem SWIFT_classify_predictor_bands :
  forall AOI start_date end_date landsat sentinel2 optical_training im p px,
    In im (SWIFT_classify.L8S2 AOI start_date end_date landsat sentinel2) ->
    pixels im p = Ok px ->
    exists out,
      pixels (on_pixels SWIFT_classify.waterMapping im) p = Ok out
      /\ In (on_pixels SWIFT_classify.waterMapping im)
            (SWIFT_classify.L8S2_ind AOI start_date end_date landsat sentinel2)
      /\ map fst out
         = inputProperties (SWIFT_classify.optical_classifier optical_training).
Proof.
  intros AOI start_date end_date landsat sentinel2 optical_training im p px Him Hpx.
  assert (Hn := query_pixel_names _ _ _ _ _ _ im p px Him Hpx).
  destruct (six_names px Hn) as (b & g & r & n & s1 & s2 & ->).
  cbn [pixels on_pixels]. rewrite Hpx. cbn [bind].
  destruct (SWIFT_classify.waterMapping (Inputs.six_bands b g r n s1 s2))
    as [out|e] eqn:E.
  - exists out. split; [reflexivity|]. split.
    + unfold SWIFT_classify.L8S2_ind. now apply in_map.
    + exact (waterMapping_names _ _ E).
  - exfalso. destruct b, g, r, n, s1, s2; discriminate E.
Qed.

Lemma SWIFT_classify_predictor_bands_witness :
  exists out,
    pixels (on_pixels SWIFT_classify.waterMapping
              (on_pixels (select_as L8_bands common_bands)
                         (L8QAMask Inputs.landsat_image))) 0%nat = Ok out
    /\ In (on_pixels SWIFT_classify.waterMapping
             (on_pixels (select_as L8_bands common_bands)
                        (L8QAMask Inputs.landsat_image)))
          (SWIFT_classify.L8S2_ind Inputs.one_pixel Inputs.june_start
             Inputs.june_end [Inputs.landsat_image] [])
    /\ map fst out = inputProperties (SWIFT_classify.optical_classifier []).
Proof.
  apply (SWIFT_classify_predictor_bands Inputs.one_pixel Inputs.june_start
           Inputs.june_end [Inputs.landsat_image] [] []
           (on_pixels (select_as L8_bands common_bands) (L8QAMask Inputs.landsat_image))
           0%nat
           (Inputs.six_bands (Some (1000 / 10000)) (Some (2000 / 10000))
              (Some (3000 / 10000)) (Some (4000 / 10000))
              (Some (5000 / 10000)) (Some (6000 / 10000)))).
  - left. reflexivity.
  - reflexivity.
Defined.

(** X7: in constructTimeSeries, too, a pixel of an optical image that comes
    out of the query chain always gets its four indices, with the values
    the [waterMapping] of SWIFT_classify computes; the wetness band is named
    'TWC' here, as in the bands the classifier of this script is trained
    on. *)
Theorem constructTimeSeries_predictor_bands :
  forall start_date end_date water landsat sentinel2 optical_training im p px,
    In im (ConstructTimeSeries.L8S2 start_date end_date water landsat sentinel2) ->
    pixels im p = Ok px ->
    exists MNDWI AWEIsh TWC NDVI,
      pixels (on_pixels ConstructTimeSeries.waterMapping im) p
      = Ok [("MNDWI", MNDWI); ("AWEIsh", AWEIsh); ("TWC", TWC); ("NDVI", NDVI)]
      /\ In (on_pixels ConstructTimeSeries.waterMapping im)
            (ConstructTimeSeries.L8S2_ind start_date end_date water landsat sentinel2)
      /\ inputProperties (ConstructTimeSeries.optical_classifier optical_training)
         = ["MNDWI"; "AWEIsh"; "TWC"; "NDVI"]
      /\ SWIFT_classify.waterMapping px
         = Ok [("MNDWI", MNDWI); ("AWEIsh", AWEIsh); ("TCW", TWC); ("NDVI", NDVI)].
Proof.
  intros start_date end_date water landsat sentinel2 optical_training im p px Him Hpx.
  assert (Hn := query_pixel_names _ _ _ _ _ _ im p px Him Hpx).
  destruct (six_names px Hn) as (b & g & r & n & s1 & s2 & ->).
  cbn [pixels on_pixels]. rewrite Hpx. cbn [bind].
  exists (Expected.normalized_difference g s1),
         (Expected.AWEIsh_value b g n s1 s2),
         (Expected.TCW_value b g r n s1 s2),
         (Expected.normalized_difference n r).
  split; [|split; [|split]].
  - destruct b, g, r, n, s1, s2; reflexivity.
  - unfold ConstructTimeSeries.L8S2_ind. now apply in_map.
  - reflexivity.
  - destruct b, g, r, n, s1, s2; reflexivity.
Qed.

Lemma constructTimeSeries_predictor_bands_witness :
  exists MNDWI AWEIsh TWC NDVI,
    pixels (on_pixels ConstructTimeSeries.waterMapping
              (on_pixels (select_as L8_bands common_bands)
                         (L8QAMask Inputs.landsat_image))) 0%nat
    = Ok [("MNDWI", MNDWI); ("AWEIsh", AWEIsh); ("TWC", TWC); ("NDVI", NDVI)]
    /\ MNDWI <> None /\ AWEIsh <> None /\ TWC <> None /\ NDVI <> None.
Proof.
  destruct (constructTimeSeries_predictor_bands Inputs.june_start Inputs.june_end
              Inputs.one_pixel [Inputs.landsat_image] [] []
              (on_pixels (select_as L8_bands common_bands)
                         (L8QAMask Inputs.landsat_image))
              0%nat
              (Inputs.six_bands (Some (1000 / 10000)) (Some (2000 / 10000))
                 (Some (3000 / 10000)) (Some (4000 / 10000))
                 (Some (5000 / 10000)) (Some (6000 / 10000)))
              (or_introl eq_refl) eq_refl)
    as (m & a & t & v & H & _ & _ & _).
  exists m, a, t, v. split; [exact H|].
  cbn [pixels on_pixels] in H. vm_compute in H.
  injection H as <- <- <- <-. repeat split; discriminate.
Defined.


(** ** Masks on the mosaics and on the radar classification *)

(** X8: in constructTimeSeries a pixel of a masked mosaic has a value
    exactly when the pixel of the mosaic has that value, the value is below
    1, and the drainage height of the pixel is known and below 10 m; the
    masks change no value and no property of the mosaic. *)
Theorem water_masked_pixels :
  forall (HAND : Raster Q) (m : Mosaic),
    (forall p v,
        composite (ConstructTimeSeries.mask_HAND HAND (maskNonWater m)) p = Some v
        <-> composite m p = Some v /\ v < 1
            /\ exists h, HAND p = Some h /\ h < 10)
    /\ system_time_start (ConstructTimeSeries.mask_HAND HAND (maskNonWater m))
       = system_time_start m
    /\ dateYMD (ConstructTimeSeries.mask_HAND HAND (maskNonWater m)) = dateYMD m
    /\ numbImages (ConstructTimeSeries.mask_HAND HAND (maskNonWater m))
       = numbImages m.
Proof.
  intros HAND m. split; [|repeat split].
  intros p v. unfold ConstructTimeSeries.mask_HAND. cbn [composite with_composite].
  rewrite updateMask_Some. rewrite (maskNonWater_keeps m p v).
  unfold HANDmask, lt. split.
  - intros [[Hv Hlt] Hh]. split; [exact Hv|]. split; [exact Hlt|].
    destruct (HAND p) as [h|]; [|discriminate]. exists h. split; [reflexivity|].
    cbn [option_map] in Hh. inversion Hh. now apply Qltb_lt.
  - intros (Hv & Hlt & h & Hh & Hh10). split; [split; assumption|].
    rewrite Hh. cbn [option_map]. f_equal. now apply Qltb_lt.
Qed.

(** X9: in both scripts a pixel of a smoothed and wind-masked radar
    classification has a value exactly when the convolution has a value
    there, the wind speed is known and below 12 km/h; the value is 1 when
    the convolution is above 0.97 and 0 otherwise. *)
Theorem radar_pixel_after_smoothing_and_wind :
  forall start_date end_date catalog convolve (im : Classified) p v,
    (classification
       (SWIFT_classify.windMask start_date end_date catalog
          (SWIFT_classify.smooth convolve im)) p = Some v
     <-> exists c w,
           convolve (classification im) boxcar p = Some c
           /\ v = (if Qltb 0.97 c then 1 else 0)
           /\ Wind.windy start_date end_date catalog p = Some w
           /\ (w < 12.0)%R)
    /\ ConstructTimeSeries.windMask start_date end_date catalog
         (ConstructTimeSeries.smooth convolve im)
       = SWIFT_classify.windMask start_date end_date catalog
           (SWIFT_classify.smooth convolve im).
Proof.
  intros start_date end_date catalog convolve im p v. split; [|reflexivity].
  unfold SWIFT_classify.windMask. rewrite windMask_pixel.
  unfold SWIFT_classify.smooth. cbn [classification]. unfold to_number, gt.
  destruct (convolve (classification im) boxcar p) as [c|]; cbn [option_map].
  - destruct (Wind.windy start_date end_date catalog p) as [w|].
    + destruct (Rlt_dec w 12.0) as [Hw|Hw]; split.
      * intros H. inversion H. exists c, w. repeat split; try reflexivity. exact Hw.
      * intros (c' & w' & Hc & -> & Hw' & _). inversion Hc. reflexivity.
      * discriminate.
      * intros (c' & w' & _ & _ & Hw' & Hlt). inversion Hw'; subst. contradiction.
    + split; [discriminate|]. intros (c' & w' & _ & _ & Hw' & _). discriminate.
  - split; [discriminate|]. intros (c' & w' & Hc & _). discriminate.
Qed.

(** ** The number of images of a mosaic *)

Lemma filter_length_le {A : Type} (f : A -> bool) (l : list A) :
  (List.length (filter f l) <= List.length l)%nat.
Proof.
  induction l as [|a l IH]; simpl; [lia|]. destruct (f a); simpl; lia.
Qed.

Lemma L8_query_length bounds cloud start_date end_date catalog :
  (List.length (L8_query bounds cloud start_date end_date catalog)
   <= List.length catalog)%nat.
Proof.
  unfold L8_query, filterDate, filterBounds. rewrite !length_map.
  repeat (etransitivity; [apply filter_length_le|]). lia.
Qed.

Lemma S2_query_length bounds cloud start_date end_date catalog :
  (List.length (S2_query bounds cloud start_date end_date catalog)
   <= List.length catalog)%nat.
Proof.
  unfold S2_query, filterDate, filterBounds. rewrite !length_map.
  repeat (etransitivity; [apply filter_length_le|]). lia.
Qed.

(** X10: in SWIFT_classify the property 'numbImages' of every weekly mosaic
    is the number of optical images that passed the filters plus the number
    of all preprocessed radar images, whatever the date of the mosaic and
    whatever the wind mask left of the radar images; it is at most the size
    of the three catalogs. *)
Theorem numbImages_counts_the_whole_collection :
  forall AOI start_date end_date landsat sentinel2 radar catalog
         optical_training S1_training classify convolve m,
    In m (SWIFT_classify.weeklyMosaics AOI start_date end_date landsat sentinel2
            radar catalog optical_training S1_training classify convolve) ->
    numbImages m
    = (List.length (SWIFT_classify.L8 AOI start_date end_date landsat)
       + List.length (SWIFT_classify.S2 AOI start_date end_date sentinel2)
       + List.length radar)%nat
    /\ (numbImages m
        <= List.length landsat + List.length sentinel2 + List.length radar)%nat.
Proof.
  intros AOI start_date end_date landsat sentinel2 radar catalog
         optical_training S1_training classify convolve m H.
  unfold SWIFT_classify.weeklyMosaics in H. apply in_map_iff in H.
  destruct H as (d & <- & _). cbv zeta. cbn [numbImages mosaicByDate].
  unfold SWIFT_classify.collection, SWIFT_classify.L8S2_classified,
    SWIFT_classify.S1_classified, SWIFT_classify.S1_cf, SWIFT_classify.L8S2_ind,
    SWIFT_classify.L8S2.
  rewrite length_map, length_app, !length_map, length_app.
  split; [reflexivity|].
  assert (H1 := L8_query_length AOI 50 start_date end_date landsat).
  assert (H2 := S2_query_length AOI 50 start_date end_date sentinel2).
  unfold SWIFT_classify.L8, SWIFT_classify.S2. lia.
Qed.

Lemma numbImages_counts_the_whole_collection_witness :
  numbImages
    (mosaicByDate
       (SWIFT_classify.collection Inputs.one_pixel Inputs.june_start Inputs.june_end
          [Inputs.landsat_image] [] [Inputs.radar_image] [Inputs.breezy] [] []
          Inputs.classify_water Inputs.no_smoothing)
       Inputs.june_start)
  = (List.length (SWIFT_classify.L8 Inputs.one_pixel Inputs.june_start
                    Inputs.june_end [Inputs.landsat_image])
     + List.length (SWIFT_classify.S2 Inputs.one_pixel Inputs.june_start
                      Inputs.june_end [])
     + List.length [Inputs.radar_image])%nat.
Proof.
  apply (numbImages_counts_the_whole_collection Inputs.one_pixel Inputs.june_start
           Inputs.june_end [Inputs.landsat_image] [] [Inputs.radar_image]
           [Inputs.breezy] [] [] Inputs.classify_water Inputs.no_smoothing).
  unfold SWIFT_classify.weeklyMosaics.
  apply (in_map (fun dateMillis => mosaicByDate _ dateMillis)).
  vm_compute. left. reflexivity.
Defined.

(** ** The dates of the mosaics *)

Lemma week_is_604800000 (t : Z) : (advance_week 1 t - t = 604800000)%Z.
Proof. unfold advance_week, ms_per_day. lia. Qed.

(** X11: in SWIFT_classify a date range of [n] whole weeks and less than a
    week more gives [n + 1] mosaic dates, the start date and every week
    after it up to the end date included; an end date before the start date
    gives none; and the mosaics carry these dates, in this order. *)
Theorem weekly_mosaic_dates :
  (forall (start_date : Z) (n : nat) (more : Z),
      (0 <= more < 604800000)%Z ->
      SWIFT_classify.listMap start_date
        (advance_week (Z.of_nat n) start_date + more)
      = map (fun i => advance_week (Z.of_nat i) start_date) (seq 0 (S n)))
  /\ (forall start_date end_date : Z,
      (end_date < start_date)%Z ->
      SWIFT_classify.listMap start_date end_date = [])
  /\ (forall AOI start_date end_date landsat sentinel2 radar catalog
             optical_training S1_training classify convolve,
      map system_time_start
          (SWIFT_classify.weeklyMosaics AOI start_date end_date landsat sentinel2
             radar catalog optical_training S1_training classify convolve)
      = SWIFT_classify.listMap start_date end_date).
Proof.
  split; [|split].
  - intros start_date n more Hmore.
    unfold SWIFT_classify.listMap, SWIFT_classify.weekDifference, sequence.
    rewrite week_is_604800000.
    assert (E : (advance_week (Z.of_nat n) start_date + more - start_date
                 = Z.of_nat n * 604800000 + more)%Z)
      by (unfold advance_week, ms_per_day; lia).
    rewrite E, Z.div_add_l, (Z.div_small more) by lia.
    replace (start_date <=? advance_week (Z.of_nat n) start_date + more)%Z with true
      by (symmetry; apply Z.leb_le; unfold advance_week, ms_per_day; lia).
    cbn [andb Z.ltb Z.compare]. rewrite Z.add_0_r, Nat2Z.id.
    apply map_ext. intros i. unfold advance_week, ms_per_day. lia.
  - intros start_date end_date H.
    unfold SWIFT_classify.listMap, sequence.
    replace (start_date <=? end_date)%Z with false
      by (symmetry; apply Z.leb_gt; exact H).
    rewrite andb_false_r. reflexivity.
  - intros. unfold SWIFT_classify.weeklyMosaics. rewrite map_map.
    cbv zeta. cbn [system_time_start mosaicByDate]. apply map_id.
Qed.

Lemma weekly_mosaic_dates_witness :
  SWIFT_classify.listMap Inputs.june_start
    (advance_week (Z.of_nat 2) Inputs.june_start + 0)
  = map (fun i => advance_week (Z.of_nat i) Inputs.june_start) (seq 0 3)
  /\ SWIFT_classify.listMap Inputs.june_end Inputs.june_start = [].
Proof.
  split.
  - apply (proj1 weekly_mosaic_dates Inputs.june_start 2%nat 0%Z). lia.
  - apply (proj1 (proj2 weekly_mosaic_dates)). vm_compute. reflexivity.
Defined.


(** ** The call of [classifyWater] by the script SWIFT *)

Lemma click_listMap (dateSelected : Z) :
  SWIFT_classify.listMap (advance_day (-5) dateSelected) dateSelected
  = [advance_day (-5) dateSelected].
Proof.
  unfold SWIFT_classify.listMap, SWIFT_classify.weekDifference, sequence.
  rewrite week_is_604800000.
  replace (advance_day (-5) dateSelected <=? dateSelected)%Z with true
    by (symmetry; apply Z.leb_le; unfold advance_day, ms_per_day; lia).
  replace ((dateSelected - advance_day (-5) dateSelected) / 604800000)%Z with 0%Z
    by (symmetry; apply Z.div_small; unfold advance_day, ms_per_day; lia).
  cbn [andb Z.ltb Z.compare Z.to_nat seq map Z.of_nat]. f_equal. lia.
Qed.

Section Click.
Variables LANDSAT_LC08_C02_T1_L2 COPERNICUS_S2_SR_HARMONIZED : ImageCollection.
Variable S1_preprocess : ImageCollection.
Variable NOAA_CFSV2_FOR6H : list Wind.Forecast.
Variable pixelArea : Pixel -> Q.
Variables optical_training S1_training : list Sample.
Variable classify : Classifier -> Image -> Classified.
Variable convolve : Raster Q -> Kernel -> Raster Q.

Local Abbreviation labels :=
  (SWIFT.labels LANDSAT_LC08_C02_T1_L2 COPERNICUS_S2_SR_HARMONIZED S1_preprocess
     NOAA_CFSV2_FOR6H pixelArea optical_training S1_training classify convolve).
Local Abbreviation classifyWater AOI start_date end_date :=
  (SWIFT.classifyWater AOI start_date end_date
    LANDSAT_LC08_C02_T1_L2 COPERNICUS_S2_SR_HARMONIZED S1_preprocess
    NOAA_CFSV2_FOR6H pixelArea optical_training S1_training classify convolve).
Local Abbreviation collection AOI start_date end_date :=
  (SWIFT_classify.collection AOI start_date end_date
    LANDSAT_LC08_C02_T1_L2 COPERNICUS_S2_SR_HARMONIZED S1_preprocess
    NOAA_CFSV2_FOR6H optical_training S1_training classify convolve).
Local Abbreviation L8S2 AOI start_date end_date :=
  (SWIFT_classify.L8S2 AOI start_date end_date
    LANDSAT_LC08_C02_T1_L2 COPERNICUS_S2_SR_HARMONIZED).

(** What [classifyWater] returns for a date range that gives one mosaic. *)
Lemma classifyWater_one_mosaic (AOI : list Pixel) (start_date end_date : Z) :
  SWIFT_classify.listMap start_date end_date = [start_date] ->
  classifyWater AOI start_date end_date
  = match SWIFT_classify.calculateWaterArea_AOI AOI pixelArea
            (maskNonWater
               (mosaicByDate (collection AOI start_date end_date) start_date)) with
    | Err e => SWIFT.Failed (SWIFT.Platform e)
    | Ok first_area =>
        match hd_error (L8S2 AOI start_date end_date) with
        | None => SWIFT.Failed (SWIFT.NullObject "L8S2.first()")
        | Some first_optical =>
            SWIFT.Done
              {| SWIFT.classified := first_area;
                 SWIFT.true_color :=
                   on_pixels (select ["blue"; "green"; "red"]) first_optical |}
        end
    end.
Proof.
  intros H. unfold SWIFT.classifyWater, SWIFT_classify.waterArea_AOI,
    SWIFT_classify.water_collection, SWIFT_classify.weeklyMosaics.
  rewrite H. cbn [map mapM]. cbv zeta.
  destruct (SWIFT_classify.calculateWaterArea_AOI AOI pixelArea _) as [r|e];
    reflexivity.
Qed.

Lemma click_cases :
  forall (AOI : list Pixel) (dateSelected : Z),
    let start_date := advance_day (-5) dateSelected in
    match labels AOI dateSelected with
    | SWIFT.Done (ymd, a) =>
        ymd = format_YMD start_date
        /\ L8S2 AOI start_date dateSelected <> []
        /\ reduceRegion_sum
             (multiply
                (composite
                   (maskNonWater
                      (mosaicByDate (collection AOI start_date dateSelected)
                                    start_date)))
                (pixelArea_raster pixelArea)) AOI 10000000000000 = Ok a
    | SWIFT.Failed f =>
        (f = SWIFT.Platform TooManyPixels
         /\ (10000000000000 < Z.of_nat (List.length AOI))%Z)
        \/ (f = SWIFT.NullObject "L8S2.first()"
            /\ L8S2 AOI start_date dateSelected = [])
    end.
Proof.
  intros AOI dateSelected start_date. subst start_date.
  unfold SWIFT.labels, SWIFT.results.
  rewrite (classifyWater_one_mosaic AOI (advance_day (-5) dateSelected) dateSelected
             (click_listMap dateSelected)).
  unfold SWIFT_classify.calculateWaterArea_AOI. cbv zeta.
  destruct (reduceRegion_sum_cases
              (multiply
                 (composite
                    (maskNonWater
                       (mosaicByDate
                          (collection AOI (advance_day (-5) dateSelected) dateSelected)
                          (advance_day (-5) dateSelected))))
                 (pixelArea_raster pixelArea)) AOI 10000000000000)
    as [[H Hbig]|[H _]]; rewrite H; cbn [bind].
  - left. split; [reflexivity|exact Hbig].
  - destruct (L8S2 AOI (advance_day (-5) dateSelected) dateSelected) as [|o os] eqn:E;
      cbn [hd_error].
    + right. split; reflexivity.
    + cbn [SWIFT.classified image dateYMD Compositor.area maskNonWater
             with_composite mosaicByDate].
      split; [reflexivity|]. split; [discriminate|reflexivity].
Qed.

(** X12: when the button is clicked, [classifyWater] is run on the five days
    before the selected date and makes one mosaic.  When it succeeds, the
    date put on the label is the day five days before the selected date
    (the start of the range, not the date of an image), the area is the sum
    over the area of interest of the masked mosaic times the pixel area, and
    some optical image passed the filters.  It fails only when the area of
    interest has more than 1e13 pixels or when no optical image passed the
    filters. *)
Theorem click_outcome :
  forall (AOI : list Pixel) (dateSelected : Z),
    let start_date := advance_day (-5) dateSelected in
    match labels AOI dateSelected with
    | SWIFT.Done (ymd, a) =>
        ymd = format_YMD start_date
        /\ L8S2 AOI start_date dateSelected <> []
        /\ reduceRegion_sum
             (multiply
                (composite
                   (maskNonWater
                      (mosaicByDate (collection AOI start_date dateSelected)
                                    start_date)))
                (pixelArea_raster pixelArea)) AOI 10000000000000 = Ok a
    | SWIFT.Failed f =>
        (f = SWIFT.Platform TooManyPixels
         /\ (10000000000000 < Z.of_nat (List.length AOI))%Z)
        \/ (f = SWIFT.NullObject "L8S2.first()"
            /\ L8S2 AOI start_date dateSelected = [])
    end.
Proof. exact click_cases. Qed.

(** X13: [classifyWater] returns no image for a date range that has no
    day in a month from March to November: Landsat 8 and Sentinel-2 images
    of December, January and February are filtered out, and the true color
    bands are taken from the first optical image. *)
Theorem classifyWater_fails_in_winter :
  forall (AOI : list Pixel) (start_date end_date : Z),
    (forall t, (start_date <= t < end_date)%Z -> ~ (3 <= month_of t <= 11)%Z) ->
    exists f, classifyWater AOI start_date end_date = SWIFT.Failed f.
Proof.
  intros AOI start_date end_date Hwinter.
  assert (E : L8S2 AOI start_date end_date = []).
  { destruct (L8S2 AOI start_date end_date) as [|im l] eqn:E; [reflexivity|].
    exfalso.
    assert (Him : In im (L8S2 AOI start_date end_date)) by (rewrite E; now left).
    unfold SWIFT_classify.L8S2 in Him. apply in_app_iff in Him.
    assert (S : acquired_in_season start_date end_date im).
    { destruct Him as [Him|Him];
        [exact (L8_query_in_season _ _ _ _ _ _ Him)
        |exact (S2_query_in_season _ _ _ _ _ _ Him)]. }
    destruct S as (t & _ & Hrange & Hmonth & _).
    exact (Hwinter t Hrange Hmonth). }
  unfold SWIFT.classifyWater. rewrite E.
  destruct (SWIFT_classify.waterArea_AOI _ _ _ _ _ _ _ _ _ _ _ _) as [l|e];
    [|eexists; reflexivity].
  destruct (hd_error l); eexists; reflexivity.
Qed.

Hypothesis labels_are_binary : classifier_labels classify.

Lemma SWIFT_collection_binary AOI start_date end_date (im : Classified) :
  In im (collection AOI start_date end_date) ->
  binary_labels (classification im).
Proof.
  unfold SWIFT_classify.collection. intros H. apply in_map_iff in H.
  destruct H as (x & <- & H). cbn [classification].
  assert (Hx : binary_labels (classification x)).
  { apply in_app_iff in H. destruct H as [H|H].
    - unfold SWIFT_classify.L8S2_classified in H. apply in_map_iff in H.
      destruct H as (y & <- & _). apply labels_are_binary.
    - unfold SWIFT_classify.S1_classified in H. apply in_map_iff in H.
      destruct H as (y & <- & H). apply in_map_iff in H.
      destruct H as (z & <- & _). unfold SWIFT_classify.windMask, Wind.windMask.
      cbn [classification SWIFT_classify.smooth].
      apply binary_updateMask, binary_to_number. }
  intros p v. unfold clip. destruct (inside AOI p); [apply Hx|discriminate].
Qed.

(** X14: when the classifier gives the labels 0 and 1, the area the script
    SWIFT puts on its label is 0, whatever the imagery of the five days:
    [maskNonWater] has removed the pixels with label 1 before the sum. *)
Theorem click_area_is_zero :
  forall (AOI : list Pixel) (dateSelected : Z) ymd a,
    labels AOI dateSelected = SWIFT.Done (ymd, a) -> a == 0.
Proof.
  intros AOI dateSelected ymd a H.
  assert (O := click_cases AOI dateSelected). cbv zeta in O.
  rewrite H in O. destruct O as (_ & _ & O).
  unfold reduceRegion_sum in O.
  destruct (10000000000000 <? Z.of_nat (List.length AOI))%Z; [discriminate|].
  injection O as <-.
  apply (masked_water_area_is_zero
           (mosaicByDate (collection AOI (advance_day (-5) dateSelected) dateSelected)
                         (advance_day (-5) dateSelected))
           (pixelArea_raster pixelArea) AOI).
  unfold mosaicByDate. cbn [composite]. apply binary_median.
  intros im. apply SWIFT_collection_binary.
Qed.

End Click.


Lemma classifyWater_fails_in_winter_witness :
  (forall t, (Date 2021 1 10 <= t < Date 2021 1 15)%Z -> ~ (3 <= month_of t <= 11)%Z)
  /\ exists f,
       SWIFT.classifyWater Inputs.one_pixel (Date 2021 1 10) (Date 2021 1 15)
         [Inputs.landsat_january] [] [Inputs.radar_image] [] Inputs.area_900 [] []
         Inputs.classify_water Inputs.no_smoothing = SWIFT.Failed f.
Proof.
  assert (W : forall t, (Date 2021 1 10 <= t < Date 2021 1 15)%Z ->
                        ~ (3 <= month_of t <= 11)%Z).
  { intros t Ht. change (Date 2021 1 10) with (86400000 * 18637)%Z in Ht.
    change (Date 2021 1 15) with (86400000 * 18642)%Z in Ht.
    unfold month_of, format_YMD, ms_per_day.
    assert (L : (18637 <= t / 86400000)%Z)
      by (apply Z.div_le_lower_bound; lia).
    assert (U : (t / 86400000 < 18642)%Z)
      by (apply Z.div_lt_upper_bound; lia).
    assert (C : (t / 86400000 = 18637 \/ t / 86400000 = 18638
                 \/ t / 86400000 = 18639 \/ t / 86400000 = 18640
                 \/ t / 86400000 = 18641)%Z) by lia.
    destruct C as [->|[->|[->|[->| ->]]]]; vm_compute; intros [H _]; apply H;
      reflexivity. }
  split; [exact W|].
  exact (classifyWater_fails_in_winter [Inputs.landsat_january] []
           [Inputs.radar_image] [] Inputs.area_900 [] [] Inputs.classify_water
           Inputs.no_smoothing Inputs.one_pixel (Date 2021 1 10) (Date 2021 1 15) W).
Defined.

Lemma click_area_is_zero_witness :
  classifier_labels Inputs.classify_water
  /\ SWIFT.labels [Inputs.landsat_image] [] [] [] Inputs.area_900 [] []
       Inputs.classify_water Inputs.no_smoothing Inputs.one_pixel (Date 2021 6 5)
     = SWIFT.Done ((2021, 5, 31)%Z, 0 + 0)
  /\ 0 + 0 == 0.
Proof.
  assert (H1 : classifier_labels Inputs.classify_water).
  { intros c im p v H. inversion H. right. reflexivity. }
  assert (H2 : SWIFT.labels [Inputs.landsat_image] [] [] [] Inputs.area_900 [] []
                 Inputs.classify_water Inputs.no_smoothing Inputs.one_pixel
                 (Date 2021 6 5)
               = SWIFT.Done ((2021, 5, 31)%Z, 0 + 0)) by (vm_compute; reflexivity).
  split; [exact H1|]. split; [exact H2|].
  exact (click_area_is_zero [Inputs.landsat_image] [] [] [] Inputs.area_900 [] []
           Inputs.classify_water Inputs.no_smoothing H1 Inputs.one_pixel
           (Date 2021 6 5) (2021, 5, 31)%Z (0 + 0) H2).
Defined.

(** ** The radar accuracy assessment *)

Lemma filter_split_length {A : Type} (f g : A -> bool) (l : list A) :
  (forall a, g a = negb (f a)) ->
  (List.length (filter f l) + List.length (filter g l) = List.length l)%nat.
Proof.
  intros H. induction l as [|a l IH]; simpl; [reflexivity|].
  rewrite H. destruct (f a); simpl; lia.
Qed.

(** X15: the wind mask of the accuracy script reads the band 'windy' of the
    image it is given.  On a pixel without this band, as every pixel of a
    preprocessed radar image with its bands VV, VH and angle, it is an
    error; on a pixel with the band it keeps all bands where 'windy' is
    below 12 and masks them where it is not, or is masked itself. *)
Theorem accuracy_windMask_px_cases :
  (forall px : Px,
      match find_band "windy" px with
      | None =>
          S1_classificationAccuracyAssessment.windMask_px px
          = Err (BandNotFound "windy")
      | Some windy =>
          S1_classificationAccuracyAssessment.windMask_px px
          = Ok (map (fun b : Band =>
                       (fst b,
                        match snd windy with
                        | Some w => if Qltb w 12.0 then snd b else None
                        | None => None
                        end)) px)
      end)
  /\ (forall VV VH angle : option Q,
      S1_classificationAccuracyAssessment.windMask_px
        [("VV", VV); ("VH", VH); ("angle", angle)]
      = Err (BandNotFound "windy")).
Proof.
  split; [|reflexivity].
  intros px. unfold S1_classificationAccuracyAssessment.windMask_px, select1.
  destruct (find_band "windy" px) as [windy|]; [|reflexivity].
  cbn [bind]. cbv zeta. f_equal. unfold updateMask_px. apply map_ext.
  intros [n v]. cbn [fst snd].
  destruct (snd windy) as [w|]; [destruct (Qltb w 12.0)|]; destruct v; reflexivity.
Qed.

Section AccuracyRun.
Import S1_classificationAccuracyAssessment.

Variable LabeledPoint : Type.
Variable points : list LabeledPoint.
Variable NOAA_CFSV2_FOR6H : list Wind.Forecast.
Variable HAND : Raster Q.
Variable geometry : list Pixel.
Variable ee_mosaic : ImageCollection -> Image.
Variable sampleRegions : Image -> list LabeledPoint -> Z -> list Sample.
Variable randomColumn : list Sample -> list Sample.
Variable classify : Classifier -> Image -> Raster Q.
Variable classify_samples : Classifier -> list Sample -> list (Sample * Q).
Variable convolve : Raster Q -> Kernel -> Raster Q.
Variable ConfusionMatrix : Type.
Variable errorMatrix : list (Sample * Q) -> ConfusionMatrix.
Variables accuracy kappa : ConfusionMatrix -> Q.

Local Abbreviation final preprocessed :=
  (run ConfusionMatrix
     (script LabeledPoint points NOAA_CFSV2_FOR6H HAND geometry ee_mosaic
        sampleRegions randomColumn classify classify_samples convolve
        ConfusionMatrix errorMatrix accuracy kappa)
     (initial ConfusionMatrix preprocessed)).

(** X16: at the end of the accuracy script every sampled point is either a
    training sample, with its random number below 0.8, or a testing sample,
    with its random number at least 0.8, never both; the classifier has 500
    trees and is trained on the training samples only, and the error matrix
    is computed from the classification of the testing samples only. *)
Theorem accuracy_split_is_a_partition :
  forall preprocessed : ImageCollection,
    let st := final preprocessed in
    observedPoints _ st
    = randomColumn (sampleRegions (ee_mosaic preprocessed) points 10)
    /\ (forall s, In s (observedPoints _ st)
                  <-> In s (training _ st) \/ In s (testing _ st))
    /\ (forall s, In s (training _ st) -> random s < 0.8)
    /\ (forall s, In s (testing _ st) -> 0.8 <= random s)
    /\ (forall s, ~ (In s (training _ st) /\ In s (testing _ st)))
    /\ (List.length (training _ st) + List.length (testing _ st)
        = List.length (observedPoints _ st))%nat
    /\ (exists c, classifier _ st = Some c
                  /\ numberOfTrees c = 500%Z
                  /\ features c = training _ st
                  /\ inputProperties c = ["VV"; "VH"; "angle"]
                  /\ matrices _ st
                     = [errorMatrix (classify_samples c (testing _ st))]).
Proof.
  intros preprocessed st.
  set (observed := randomColumn (sampleRegions (ee_mosaic preprocessed) points 10)).
  assert (Eo : observedPoints _ st = observed) by reflexivity.
  assert (Et : training _ st = filter (fun s => Qltb (random s) 0.8) observed)
    by reflexivity.
  assert (Es : testing _ st = filter (fun s => Qle_bool 0.8 (random s)) observed)
    by reflexivity.
  rewrite Eo, Et, Es.
  assert (Ht : forall s, In s (filter (fun s => Qltb (random s) 0.8) observed) ->
                         random s < 0.8).
  { intros s H. apply filter_In in H. now apply Qltb_lt. }
  assert (Hs : forall s, In s (filter (fun s => Qle_bool 0.8 (random s)) observed) ->
                         0.8 <= random s).
  { intros s H. apply filter_In in H. now apply Qle_bool_iff. }
  split; [reflexivity|]. split; [|split; [exact Ht|split; [exact Hs|split; [|split]]]].
  - intros s. rewrite !filter_In. unfold Qltb.
    destruct (Qle_bool 0.8 (random s)); simpl; intuition discriminate.
  - intros s [H1 H2]. apply Ht in H1. apply Hs in H2.
    exact (Qlt_not_le _ _ H1 H2).
  - apply filter_split_length. intros s. unfold Qltb.
    now rewrite negb_involutive.
  - eexists. split; [reflexivity|]. repeat split.
Qed.

(** X17: the classified image the accuracy script exports has a value only
    at the pixels of the export polygon whose drainage height is known and
    below 10 m, and there the value is 1 where the convolution of the
    classification of the mosaic is above 0.97 and 0 elsewhere; the
    preprocessed image it exports is the mosaic of the unmasked collection,
    reduced to the bands VV and VH. *)
Theorem accuracy_exports :
  forall preprocessed : ImageCollection,
    exists (r : Raster Q) (c : Classifier),
      exports _ (final preprocessed) = [("S1_classified", r)]
      /\ classifier _ (final preprocessed) = Some c
      /\ (forall p v,
            r p = Some v
            <-> inside geometry p = true
                /\ (exists h, HAND p = Some h /\ h < 10)
                /\ exists s,
                     convolve
                       (classify c (on_pixels (select ["VV"; "VH"; "angle"])
                                              (ee_mosaic preprocessed)))
                       boxcar p = Some s
                     /\ v = (if Qltb 0.97 s then 1 else 0))
      /\ exported_images _ (final preprocessed)
         = [("S1_preprocessed",
             clip_image (on_pixels (select ["VV"; "VH"]) (ee_mosaic preprocessed))
                        geometry)].
Proof.
  intros preprocessed. eexists. eexists.
  split; [reflexivity|]. split; [reflexivity|]. split; [|reflexivity].
  intros p v. unfold clip.
  destruct (inside geometry p).
  - rewrite updateMask_Some. unfold HANDmask, lt, to_number, gt.
    match goal with
    | |- context [convolve ?x boxcar p] =>
        destruct (convolve x boxcar p) as [s|] eqn:Es
    end; cbn [option_map].
    + destruct (HAND p) as [h|]; cbn [option_map].
      * split.
        -- intros [Hv Hh]. split; [reflexivity|]. split.
           ++ exists h. split; [reflexivity|]. inversion Hh. now apply Qltb_lt.
           ++ exists s. split; [exact Es|]. now inversion Hv.
        -- intros (_ & (h' & Hh' & Hlt) & s' & Hs' & ->).
           inversion Hh'; subst h'.
           assert (E : Some s = Some s') by (rewrite <- Es; exact Hs').
           inversion E; subst s'.
           split; [reflexivity|]. f_equal. now apply Qltb_lt.
      * split; [intros [_ H]; discriminate|].
        intros (_ & (h' & Hh' & _) & _). discriminate.
    + split; [intros [H _]; discriminate|].
      intros (_ & _ & s' & Hs' & _).
      assert (E : None = Some s') by (rewrite <- Es; exact Hs').
      discriminate.
  - split; [discriminate|]. intros (H & _). discriminate.
Qed.

End AccuracyRun.


(** ** The series of the grazing allotments *)

Section AllotmentSeries.
Variables start_date end_date : Z.
Variable water : list Pixel.
Variable allotments : list ConstructTimeSeries.Feature.
Variables LANDSAT_LC08_C02_T1_L2 COPERNICUS_S2 : ImageCollection.
Variable S1_preprocess : ImageCollection.
Variable NOAA_CFSV2_FOR6H : list Wind.Forecast.
Variable HAND : Raster Q.
Variable pixelArea : Pixel -> Q.
Variables optical_training S1_training : list Sample.
Variable classify : Classifier -> Image -> Classified.
Variable convolve : Raster Q -> Kernel -> Raster Q.

Local Abbreviation periods := (ConstructTimeSeries.listMap start_date end_date).
Local Abbreviation water_masked :=
  (ConstructTimeSeries.water_masked start_date end_date water
     LANDSAT_LC08_C02_T1_L2 COPERNICUS_S2 S1_preprocess NOAA_CFSV2_FOR6H HAND
     optical_training S1_training classify convolve).
Local Abbreviation calculateWaterArea_allotments :=
  (ConstructTimeSeries.calculateWaterArea_allotments start_date end_date water
     LANDSAT_LC08_C02_T1_L2 COPERNICUS_S2 S1_preprocess NOAA_CFSV2_FOR6H HAND
     pixelArea optical_training S1_training classify convolve).
Local Abbreviation waterArea_allotments :=
  (ConstructTimeSeries.waterArea_allotments start_date end_date water allotments
     LANDSAT_LC08_C02_T1_L2 COPERNICUS_S2 S1_preprocess NOAA_CFSV2_FOR6H HAND
     pixelArea optical_training S1_training classify convolve).

Lemma water_masked_dates :
  map system_time_start water_masked = periods.
Proof.
  unfold ConstructTimeSeries.water_masked, ConstructTimeSeries.water_collection,
    ConstructTimeSeries.mosaics.
  rewrite !map_map. cbn [system_time_start ConstructTimeSeries.mask_HAND
    with_composite maskNonWater mosaicByDate]. apply map_id.
Qed.

Lemma water_masked_empty : water_masked = [] <-> periods = [].
Proof.
  rewrite <- water_masked_dates. destruct water_masked; cbn [map]; split; congruence.
Qed.

Lemma allotment_series_cases (feature : ConstructTimeSeries.Feature) :
  match calculateWaterArea_allotments feature with
  | Ok s =>
      ((Z.of_nat (List.length (ConstructTimeSeries.geometry feature))
        <= 10000000000)%Z \/ periods = [])
      /\ ConstructTimeSeries.feature s = feature
      /\ ConstructTimeSeries.date_array s = map format_YMD periods
      /\ List.length (ConstructTimeSeries.area_array s) = List.length periods
  | Err e =>
      e = TooManyPixels
      /\ (10000000000
          < Z.of_nat (List.length (ConstructTimeSeries.geometry feature)))%Z
      /\ periods <> []
  end.
Proof.
  unfold ConstructTimeSeries.calculateWaterArea_allotments.
  set (waterArea := fun im : Mosaic =>
         multiply (composite im) (divide_const (pixelArea_raster pixelArea) 1e6)).
  destruct (Z.ltb_spec 10000000000
              (Z.of_nat (List.length (ConstructTimeSeries.geometry feature))))
    as [Hbig|Hfit].
  - destruct water_masked as [|m ms] eqn:Em.
    + cbn [mapM bind map ConstructTimeSeries.feature
           ConstructTimeSeries.date_array ConstructTimeSeries.area_array].
      assert (Hp : periods = []) by (apply water_masked_empty; exact Em).
      rewrite Hp. repeat split. right. reflexivity.
    + rewrite (mapM_fails (ConstructTimeSeries.area_of_image pixelArea feature)
                 TooManyPixels (m :: ms)).
      * cbn [bind]. repeat split; [exact Hbig|].
        intros Hp. apply water_masked_empty in Hp. congruence.
      * discriminate.
      * intros im _. unfold ConstructTimeSeries.area_of_image, reduceRegion_sum.
        cbv zeta. apply Z.ltb_lt in Hbig. rewrite Hbig. reflexivity.
  - rewrite (mapM_pointwise (ConstructTimeSeries.area_of_image pixelArea feature)
               (fun im =>
                  (fold_right (fun p acc => match waterArea im p with
                                            | Some v => v + acc
                                            | None => acc
                                            end) 0
                     (ConstructTimeSeries.geometry feature),
                   format_YMD (system_time_start im)))).
    + cbn [bind ConstructTimeSeries.feature ConstructTimeSeries.date_array
           ConstructTimeSeries.area_array].
      rewrite !map_map. cbn [fst snd].
      rewrite <- (map_map system_time_start format_YMD), water_masked_dates.
      rewrite length_map, <- water_masked_dates, length_map.
      repeat split. left. exact Hfit.
    + intros im _. unfold ConstructTimeSeries.area_of_image, reduceRegion_sum.
      cbv zeta. apply Z.ltb_ge in Hfit. rewrite Hfit. reflexivity.
Qed.

(** X18: the series the script computes for a grazing allotment has one
    date and one area for every period of the list of dates, in its order,
    and carries the allotment's feature; it is computed exactly when the
    allotment's geometry is within the budget of 1e10 pixels or there is no
    period at all, and otherwise the computation fails on the pixel budget.
    The exported table has one series per allotment, in the order of the
    allotments, and it fails as a whole as soon as one allotment fails. *)
Theorem allotment_series_follow_the_periods :
  (forall feature,
     match calculateWaterArea_allotments feature with
     | Ok s =>
         ((Z.of_nat (List.length (ConstructTimeSeries.geometry feature))
           <= 10000000000)%Z \/ periods = [])
         /\ ConstructTimeSeries.feature s = feature
         /\ ConstructTimeSeries.date_array s = map format_YMD periods
         /\ List.length (ConstructTimeSeries.area_array s) = List.length periods
     | Err e =>
         e = TooManyPixels
         /\ (10000000000
             < Z.of_nat (List.length (ConstructTimeSeries.geometry feature)))%Z
         /\ periods <> []
     end)
  /\ match waterArea_allotments with
     | Ok table =>
         map ConstructTimeSeries.feature table = allotments
         /\ Forall (fun s =>
                      ConstructTimeSeries.date_array s = map format_YMD periods
                      /\ List.length (ConstructTimeSeries.area_array s)
                         = List.length periods) table
     | Err e =>
         e = TooManyPixels
         /\ periods <> []
         /\ exists feature,
              In feature allotments
              /\ (10000000000
                  < Z.of_nat (List.length (ConstructTimeSeries.geometry feature)))%Z
     end.
Proof.
  split; [exact allotment_series_cases|].
  unfold ConstructTimeSeries.waterArea_allotments.
  destruct (mapM calculateWaterArea_allotments allotments) as [table|e] eqn:E.
  - apply mapM_Ok in E.
    induction E as [|feature s fs ss Hs _ IH]; [split; [reflexivity|constructor]|].
    destruct IH as [IH1 IH2].
    assert (H := allotment_series_cases feature). rewrite Hs in H.
    destruct H as (_ & Hf & Hd & Hl).
    split; [cbn [map]; congruence|]. constructor; [split; assumption|exact IH2].
  - apply mapM_Err in E. destruct E as (feature & Hin & He).
    assert (H := allotment_series_cases feature). rewrite He in H.
    destruct H as (-> & Hbig & Hp). split; [reflexivity|]. split; [exact Hp|].
    exists feature. split; assumption.
Qed.

End AllotmentSeries.

(** ** The lists of the user interface *)

Lemma ascii_compare_N (a b : Ascii.ascii) :
  Ascii.compare a b = N.compare (Ascii.N_of_ascii a) (Ascii.N_of_ascii b).
Proof. reflexivity. Qed.

Lemma string_compare_trans (s1 : string) :
  forall s2 s3 : string,
    String.compare s1 s2 <> Gt -> String.compare s2 s3 <> Gt ->
    String.compare s1 s3 <> Gt.
Proof.
  induction s1 as [|a s1 IH]; intros [|b s2] [|c s3]; cbn [String.compare];
    try congruence.
  rewrite !ascii_compare_N.
  destruct (N.compare_spec (Ascii.N_of_ascii a) (Ascii.N_of_ascii b)) as [Eab|Lab|Gab],
           (N.compare_spec (Ascii.N_of_ascii b) (Ascii.N_of_ascii c)) as [Ebc|Lbc|Gbc],
           (N.compare_spec (Ascii.N_of_ascii a) (Ascii.N_of_ascii c)) as [Eac|Lac|Gac];
    try congruence; try lia.
  apply IH.
Qed.

Lemma leb_compare (s1 s2 : string) :
  String.leb s1 s2 = true <-> String.compare s1 s2 <> Gt.
Proof.
  unfold String.leb. destruct (String.compare s1 s2); split; congruence.
Qed.

Lemma leb_trans (s1 s2 s3 : string) :
  String.leb s1 s2 = true -> String.leb s2 s3 = true -> String.leb s1 s3 = true.
Proof. rewrite !leb_compare. apply string_compare_trans. Qed.

Lemma leb_neq_ltb (s1 s2 : string) :
  String.leb s1 s2 = true -> s1 <> s2 -> String.ltb s1 s2 = true.
Proof.
  unfold String.leb, String.ltb. intros H N.
  destruct (String.compare s1 s2) eqn:E; [|reflexivity|discriminate].
  apply String.compare_eq_iff in E. contradiction.
Qed.

Lemma insert_by_key_perm {A : Type} (k : string) (v : A) (l : list (string * A)) :
  Permutation (SWIFT.insert_by_key k v l) ((k, v) :: l).
Proof.
  induction l as [|[k' v'] l IH]; cbn [SWIFT.insert_by_key]; [reflexivity|].
  destruct (String.leb k k'); [reflexivity|].
  rewrite IH. apply perm_swap.
Qed.

Lemma sort_pairs_perm {A : Type} (l : list (string * A)) :
  Permutation (SWIFT.sort_pairs l) l.
Proof.
  induction l as [|[k v] l IH]; cbn [SWIFT.sort_pairs fold_right fst snd];
    [reflexivity|].
  fold (SWIFT.sort_pairs l). rewrite insert_by_key_perm. now constructor.
Qed.

Lemma insert_by_key_fst {A B : Type} (k : string) (v : A) (w : B)
    (l : list (string * A)) (m : list (string * B)) :
  map fst l = map fst m ->
  map fst (SWIFT.insert_by_key k v l) = map fst (SWIFT.insert_by_key k w m).
Proof.
  revert m. induction l as [|[k1 v1] l IH]; intros [|[k2 v2] m] H;
    cbn [map fst] in H; try discriminate; cbn [SWIFT.insert_by_key];
    [reflexivity|].
  injection H as <- H. destruct (String.leb k k1); cbn [map fst].
  - now rewrite H.
  - f_equal. now apply IH.
Qed.

Lemma sort_pairs_fst {A B : Type} (l : list (string * A)) (m : list (string * B)) :
  map fst l = map fst m ->
  map fst (SWIFT.sort_pairs l) = map fst (SWIFT.sort_pairs m).
Proof.
  revert m. induction l as [|[k1 v1] l IH]; intros [|[k2 v2] m] H;
    cbn [map fst] in H; try discriminate; [reflexivity|].
  injection H as <- H.
  cbn [SWIFT.sort_pairs fold_right fst snd].
  apply insert_by_key_fst. apply IH. exact H.
Qed.

Lemma insert_by_key_diag (k : string) (l : list (string * string)) :
  map fst l = map snd l ->
  map fst (SWIFT.insert_by_key k k l) = map snd (SWIFT.insert_by_key k k l).
Proof.
  induction l as [|[k1 v1] l IH]; intros H; cbn [SWIFT.insert_by_key];
    [reflexivity|].
  cbn [map fst snd] in H. injection H as <- H.
  destruct (String.leb k k1); cbn [map fst snd].
  - now rewrite H.
  - f_equal. now apply IH.
Qed.

Lemma sort_pairs_diag (l : list string) :
  map fst (SWIFT.sort_pairs (combine l l)) = map snd (SWIFT.sort_pairs (combine l l)).
Proof.
  induction l as [|k l IH]; [reflexivity|].
  cbn [combine SWIFT.sort_pairs fold_right fst snd].
  apply insert_by_key_diag. exact IH.
Qed.

Lemma combine_fst_snd {A B : Type} (l : list (A * B)) :
  combine (map fst l) (map snd l) = l.
Proof.
  induction l as [|[a b] l IH]; cbn [map combine fst snd]; [reflexivity|].
  now rewrite IH.
Qed.

Lemma map_fst_combine_same {A B : Type} (f : A -> string) (g : A -> B) (l : list A) :
  map fst (combine (map f l) (map g l)) = map f l.
Proof.
  induction l as [|a l IH]; cbn [map combine fst]; [reflexivity|]. now rewrite IH.
Qed.

Lemma combine_map_same {A B C : Type} (f : A -> B) (g : A -> C) (l : list A) :
  combine (map f l) (map g l) = map (fun a => (f a, g a)) l.
Proof.
  induction l as [|a l IH]; cbn [map combine]; [reflexivity|]. now rewrite IH.
Qed.

Local Abbreviation ascending := (fun a b : string => String.leb a b = true).
Local Abbreviation strictly_ascending := (fun a b : string => String.ltb a b = true).

Lemma insert_by_key_sorted {A : Type} (k : string) (v : A) (l : list (string * A)) :
  StronglySorted ascending (map fst l) ->
  StronglySorted ascending (map fst (SWIFT.insert_by_key k v l)).
Proof.
  induction l as [|[k' v'] l IH]; intros H; cbn [SWIFT.insert_by_key].
  - repeat constructor.
  - cbn [map fst] in H. apply StronglySorted_inv in H. destruct H as [Hs Hf].
    destruct (String.leb k k') eqn:E; cbn [map fst].
    + constructor; [constructor; assumption|].
      constructor; [exact E|].
      eapply Forall_impl; [|exact Hf]. intros x Hx. exact (leb_trans _ _ _ E Hx).
    + constructor; [apply IH; exact Hs|].
      assert (E' : String.leb k' k = true).
      { destruct (String.leb_total k k') as [H|H]; congruence. }
      assert (P : Permutation (map fst (SWIFT.insert_by_key k v l)) (k :: map fst l))
        by (rewrite insert_by_key_perm; reflexivity).
      apply (Permutation_Forall (Permutation_sym P)).
      constructor; assumption.
Qed.

Lemma sort_pairs_sorted {A : Type} (l : list (string * A)) :
  StronglySorted ascending (map fst (SWIFT.sort_pairs l)).
Proof.
  induction l as [|[k v] l IH]; [constructor|].
  cbn [SWIFT.sort_pairs fold_right fst snd]. apply insert_by_key_sorted. exact IH.
Qed.

Lemma sort_perm (l : list string) : Permutation (SWIFT.sort l) l.
Proof.
  unfold SWIFT.sort, SWIFT.sort_by_keys.
  rewrite sort_pairs_perm.
  induction l as [|a l IH]; cbn [combine map snd]; [reflexivity|]. now constructor.
Qed.

Lemma sort_sorted (l : list string) : StronglySorted ascending (SWIFT.sort l).
Proof.
  unfold SWIFT.sort, SWIFT.sort_by_keys. rewrite <- sort_pairs_diag.
  apply sort_pairs_sorted.
Qed.

Lemma In_distinct (x : string) (l : list string) :
  In x (SWIFT.distinct l) <-> In x l.
Proof.
  induction l as [|a l IH]; cbn [SWIFT.distinct In]; [reflexivity|].
  rewrite filter_In, IH.
  destruct (String.eqb_spec x a) as [->|N]; cbn [negb].
  - split; [now left|]. intros _. now left.
  - split.
    + intros [H|[H _]]; [now left|now right].
    + intros [H|H]; [now left|]. right. split; [exact H|reflexivity].
Qed.

Lemma filter_sorted {A : Type} (R : A -> A -> Prop) (f : A -> bool) (l : list A) :
  StronglySorted R l -> StronglySorted R (filter f l).
Proof.
  induction 1 as [|a l Hs IH Hf]; cbn [filter]; [constructor|].
  destruct (f a); [|exact IH]. constructor; [exact IH|].
  apply Forall_forall. intros x Hx. apply filter_In in Hx.
  exact (proj1 (Forall_forall _ _) Hf x (proj1 Hx)).
Qed.

Lemma distinct_sorted (l : list string) :
  StronglySorted ascending l -> StronglySorted strictly_ascending (SWIFT.distinct l).
Proof.
  induction 1 as [|a l Hs IH Hf]; cbn [SWIFT.distinct]; [constructor|].
  constructor; [apply filter_sorted; exact IH|].
  apply Forall_forall. intros x Hx. apply filter_In in Hx. destruct Hx as [Hx Hn].
  apply (proj1 (In_distinct x l)) in Hx.
  apply leb_neq_ltb; [exact (proj1 (Forall_forall _ _) Hf x Hx)|].
  intros <-. rewrite String.eqb_refl in Hn. discriminate.
Qed.

Lemma In_aggregate_array (name v : string) (c : list SWIFT.Feature) :
  In v (SWIFT.aggregate_array name c)
  <-> exists f, In f c /\ SWIFT.get name (SWIFT.props f) = Some v.
Proof.
  unfold SWIFT.aggregate_array. rewrite in_flat_map. split.
  - intros (f & Hf & Hv). exists f. split; [exact Hf|].
    destruct (SWIFT.get name (SWIFT.props f)); [|contradiction].
    destruct Hv as [->|[]]. reflexivity.
  - intros (f & Hf & Hv). exists f. split; [exact Hf|]. rewrite Hv. now left.
Qed.

Lemma In_filterMetadata (name value : string) (c : list SWIFT.Feature)
    (f : SWIFT.Feature) :
  In f (SWIFT.filterMetadata_equals name value c)
  <-> In f c /\ SWIFT.get name (SWIFT.props f) = Some value.
Proof.
  unfold SWIFT.filterMetadata_equals. rewrite filter_In.
  destruct (SWIFT.get name (SWIFT.props f)) as [v|].
  - destruct (String.eqb_spec v value) as [->|N]; split; intros [H1 H2];
      split; congruence.
  - split; intros [H1 H2]; discriminate.
Qed.

(** The list of a drop-down: the values of [field] of the features whose
    [key] is [value], each once, in ascending order. *)
Lemma dropdown_list (key value field : string) (c : list SWIFT.Feature) :
  let items := SWIFT.distinct (SWIFT.sort
                 (SWIFT.aggregate_array field
                    (SWIFT.filterMetadata_equals key value c))) in
  (forall name,
      In name items
      <-> exists f, In f c /\ SWIFT.get key (SWIFT.props f) = Some value
                    /\ SWIFT.get field (SWIFT.props f) = Some name)
  /\ StronglySorted strictly_ascending items.
Proof.
  cbv zeta. split.
  - intros name. rewrite In_distinct.
    rewrite (Permutation_in' (eq_refl name) (sort_perm _)).
    rewrite In_aggregate_array. split.
    + intros (f & Hf & Hn). apply In_filterMetadata in Hf. exists f. tauto.
    + intros (f & Hf & Hk & Hn). exists f. rewrite In_filterMetadata. tauto.
  - apply distinct_sorted, sort_sorted.
Qed.

(** X19: the three chained drop-down lists.  The list of forests of a
    state, of districts of a forest and of allotments of a district holds
    exactly the names found in the allotment table under the selected
    parent, and it is in strictly ascending order, so no name is listed
    twice. *)
Theorem dropdown_lists_sorted_without_repetition :
  forall (allotments : list SWIFT.Feature) (selected : string),
    ((forall name,
         In name (SWIFT.getForest allotments selected)
         <-> exists f, In f allotments
                       /\ SWIFT.get "State_Name" (SWIFT.props f) = Some selected
                       /\ SWIFT.get "National_F" (SWIFT.props f) = Some name)
     /\ StronglySorted (fun a b => String.ltb a b = true)
          (SWIFT.getForest allotments selected))
    /\ ((forall name,
         In name (SWIFT.getDistrict allotments selected)
         <-> exists f, In f allotments
                       /\ SWIFT.get "National_F" (SWIFT.props f) = Some selected
                       /\ SWIFT.get "ADMIN_ORG_" (SWIFT.props f) = Some name)
     /\ StronglySorted (fun a b => String.ltb a b = true)
          (SWIFT.getDistrict allotments selected))
    /\ ((forall name,
         In name (SWIFT.getAllotment allotments selected)
         <-> exists f, In f allotments
                       /\ SWIFT.get "ADMIN_ORG_" (SWIFT.props f) = Some selected
                       /\ SWIFT.get "ALLOTMENT_" (SWIFT.props f) = Some name)
     /\ StronglySorted (fun a b => String.ltb a b = true)
          (SWIFT.getAllotment allotments selected)).
Proof.
  intros allotments selected. repeat apply conj.
  - apply (dropdown_list "State_Name" selected "National_F" allotments).
  - apply (dropdown_list "State_Name" selected "National_F" allotments).
  - apply (dropdown_list "National_F" selected "ADMIN_ORG_" allotments).
  - apply (dropdown_list "National_F" selected "ADMIN_ORG_" allotments).
  - apply (dropdown_list "ADMIN_ORG_" selected "ALLOTMENT_" allotments).
  - apply (dropdown_list "ADMIN_ORG_" selected "ALLOTMENT_" allotments).
Qed.

(** X20: the allotment selected in the last drop-down is looked up by its
    name in the whole allotment table, not in the selected district.  For a
    name offered by the list of a district the selection is never empty and
    holds an allotment of this district, and it holds every allotment of
    that name of any other district as well; the area of interest is made
    of the geometries of them all. *)
Theorem allotmentSelected_ignores_the_district :
  forall (allotments : list SWIFT.Feature) (district name : string),
    In name (SWIFT.getAllotment allotments district) ->
    (exists f, In f (SWIFT.allotmentSelected allotments name)
               /\ SWIFT.get "ADMIN_ORG_" (SWIFT.props f) = Some district)
    /\ (forall f, In f allotments ->
                  SWIFT.get "ALLOTMENT_" (SWIFT.props f) = Some name ->
                  In f (SWIFT.allotmentSelected allotments name)
                  /\ forall p, In p (SWIFT.geometry f) ->
                               In p (SWIFT.AOI_of
                                       (SWIFT.allotmentSelected allotments name))).
Proof.
  intros allotments district name H.
  apply (dropdown_list "ADMIN_ORG_" district "ALLOTMENT_" allotments) in H.
  destruct H as (f & Hf & Hd & Hn). split.
  - exists f. split; [|exact Hd]. unfold SWIFT.allotmentSelected.
    apply In_filterMetadata. split; assumption.
  - intros g Hg Hgn.
    assert (Hsel : In g (SWIFT.allotmentSelected allotments name))
      by (apply In_filterMetadata; split; assumption).
    split; [exact Hsel|]. intros p Hp. unfold SWIFT.AOI_of.
    apply in_flat_map. exists g. split; assumption.
Qed.

Lemma allotmentSelected_ignores_the_district_witness :
  let table :=
    [ {| SWIFT.props := [("ADMIN_ORG_", "Tonto Basin"); ("ALLOTMENT_", "Cedar")];
         SWIFT.geometry := [1%nat] |};
      {| SWIFT.props := [("ADMIN_ORG_", "Globe"); ("ALLOTMENT_", "Cedar")];
         SWIFT.geometry := [2%nat] |} ] in
  In "Cedar" (SWIFT.getAllotment table "Globe")
  /\ In 1%nat (SWIFT.AOI_of (SWIFT.allotmentSelected table "Cedar")).
Proof.
  cbv zeta.
  assert (H : In "Cedar"
                (SWIFT.getAllotment
                   [ {| SWIFT.props := [("ADMIN_ORG_", "Tonto Basin");
                                        ("ALLOTMENT_", "Cedar")];
                        SWIFT.geometry := [1%nat] |};
                     {| SWIFT.props := [("ADMIN_ORG_", "Globe");
                                        ("ALLOTMENT_", "Cedar")];
                        SWIFT.geometry := [2%nat] |} ] "Globe"))
    by (vm_compute; left; reflexivity).
  split; [exact H|].
  refine (proj2 (proj2 (allotmentSelected_ignores_the_district _ "Globe" "Cedar" H)
                   {| SWIFT.props := [("ADMIN_ORG_", "Tonto Basin");
                                      ("ALLOTMENT_", "Cedar")];
                      SWIFT.geometry := [1%nat] |} _ _) 1%nat _).
  - left. reflexivity.
  - reflexivity.
  - left. reflexivity.
Defined.

(** X21: the chart of an allotment.  With no row of that name in the table
    of water areas the chart fails on the first element of an empty list.
    Otherwise its title names the selected allotment, its labels are the
    dates of the allotment's rows in ascending order, and the plotted
    values are paired with the labels as the areas are paired with the
    dates in the rows, whatever the order of the rows. *)
Theorem timeSeriesPlot_pairs_areas_with_dates :
  forall (waterArea_allotments : list SWIFT.AreaRow) (allotmentSelected : string),
    let rows := filter (fun r => String.eqb (SWIFT.allotmentName r) allotmentSelected)
                       waterArea_allotments in
    match SWIFT.timeSeriesPlot waterArea_allotments allotmentSelected with
    | SWIFT.Failed f => f = SWIFT.IndexOutOfBounds 0 /\ rows = []
    | SWIFT.Done chart =>
        rows <> []
        /\ SWIFT.title chart
           = String.append "Surface Water Extent in " allotmentSelected
        /\ List.length (SWIFT.xLabels chart) = List.length (SWIFT.array chart)
        /\ Permutation (combine (SWIFT.xLabels chart) (SWIFT.array chart))
                       (map (fun r => (SWIFT.date r, SWIFT.area r)) rows)
        /\ StronglySorted (fun a b => String.leb a b = true) (SWIFT.xLabels chart)
    end.
Proof.
  intros table selected rows. unfold SWIFT.timeSeriesPlot. cbv zeta.
  fold rows. destruct rows as [|r rows'] eqn:E; cbn [map nth_error].
  - split; reflexivity.
  - set (rs := r :: rows').
    assert (Hr : SWIFT.allotmentName r = selected).
    { assert (Hin : In r (filter (fun r => String.eqb (SWIFT.allotmentName r) selected)
                                 table)) by (fold rows; rewrite E; now left).
      apply filter_In in Hin. now apply String.eqb_eq. }
    change (SWIFT.date r :: map SWIFT.date rows') with (map SWIFT.date rs).
    change (SWIFT.area r :: map SWIFT.area rows') with (map SWIFT.area rs).
    cbn [SWIFT.title SWIFT.xLabels SWIFT.array].
    assert (Hk : SWIFT.sort (map SWIFT.date rs)
                 = map fst (SWIFT.sort_pairs
                              (combine (map SWIFT.date rs) (map SWIFT.area rs)))).
    { unfold SWIFT.sort, SWIFT.sort_by_keys. rewrite <- sort_pairs_diag.
      apply sort_pairs_fst. rewrite !map_fst_combine_same. reflexivity. }
    split; [discriminate|]. split; [now rewrite Hr|]. split; [|split].
    + rewrite Hk. unfold SWIFT.sort_by_keys. now rewrite !length_map.
    + rewrite Hk. unfold SWIFT.sort_by_keys. rewrite combine_fst_snd.
      rewrite sort_pairs_perm, combine_map_same. reflexivity.
    + apply sort_sorted.
Qed.
